(** * SOMD2 runner: scheduler and checkpointed simulation sessions

    A shallow embedding of [somd2/runner/_dynamics.py] (class [Dynamics]) and
    [somd2/runner/_runner.py] (class [Runner]), and the properties of the
    design document that can be stated over it.

    Layout: Python values and exceptions; numbers; the world (the objects the
    two classes share and mutate) and its monad; [Dynamics]; [Runner]; then
    the theorems. *)

From Stdlib Require Import ZArith QArith Floats List Bool Lia Ascii String DecimalString.
From Stdlib Require Import DecimalNat DecimalFacts.
From Stdlib Require Import Sorting.Sorted Qround.
From stdpp Require Import base gmap strings list.

Set Warnings "-inexact-float".
Local Open Scope Z_scope.

(** ** Python exceptions and results *)

Module Py.

(** The exception classes the two files raise or meet.  [EngineError] stands
    for whatever sire, OpenMM or the file system raises inside a call the
    runner only forwards. *)
Inductive exn : Type :=
| KeyError (msg : string)
| TypeError (msg : string)
| ValueError (msg : string)
| IndexError
| AttributeError (attr : string)
| NameError (name : string)
(** a local variable read before it is bound *)
| UnboundLocalError (name : string)
| ZeroDivisionError
| OverflowError
| EngineError (code : nat).

Inductive outcome (A : Type) : Type :=
| Ok (a : A)
| Raise (e : exn).
Arguments Ok {A} a.
Arguments Raise {A} e.

Definition is_ok {A} (r : outcome A) : bool :=
  match r with Ok _ => true | Raise _ => false end.

(** [str(n)] for a non-negative index. *)
Definition str_of_nat (n : nat) : string := NilZero.string_of_uint (Nat.to_uint n).

(** [l.index(v)]: position of the first element equal to [v]. *)
Fixpoint index_of (v : string) (l : list string) : option nat :=
  match l with
  | [] => None
  | x :: r => if String.eqb x v then Some 0%nat
              else option_map S (index_of v r)
  end.

(** [l[:k]] for an integer [k] (a negative [k] counts from the end). *)
Definition slice_to {A} (k : Z) (l : list A) : list A :=
  if 0 <=? k then firstn (Z.to_nat k) l
  else firstn (length l - Z.to_nat (- k)) l.

(** [range(0, n)]. *)
Definition range (n : Z) : list Z := map Z.of_nat (seq 0 (Z.to_nat n)).

(** [s.split(",")]: the pieces between commas, the last one included. *)
Fixpoint split_comma_aux (cur : string) (s : string) : list string :=
  match s with
  | EmptyString => [cur]
  | String c r =>
      if Ascii.eqb c ","%char then cur :: split_comma_aux EmptyString r
      else split_comma_aux (cur ++ String c EmptyString)%string r
  end.
Definition split_comma (s : string) : list string := split_comma_aux EmptyString s.

End Py.
Import Py.

(** ** Numbers

    Lambda values and the values of sire time quantities are Python numbers.
    The code is written once over the operations it uses on them and run at
    two instances: IEEE binary64 (what CPython computes with) and exact
    rationals. *)

Class PyNum (T : Type) : Type := {
  (** the number a decimal literal [n/d] denotes *)
  num_lit : Z -> positive -> T;
  num_add : T -> T -> T;
  num_sub : T -> T -> T;
  (** [x / y]; raises [ZeroDivisionError] *)
  num_div : T -> T -> outcome T;
  (** [x < y] and [x == y] *)
  num_lt : T -> T -> bool;
  num_eq : T -> T -> bool;
  (** [int(x)]: truncation toward zero *)
  num_int : T -> outcome Z;
  (** [round(x, ndigits)] *)
  num_round : T -> Z -> T
}.

Definition num_zero {T} `{PyNum T} : T := num_lit 0 1.
Definition num_one {T} `{PyNum T} : T := num_lit 1 1.
Definition num_of_int {T} `{PyNum T} (z : Z) : T := num_lit z 1.

(** Nearest integer to [n/d], ties to the even one ([0 <= n], [0 < d]). *)
Definition round_half_even (n d : Z) : Z :=
  let q := n / d in
  let r := n mod d in
  match 2 * r ?= d with
  | Lt => q
  | Gt => q + 1
  | Eq => if Z.even q then q else q + 1
  end.

(** *** binary64 *)

Module F64.

Definition prec : Z := 53.
Definition emax : Z := 1024.

(** The double nearest to [n/d] (ties to even), as [float("n/d")] and the
    integer true division [n / d] give it. *)
Definition of_ratio (neg : bool) (n d : positive) : float :=
  let '(q, e, l) := SFdiv_core_binary prec emax (Zpos n) 0 (Zpos d) 0 in
  SF2Prim (binary_round_aux prec emax neg q e l).

Definition lit (n : Z) (d : positive) : float :=
  match n with
  | Z0 => PrimFloat.zero
  | Zpos p => of_ratio false p d
  | Zneg p => of_ratio true p d
  end.

Definition div (x y : float) : outcome float :=
  if PrimFloat.eqb y PrimFloat.zero then Raise ZeroDivisionError
  else Ok (PrimFloat.div x y).

(** [int(x)]: [OverflowError] on an infinity, [ValueError] on a NaN. *)
Definition to_int (x : float) : outcome Z :=
  match Prim2SF x with
  | S754_zero _ => Ok 0
  | S754_infinity _ => Raise OverflowError
  | S754_nan => Raise (ValueError "cannot convert float NaN to integer")
  | S754_finite s m e =>
      let v := if 0 <=? e then Zpos m * 2 ^ e else Zpos m / 2 ^ (- e) in
      Ok (if s then - v else v)
  end.

(** [round(x, nd)]: the exact value of [x] is rounded half-even to [nd]
    decimals and the decimal result converted back to the nearest double. *)
Definition round (x : float) (nd : Z) : float :=
  match Prim2SF x with
  | S754_finite s m e =>
      let num := if 0 <=? e then Zpos m * 2 ^ e else Zpos m in
      let den := if 0 <=? e then 1 else 2 ^ (- e) in
      let p := 10 ^ Z.abs nd in
      let n := if 0 <=? nd then round_half_even (num * p) den
               else round_half_even num (den * p) * p in
      match n with
      | Zpos k => of_ratio s k (if 0 <=? nd then Z.to_pos p else 1%positive)
      | _ => SF2Prim (S754_zero s)
      end
  | _ => x
  end.

End F64.

#[global] Instance float_num : PyNum float := {|
  num_lit := F64.lit;
  num_add := PrimFloat.add;
  num_sub := PrimFloat.sub;
  num_div := F64.div;
  num_lt := PrimFloat.ltb;
  num_eq := PrimFloat.eqb;
  num_int := F64.to_int;
  num_round := F64.round
|}.

(** *** exact rationals, kept in lowest terms *)

Module Rat.

Definition lit (n : Z) (d : positive) : Q := Qred (n # d).
Definition add (x y : Q) : Q := Qred (x + y).
Definition sub (x y : Q) : Q := Qred (x - y).
Definition ltb (x y : Q) : bool := negb (Qle_bool y x).
Definition div (x y : Q) : outcome Q :=
  if Qeq_bool y 0 then Raise ZeroDivisionError else Ok (Qred (x / y)).
Definition to_int (x : Q) : outcome Z := Ok (Z.quot (Qnum x) (Zpos (Qden x))).
Definition round (x : Q) (nd : Z) : Q :=
  let s := Qnum x <? 0 in
  let num := Z.abs (Qnum x) in
  let den := Zpos (Qden x) in
  let p := 10 ^ Z.abs nd in
  let n := if 0 <=? nd then round_half_even (num * p) den
           else round_half_even num (den * p) * p in
  let sn := if s then - n else n in
  Qred (sn # (if 0 <=? nd then Z.to_pos p else 1%positive)).

End Rat.

#[global] Instance Q_num : PyNum Q := {|
  num_lit := Rat.lit;
  num_add := Rat.add;
  num_sub := Rat.sub;
  num_div := Rat.div;
  num_lt := Rat.ltb;
  num_eq := Qeq_bool;
  num_int := Rat.to_int;
  num_round := Rat.round
|}.

(** ** The world

    Everything the two classes read and mutate: the one configuration object
    (the [Runner] and every [Dynamics] it builds hold a reference to the same
    object), the Python list objects that are passed by reference, the
    attributes of the [Runner], the [Dynamics] instance bound to
    [Runner._sim], and the outside (sire, OpenMM, files, the logger), which
    is observed as a trace of calls and decides which of them raise. *)

Section World.
Context {T : Type}.

(** A [somd2.config.Config] object: the options the two files read.  The
    options that are only forwarded to sire ([integrator], [cutoff], ...) are
    left out.  Time options hold the value of their sire quantity. *)
Record Config : Type := {
  restart : bool;
  runtime : T;
  checkpoint_frequency : T;
  energy_frequency : T;
  frame_frequency : T;
  equilibration_time : T;
  equilibration_timestep : T;
  equilibration_constraints : bool;
  timestep : T;
  constraint : string;
  perturbable_constraint : string;
  minimise : bool;
  save_trajectories : bool;
  save_energy_components : bool;
  save_velocities : bool;
  platform : string;
  run_parallel : bool;
  num_lambda : option Z;
  max_threads : Z;
  max_gpus : option Z;
  extra_args : gmap string Z;
  temperature : T;
  output_directory : string;
  (** the name of the [LambdaSchedule] in use *)
  lambda_schedule : string
}.

(** Modelled from the spec: the property setters of [Config] (the class is
    not part of these two files).  [config.runtime = str(q)] and
    [config.checkpoint_frequency = str(q)] store the quantity [q];
    [config.extra_args = d] stores the dictionary [d], which
    [config._extra_args] reads back; [config.lambda_schedule = s] stores the
    schedule [s]. *)
Definition set_runtime (v : T) (c : Config) : Config :=
  {| restart := restart c; runtime := v;
     checkpoint_frequency := checkpoint_frequency c;
     energy_frequency := energy_frequency c;
     frame_frequency := frame_frequency c;
     equilibration_time := equilibration_time c;
     equilibration_timestep := equilibration_timestep c;
     equilibration_constraints := equilibration_constraints c;
     timestep := timestep c; constraint := constraint c;
     perturbable_constraint := perturbable_constraint c;
     minimise := minimise c; save_trajectories := save_trajectories c;
     save_energy_components := save_energy_components c;
     save_velocities := save_velocities c; platform := platform c;
     run_parallel := run_parallel c; num_lambda := num_lambda c;
     max_threads := max_threads c; max_gpus := max_gpus c;
     extra_args := extra_args c; temperature := temperature c;
     output_directory := output_directory c;
     lambda_schedule := lambda_schedule c |}.

Definition set_checkpoint_frequency (v : T) (c : Config) : Config :=
  {| restart := restart c; runtime := runtime c;
     checkpoint_frequency := v;
     energy_frequency := energy_frequency c;
     frame_frequency := frame_frequency c;
     equilibration_time := equilibration_time c;
     equilibration_timestep := equilibration_timestep c;
     equilibration_constraints := equilibration_constraints c;
     timestep := timestep c; constraint := constraint c;
     perturbable_constraint := perturbable_constraint c;
     minimise := minimise c; save_trajectories := save_trajectories c;
     save_energy_components := save_energy_components c;
     save_velocities := save_velocities c; platform := platform c;
     run_parallel := run_parallel c; num_lambda := num_lambda c;
     max_threads := max_threads c; max_gpus := max_gpus c;
     extra_args := extra_args c; temperature := temperature c;
     output_directory := output_directory c;
     lambda_schedule := lambda_schedule c |}.

Definition set_extra_args (v : gmap string Z) (c : Config) : Config :=
  {| restart := restart c; runtime := runtime c;
     checkpoint_frequency := checkpoint_frequency c;
     energy_frequency := energy_frequency c;
     frame_frequency := frame_frequency c;
     equilibration_time := equilibration_time c;
     equilibration_timestep := equilibration_timestep c;
     equilibration_constraints := equilibration_constraints c;
     timestep := timestep c; constraint := constraint c;
     perturbable_constraint := perturbable_constraint c;
     minimise := minimise c; save_trajectories := save_trajectories c;
     save_energy_components := save_energy_components c;
     save_velocities := save_velocities c; platform := platform c;
     run_parallel := run_parallel c; num_lambda := num_lambda c;
     max_threads := max_threads c; max_gpus := max_gpus c;
     extra_args := v; temperature := temperature c;
     output_directory := output_directory c;
     lambda_schedule := lambda_schedule c |}.

Definition set_lambda_schedule (v : string) (c : Config) : Config :=
  {| restart := restart c; runtime := runtime c;
     checkpoint_frequency := checkpoint_frequency c;
     energy_frequency := energy_frequency c;
     frame_frequency := frame_frequency c;
     equilibration_time := equilibration_time c;
     equilibration_timestep := equilibration_timestep c;
     equilibration_constraints := equilibration_constraints c;
     timestep := timestep c; constraint := constraint c;
     perturbable_constraint := perturbable_constraint c;
     minimise := minimise c; save_trajectories := save_trajectories c;
     save_energy_components := save_energy_components c;
     save_velocities := save_velocities c; platform := platform c;
     run_parallel := run_parallel c; num_lambda := num_lambda c;
     max_threads := max_threads c; max_gpus := max_gpus c;
     extra_args := extra_args c; temperature := temperature c;
     output_directory := output_directory c;
     lambda_schedule := v |}.

(** What the code asks of a sire [System]. *)
Record System : Type := {
  (** [system.molecules("property is_perturbable")] finds something *)
  perturbable : bool;
  (** [system.time()] *)
  time : T
}.

(** A device number: [str] ids come from the pool, the [int] [0] from a
    sequential run. *)
Inductive device : Type :=
| DevStr (s : string)
| DevInt (z : Z).

(** References to Python list objects. *)
Definition loc : Type := nat.

(** The attributes of a [Dynamics] instance ([self._system], [self._dyn]
    and the frame counter live on the sire side). *)
Record Dyn : Type := {
  _current_block : Z;
  _lambda_val : T;
  _lambda_array : list T;
  _lambda_energy : loc;
  _increment : T;
  _device : option device;
  _has_space : bool;
  _lambda_grad : option (list T);
  _nrg_sample : Z
}.

Definition set_lambda_grad (g : list T) (d : Dyn) : Dyn :=
  {| _current_block := _current_block d; _lambda_val := _lambda_val d;
     _lambda_array := _lambda_array d; _lambda_energy := _lambda_energy d;
     _increment := _increment d; _device := _device d;
     _has_space := _has_space d; _lambda_grad := Some g;
     _nrg_sample := _nrg_sample d |}.

Definition set_nrg_sample (n : Z) (d : Dyn) : Dyn :=
  {| _current_block := _current_block d; _lambda_val := _lambda_val d;
     _lambda_array := _lambda_array d; _lambda_energy := _lambda_energy d;
     _increment := _increment d; _device := _device d;
     _has_space := _has_space d; _lambda_grad := _lambda_grad d;
     _nrg_sample := n |}.

Inductive level : Type := Info | Warning | Error | Success | Printed.

(** Log lines, by their template and the values formatted into them. *)
Inductive message : Type :=
| MsgMinimising (lam : T)
| MsgEquilibrating (lam : T)
| MsgRunningDynamics (lam : T)
| MsgFinishedBlock (k total : Z) (lam : T)
| MsgSystemCreationFailed (lam : T)
| MsgRunningLambda (lam : T)
| MsgRunningOnGPU (lam : T) (gpu : string)
| MsgRetryAtZero (lam : T) (e : exn)
| MsgFailedAfterRetry (lam : T) (e : exn)
| MsgDynamicsFailed (lam : T) (e : exn)
| MsgComplete (lam : T)
| MsgException (e : exn)
| MsgCudaDevices (devs : list string)
| MsgNumGpus (n : nat).

(** Calls that leave the two classes. *)
Inductive event : Type :=
| Log (lv : level) (m : message)
(** [Dynamics._run] was entered with this [lambda_minimisation] *)
| Enter_run (lambda_minimisation : option T)
| SaveTopology
| Minimise (lam : T) (cons pert_cons : string)
| SetupDynamics (equilibration : bool)
| Equilibrate (duration : T)
| SetTimeZero
(** [self._dyn.run(duration, ..., lambda_windows=lam_arr, ...)] *)
| Run (duration : T) (lam_arr : list T)
| EnergyComponents (sample : Z)
| Commit
| SaveChunk (x : Z)
(** [sr.stream.save(self._system, checkpoint_file)] *)
| Checkpoint
| ParquetWrite (x : Z)
| SetProperties
| ParquetAppend (x : Z)
| MergeTrajectory (restart : bool)
| TimeSpeed
| Cleanup
| WindowParquet (lam : T) (lambda_grad : list T).

Record world : Type := {
  config : Config;
  lists : gmap loc (list T);
  (** [os.environ.get("CUDA_VISIBLE_DEVICES")] *)
  cuda_visible_devices : option string;
  (** [Runner._system], [Runner._has_space], [Runner._lambda_values] *)
  runner_system : System;
  runner_has_space : bool;
  lambda_values : list T;
  (** [Runner.max_workers] and [Runner._gpu_pool]: unset until [run] *)
  max_workers : option Z;
  gpu_pool : option (list string);
  (** [Runner._sim] *)
  sim : option Dyn;
  trace : list event;
  (** which outside call raises, given the calls made so far *)
  engine : list event -> event -> option exn
}.

Definition with_config (c : Config) (w : world) : world :=
  {| config := c; lists := lists w;
     cuda_visible_devices := cuda_visible_devices w;
     runner_system := runner_system w; runner_has_space := runner_has_space w;
     lambda_values := lambda_values w; max_workers := max_workers w;
     gpu_pool := gpu_pool w; sim := sim w; trace := trace w;
     engine := engine w |}.

Definition with_lists (h : gmap loc (list T)) (w : world) : world :=
  {| config := config w; lists := h;
     cuda_visible_devices := cuda_visible_devices w;
     runner_system := runner_system w; runner_has_space := runner_has_space w;
     lambda_values := lambda_values w; max_workers := max_workers w;
     gpu_pool := gpu_pool w; sim := sim w; trace := trace w;
     engine := engine w |}.

Definition with_lambda_values (l : list T) (w : world) : world :=
  {| config := config w; lists := lists w;
     cuda_visible_devices := cuda_visible_devices w;
     runner_system := runner_system w; runner_has_space := runner_has_space w;
     lambda_values := l; max_workers := max_workers w;
     gpu_pool := gpu_pool w; sim := sim w; trace := trace w;
     engine := engine w |}.

Definition with_max_workers (n : Z) (w : world) : world :=
  {| config := config w; lists := lists w;
     cuda_visible_devices := cuda_visible_devices w;
     runner_system := runner_system w; runner_has_space := runner_has_space w;
     lambda_values := lambda_values w; max_workers := Some n;
     gpu_pool := gpu_pool w; sim := sim w; trace := trace w;
     engine := engine w |}.

Definition with_gpu_pool (p : list string) (w : world) : world :=
  {| config := config w; lists := lists w;
     cuda_visible_devices := cuda_visible_devices w;
     runner_system := runner_system w; runner_has_space := runner_has_space w;
     lambda_values := lambda_values w; max_workers := max_workers w;
     gpu_pool := Some p; sim := sim w; trace := trace w;
     engine := engine w |}.

Definition with_sim (d : Dyn) (w : world) : world :=
  {| config := config w; lists := lists w;
     cuda_visible_devices := cuda_visible_devices w;
     runner_system := runner_system w; runner_has_space := runner_has_space w;
     lambda_values := lambda_values w; max_workers := max_workers w;
     gpu_pool := gpu_pool w; sim := Some d; trace := trace w;
     engine := engine w |}.

Definition with_trace (t : list event) (w : world) : world :=
  {| config := config w; lists := lists w;
     cuda_visible_devices := cuda_visible_devices w;
     runner_system := runner_system w; runner_has_space := runner_has_space w;
     lambda_values := lambda_values w; max_workers := max_workers w;
     gpu_pool := gpu_pool w; sim := sim w; trace := t;
     engine := engine w |}.

(** ** Computations: state and exceptions *)

Definition M (A : Type) : Type := world -> outcome A * world.

Definition ret {A} (a : A) : M A := fun w => (Ok a, w).

Definition bind {A B} (m : M A) (k : A -> M B) : M B := fun w =>
  match m w with
  | (Ok a, w') => k a w'
  | (Raise e, w') => (Raise e, w')
  end.

Definition raise {A} (e : exn) : M A := fun w => (Raise e, w).

(** [try: m  except Exception as e: h e] *)
Definition try_except {A} (m : M A) (h : exn -> M A) : M A := fun w =>
  match m w with
  | (Ok a, w') => (Ok a, w')
  | (Raise e, w') => h e w'
  end.

Definition lift {A} (r : outcome A) : M A := fun w => (r, w).

Definition get {A} (f : world -> A) : M A := fun w => (Ok (f w), w).
Definition modify (f : world -> world) : M unit := fun w => (Ok tt, f w).

(** A call that cannot fail (the logger, [print]). *)
Definition emit (e : event) : M unit :=
  modify (fun w => with_trace (trace w ++ [e]) w).

(** A call into the outside: recorded, and raising when the outside says so. *)
Definition call (e : event) : M unit := fun w =>
  let w' := with_trace (trace w ++ [e]) w in
  match engine w (trace w) e with
  | Some x => (Raise x, w')
  | None => (Ok tt, w')
  end.

Definition log (lv : level) (m : message) : M unit := emit (Log lv m).

(** [for a in l: f a], collecting the results; stops at the first exception. *)
Fixpoint for_each {A B} (f : A -> M B) (l : list A) : M (list B) :=
  match l with
  | [] => ret []
  | a :: r => bind (f a) (fun b => bind (for_each f r) (fun bs => ret (b :: bs)))
  end.

(** List objects. *)
Definition list_read (l : loc) : M (list T) := fun w =>
  match lists w !! l with
  | Some xs => (Ok xs, w)
  | None => (Raise (NameError "list"), w)
  end.

Definition list_new (xs : list T) : M loc := fun w =>
  let l := fresh (dom (lists w)) in
  (Ok l, with_lists (<[l := xs]> (lists w)) w).

(** [l.copy()] *)
Definition list_copy (l : loc) : M loc := bind (list_read l) list_new.

(** [l.append(x)]: in place *)
Definition list_append (l : loc) (x : T) : M unit :=
  bind (list_read l) (fun xs =>
  modify (fun w => with_lists (<[l := xs ++ [x]]> (lists w)) w)).

End World.

Arguments Config : clear implicits.
Arguments System : clear implicits.
Arguments Dyn : clear implicits.
Arguments message : clear implicits.
Arguments event : clear implicits.
Arguments world : clear implicits.
Arguments M : clear implicits.

Declare Scope py_scope.
Delimit Scope py_scope with py.
Notation "x <- m ;; k" := (bind m (fun x => k))
  (at level 100, m at next level, right associativity) : py_scope.
Notation "m ;;; k" := (bind m (fun _ => k))
  (at level 100, right associativity) : py_scope.
Local Open Scope py_scope.

(** ** [somd2/runner/_dynamics.py] *)

Module Dynamics.
Section Dynamics.
Context {T : Type} `{PyNum T}.

Inductive dataframe : Type :=
| EnergyTrajectory (lam : T).

(** [x in l], for an [x] that is [==] to itself.  Python looks for an
    element that is the object [x] or is [==] to it; an object that is [==]
    to itself is [==] to every element that is that object, so that the
    search for an element [==] to [x] finds what [in] finds.  A NaN is not
    [==] to itself: [in] finds it when the list holds that very object, and
    the identity of number objects is not part of this model ([object_in]
    spells the test out with it).  When [contains x l] holds, [x in l] holds
    for every [x]. *)
Definition contains (x : T) (l : list T) : bool :=
  existsb (fun e => num_eq e x) l.

(** [sorted(l)]: a stable sort that compares with [<] only (by insertion
    here; every stable sort gives the same list when no element is a
    NaN). *)
Fixpoint insert (x : T) (l : list T) : list T :=
  match l with
  | [] => [x]
  | y :: r => if num_lt y x then y :: insert x r else x :: y :: r
  end.

Fixpoint sorted (l : list T) : list T :=
  match l with
  | [] => []
  | x :: r => insert x (sorted r)
  end.

(** [create_filenames]: only its check is modelled; the names themselves
    (and the probing of the output directory on a restart) are not. *)
Definition create_filenames (lambda_array : list T) (lambda_value : T)
    : M T unit :=
  if contains lambda_value lambda_array then ret tt
  else raise (ValueError "lambda_value not in lambda_array").

(** [Dynamics.__init__(system, lambda_val, lambda_array, lambda_energy,
    config, increment, device, has_space)].  [config] is the configuration
    object of the world; [lambda_energy] is a reference to the caller's
    list, or [None]. *)
Definition __init__ (system : System T) (lambda_val : T)
    (lambda_array : list T) (lambda_energy : option loc) (increment : T)
    (device : option device) (has_space : bool) : M T (Dyn T) :=
  (if perturbable system then ret tt
   else raise (KeyError "No perturbable molecules in the system"));;;
  cfg <- get config;;
  current_block <-
    (if restart cfg then
       modify (fun w =>
         with_config (set_runtime (num_sub (runtime cfg) (time system))
                                  (config w)) w);;;
       q <- lift (num_div (time system) (checkpoint_frequency cfg));;
       lift (num_int (num_round q 12))
     else ret 0);;
  copy <- match lambda_energy with
          | Some l => list_copy l
          | None => raise (AttributeError "copy")
          end;;
  xs <- list_read copy;;
  (if contains lambda_val xs then ret tt else list_append copy lambda_val);;;
  xs <- list_read copy;;
  lambda_energy' <- list_new (sorted xs);;
  create_filenames lambda_array lambda_val;;;
  ret {| _current_block := current_block; _lambda_val := lambda_val;
         _lambda_array := lambda_array; _lambda_energy := lambda_energy';
         _increment := increment; _device := device;
         _has_space := has_space; _lambda_grad := None;
         _nrg_sample := 0 |}.

(** The call [Dynamics(...)]: an argument that is not passed is [None]
    here.  [lambda_energy] has no default; [increment], [device] and
    [has_space] default to [0.001], [None] and [True]. *)
Definition new (system : System T) (lambda_val : T) (lambda_array : list T)
    (lambda_energy : option (option loc)) (increment : option T)
    (device : option (option device)) (has_space : option bool)
    : M T (Dyn T) :=
  match lambda_energy with
  | None =>
      raise (TypeError "Dynamics.__init__() missing 1 required positional argument: 'lambda_energy'")
  | Some le =>
      __init__ system lambda_val lambda_array le
        (default (num_lit 1 1000) increment)
        (default None device) (default true has_space)
  end.

Definition self : M T (Dyn T) := fun w =>
  match sim w with
  | Some d => (Ok d, w)
  | None => (Raise (AttributeError "_sim"), w)
  end.

Definition update_self (f : Dyn T -> Dyn T) : M T unit :=
  d <- self;; modify (with_sim (f d)).

Definition _setup_dynamics (equilibration : bool) : M T unit :=
  call (SetupDynamics equilibration).

Definition _minimisation (lambda_min : option T)
    (cons pert_cons : string) : M T unit :=
  d <- self;;
  match lambda_min with
  | None =>
      log Info (MsgMinimising (_lambda_val d));;;
      call (Minimise (_lambda_val d) cons pert_cons)
  | Some lam =>
      log Info (MsgMinimising lam);;;
      call (Minimise lam cons pert_cons)
  end.

Definition _equilibration : M T unit :=
  d <- self;;
  cfg <- get config;;
  log Info (MsgEquilibrating (_lambda_val d));;;
  _setup_dynamics true;;;
  call (Equilibrate (equilibration_time cfg));;;
  call Commit.

Definition generate_lam_vals (lambda_base increment : T) : outcome (list T) :=
  if num_lt num_one (num_add lambda_base increment)
     && num_lt (num_sub lambda_base increment) num_zero
  then Raise (ValueError "Increment too large")
  else if num_lt num_one (num_add lambda_base increment)
  then Ok [num_sub lambda_base increment]
  else if num_lt (num_sub lambda_base increment) num_zero
  then Ok [num_add lambda_base increment]
  else Ok [num_sub lambda_base increment; num_add lambda_base increment].

Definition _save_energy_components : M T unit :=
  d <- self;;
  call (EnergyComponents (_nrg_sample d));;;
  update_self (set_nrg_sample (_nrg_sample d + 1)).

Definition save_chunk (x : Z) : M T unit :=
  cfg <- get config;;
  if save_trajectories cfg then call (SaveChunk x) else ret tt.

(** One pass of [for x in range(int(num_blocks))]; returns the value [x]
    has at the end of the pass. *)
Definition block (lam_arr : list T) (total : Z) (i : Z) : M T Z :=
  d <- self;;
  let x := i + _current_block d in
  cfg <- get config;;
  call (Run (checkpoint_frequency cfg) lam_arr);;;
  (if save_energy_components cfg then _save_energy_components else ret tt);;;
  let x := if x =? 0 then _current_block d else x in
  call Commit;;;
  save_chunk x;;;
  call Checkpoint;;;
  (if x =? _current_block d
   then call (ParquetWrite x);;; call SetProperties
   else call (ParquetAppend x));;;
  log Info (MsgFinishedBlock (x + 1) total (_lambda_val d));;;
  ret x.

(** The loop; [x] is the loop variable as the previous passes left it
    ([None]: not yet bound). *)
Fixpoint blocks (lam_arr : list T) (total : Z) (x : option Z) (r : list Z)
    : M T (option Z) :=
  match r with
  | [] => ret x
  | i :: r' =>
      x' <- block lam_arr total i;;
      blocks lam_arr total (Some x') r'
  end.

(** The final, fractional block: no checkpoint is streamed. *)
Definition remainder_block (lam_arr : list T) (total : Z) (x : option Z)
    (rem : T) : M T unit :=
  d <- self;;
  x <- match x with
       | Some x => ret (x + 1)
       | None => raise (UnboundLocalError "x")
       end;;
  call (Run rem lam_arr);;;
  save_chunk x;;;
  log Info (MsgFinishedBlock (x + 1) total (_lambda_val d));;;
  call Commit.

(** The production part of [_run]. *)
Definition production (lam_arr : list T) : M T unit :=
  d <- self;;
  cfg <- get config;;
  if num_lt num_zero (checkpoint_frequency cfg) then
    frac <- lift (num_div (runtime cfg) (checkpoint_frequency cfg));;
    frac <- (if num_lt frac num_one then
               modify (fun w =>
                 with_config (set_checkpoint_frequency (runtime cfg)
                                                       (config w)) w);;;
               ret num_one
             else ret frac);;
    num_blocks <- lift (num_int frac);;
    let rem := num_sub frac (num_of_int num_blocks) in
    let total := _current_block d + num_blocks
                 + (if num_lt num_zero rem then 1 else 0) in
    x <- blocks lam_arr total None (range num_blocks);;
    if num_lt num_zero rem then remainder_block lam_arr total x rem
    else ret tt
  else
    call (Run (checkpoint_frequency cfg) lam_arr);;;
    call Commit.

(** The end of [_run]: merge the trajectory chunks, store the metadata,
    stream the final checkpoint, return the energy trajectory. *)
Definition finalise : M T dataframe :=
  d <- self;;
  cfg <- get config;;
  (if save_trajectories cfg then call (MergeTrajectory (restart cfg))
   else ret tt);;;
  call SetProperties;;;
  call Checkpoint;;;
  ret (EnergyTrajectory (_lambda_val d)).

(** [Dynamics._run(lambda_minimisation, is_restart)] on [Runner._sim]. *)
Definition _run (lambda_minimisation : option T) (is_restart : bool)
    : M T dataframe :=
  emit (Enter_run lambda_minimisation);;;
  d <- self;;
  cfg <- get config;;
  call SaveTopology;;;
  let equilibrate :=
    num_lt num_zero (equilibration_time cfg) && negb is_restart in
  (if minimise cfg then
     if equilibrate
     then _minimisation lambda_minimisation "none" "none"
     else _minimisation lambda_minimisation
            (constraint cfg) (perturbable_constraint cfg)
   else ret tt);;;
  (if equilibrate then
     _equilibration;;;
     call SetTimeZero;;;
     if num_lt (equilibration_timestep cfg) (timestep cfg)
        || (negb (equilibration_constraints cfg)
            && negb (String.eqb (perturbable_constraint cfg) "none"))
     then _minimisation (Some (_lambda_val d))
            (constraint cfg) (perturbable_constraint cfg)
     else ret tt
   else ret tt);;;
  _setup_dynamics false;;;
  lambda_grad <- lift (generate_lam_vals (_lambda_val d) (_increment d));;
  update_self (set_lambda_grad lambda_grad);;;
  lambda_energy <- list_read (_lambda_energy d);;
  let lam_arr := lambda_energy ++ lambda_grad in
  log Info (MsgRunningDynamics (_lambda_val d));;;
  production lam_arr;;;
  finalise.

Definition get_timing : M T unit := call TimeSpeed.

Definition _cleanup : M T unit := emit Cleanup.

End Dynamics.
End Dynamics.

(** ** [somd2/runner/_runner.py] *)

Module Runner.
Section Runner.
Context {T : Type} `{PyNum T}.

(** What [run_window] returns: the string [Lambda = ... complete]. *)
Inductive result : Type :=
| Complete (lam : T).

(** [[round(i / (num_lambda - 1), 5) for i in range(0, num_lambda)]] *)
Definition lambda_grid (num_lambda : Z) : M T (list T) :=
  for_each (fun i =>
      q <- lift (num_div (num_of_int i) (num_of_int (num_lambda - 1)));;
      ret (num_round q 5))
    (range num_lambda).

Definition get_cuda_devices : M T (list string) :=
  env <- get cuda_visible_devices;;
  match env with
  | None => raise (ValueError "CUDA_VISIBLE_DEVICES not set")
  | Some s =>
      let available_devices := split_comma s in
      emit (Log Printed (MsgCudaDevices available_devices));;;
      emit (Log Printed (MsgNumGpus (length available_devices)));;;
      ret available_devices
  end.

(** [[str(devices.index(value)) for value in devices]] *)
Definition zero_cuda_devices (devices : list string) : list string :=
  map (fun value => str_of_nat (default 0%nat (index_of value devices)))
      devices.

Definition _create_shared_resources : M T unit :=
  cfg <- get config;;
  if String.eqb (platform cfg) "cuda" then
    devices <- get_cuda_devices;;
    match max_gpus cfg with
    | None => modify (with_gpu_pool (zero_cuda_devices devices))
    | Some k =>
        modify (with_gpu_pool (zero_cuda_devices (slice_to k devices)))
    end
  else ret tt.

Definition the_gpu_pool : M T (list string) :=
  p <- get gpu_pool;;
  match p with
  | Some l => ret l
  | None => raise (AttributeError "_gpu_pool")
  end.

(** [_update_gpu_pool]: [self._gpu_pool.append(gpu_num)] *)
Definition _update_gpu_pool (gpu_num : string) : M T unit :=
  l <- the_gpu_pool;;
  modify (with_gpu_pool (l ++ [gpu_num])).

(** [list.remove]: the first occurrence goes. *)
Fixpoint remove_first (v : string) (l : list string) : option (list string) :=
  match l with
  | [] => None
  | x :: r => if String.eqb x v then Some r
              else option_map (cons x) (remove_first v r)
  end.

Definition _remove_gpu_from_pool (gpu_num : string) : M T unit :=
  l <- the_gpu_pool;;
  match remove_first gpu_num l with
  | Some l' => modify (with_gpu_pool l')
  | None => raise (ValueError "list.remove(x): x not in list")
  end.

(** [_set_lambda_schedule]: [self._config.lambda_schedule = schedule]. *)
Definition _set_lambda_schedule (schedule : string) : M T unit :=
  c <- get config;;
  modify (with_config (set_lambda_schedule schedule c)).

(** [_initialise_simulation]: the call passes [system], [lambda_val],
    [lambda_array], [config], [device] and [has_space], and no
    [lambda_energy]. *)
Definition _initialise_simulation (system : System T) (lambda_value : T)
    (device : option device) : M T unit :=
  lambda_values <- get lambda_values;;
  has_space <- get runner_has_space;;
  try_except
    (d <- Dynamics.new system lambda_value lambda_values
            None None (Some device) (Some has_space);;
     modify (with_sim d))
    (fun e => log Warning (MsgSystemCreationFailed lambda_value);;; raise e).

Definition attempt (lambda_minimisation : option T)
    : M T (Dynamics.dataframe * list T * unit) :=
  df <- Dynamics._run lambda_minimisation false;;
  d <- Dynamics.self;;
  lambda_grad <- match _lambda_grad d with
                 | Some g => ret g
                 | None => raise (AttributeError "_lambda_grad")
                 end;;
  speed <- Dynamics.get_timing;;
  ret (df, lambda_grad, speed).

(** The local function [_run(sim)] of [run_window]; [None] is the value of
    a call that falls off the end of the function. *)
Definition _run (lambda_value : T)
    : M T (option (Dynamics.dataframe * list T * unit)) :=
  cfg <- get config;;
  if minimise cfg then
    try_except
      (r <- attempt None;; ret (Some r))
      (fun e =>
         log Warning (MsgRetryAtZero lambda_value e);;;
         try_except
           (r <- attempt (Some num_zero);; ret (Some r))
           (fun e' =>
              log Error (MsgFailedAfterRetry lambda_value e');;;
              raise e'))
  else
    try_except
      (r <- attempt None;; ret (Some r))
      (fun e => log Error (MsgDynamicsFailed lambda_value e);;; ret None).

(** [df, lambda_grad, speed = _run(self._sim)] *)
Definition unpack_run (lambda_value : T)
    : M T (Dynamics.dataframe * list T * unit) :=
  r <- _run lambda_value;;
  match r with
  | Some t => ret t
  | None => raise (TypeError "cannot unpack non-iterable NoneType object")
  end.

(** Taking a device under the lock. *)
Definition acquire_gpu (lambda_value : T) : M T string :=
  l <- the_gpu_pool;;
  match l with
  | [] => raise IndexError
  | gpu_num :: _ =>
      _remove_gpu_from_pool gpu_num;;;
      emit (Log Printed (MsgRunningOnGPU lambda_value gpu_num));;;
      ret gpu_num
  end.

Definition release_gpu (gpu_num : device) : M T unit :=
  cfg <- get config;;
  if run_parallel cfg then
    match gpu_num with
    | DevStr s => _update_gpu_pool s
    | DevInt _ => ret tt
    end
  else ret tt.

(** [run_window], over the method that builds the simulation. *)
Definition run_window_with
    (initialise : System T -> T -> option device -> M T unit)
    (lambda_value : T) : M T result :=
  log Info (MsgRunningLambda lambda_value);;;
  system <- get runner_system;;
  cfg <- get config;;
  r <- (if String.eqb (platform cfg) "cpu" then
          initialise system lambda_value None;;;
          r <- unpack_run lambda_value;;
          Dynamics._cleanup;;;
          ret (Some r)
        else if String.eqb (platform cfg) "cuda" then
          gpu_num <- (if run_parallel cfg
                      then s <- acquire_gpu lambda_value;; ret (DevStr s)
                      else ret (DevInt 0));;
          initialise system lambda_value (Some gpu_num);;;
          r <- try_except
                 (unpack_run lambda_value)
                 (fun e => release_gpu gpu_num;;; raise e);;
          release_gpu gpu_num;;;
          Dynamics._cleanup;;;
          ret (Some r)
        else ret None);;
  match r with
  | None => raise (UnboundLocalError "df")
  | Some (df, lambda_grad, speed) =>
      call (WindowParquet lambda_value lambda_grad);;;
      log Success (MsgComplete lambda_value);;;
      ret (Complete lambda_value)
  end.

Definition run_window : T -> M T result :=
  run_window_with _initialise_simulation.

(** [executor.submit(job)] followed, later, by [future.result()]: the job
    runs in a worker process on its own copy of the [Runner]; the pool of
    devices (a manager list) and the outside are shared.  Jobs are run one
    after another in the order of submission, which is one of the schedules
    the executor may follow. *)
Definition submit {A} (job : M T A) : M T (outcome A) := fun w =>
  let '(r, w') := job w in
  (Ok r,
   {| config := config w; lists := lists w;
      cuda_visible_devices := cuda_visible_devices w;
      runner_system := runner_system w;
      runner_has_space := runner_has_space w;
      lambda_values := lambda_values w; max_workers := max_workers w;
      gpu_pool := gpu_pool w'; sim := sim w; trace := trace w';
      engine := engine w |}).

(** The workers and the threads of each, by platform. *)
Definition configure_workers (num_lambda : Z) : M T unit :=
  cfg <- get config;;
  if String.eqb (platform cfg) "cpu" then
    cpu_per_worker <-
      (if max_threads cfg <? num_lambda then
         modify (with_max_workers (max_threads cfg));;;
         ret 1
       else
         modify (with_max_workers num_lambda);;;
         if num_lambda =? 0 then raise ZeroDivisionError
         else ret (max_threads cfg / num_lambda));;
    modify (fun w =>
      with_config (set_extra_args {[ "threads" := cpu_per_worker ]}
                                  (config w)) w)
  else
    l <- the_gpu_pool;;
    modify (with_max_workers (Z.of_nat (length l)));;;
    modify (fun w => with_config (set_extra_args ∅ (config w)) w).

(** [Runner.run], over the method that runs one window. *)
Definition run_with (run_window : T -> M T result) : M T (list result) :=
  cfg <- get config;;
  match num_lambda cfg with
  | Some n =>
      if run_parallel cfg then
        _create_shared_resources;;;
        configure_workers n;;;
        workers <- get max_workers;;
        (if default 0 workers <=? 0
         then raise (ValueError "max_workers must be greater than 0")
         else ret tt);;;
        lambda_values <- get lambda_values;;
        futures <- for_each (fun lambda_value =>
                               submit (run_window lambda_value))
                            lambda_values;;
        (** [jobs] is rebound at every pass: it holds the last future only *)
        match last futures with
        | None => raise (UnboundLocalError "jobs")
        | Some (Ok r) => ret [r]
        | Some (Raise e) => emit (Log Printed (MsgException e));;; ret []
        end
      else
        (if String.eqb (platform cfg) "cpu" then
           modify (fun w =>
             with_config (set_extra_args {[ "threads" := max_threads cfg ]}
                                         (config w)) w)
         else ret tt);;;
        grid <- lambda_grid n;;
        modify (with_lambda_values grid);;;
        for_each run_window grid
  | None =>
      raise (ValueError
        "Vanilla MD not currently supported. Please set num_lambda > 1.")
  end.

Definition run : M T (list result) := run_with run_window.

End Runner.
End Runner.

(** ** The vocabulary of the properties *)

(** The order the sorting relies on, asked of the numbers that are [==] to
    themselves (every number but a NaN): [<] is asymmetric, its complement
    is transitive on them, and [==] is symmetric.  Rationals have it, and so
    does binary64. *)
Class NumOrder (T : Type) `{PyNum T} : Prop := {
  num_lt_asym : forall x y : T, num_lt x y = true -> num_lt y x = false;
  num_le_trans : forall x y z : T,
    num_eq x x = true -> num_eq y y = true -> num_eq z z = true ->
    num_lt y x = false -> num_lt z y = false -> num_lt z x = false;
  num_eq_sym : forall x y : T, num_eq x y = num_eq y x
}.

Section Vocabulary.
Context {T : Type} `{PyNum T}.
Implicit Types (w : world T) (e : event T) (evs : list (event T)).
Implicit Types (R : relation (world T)) (l : list T).

Definition respects R {A} (m : M T A) : Prop := forall w, R w (m w).2.

(** [c'] is [c] up to the values of [runtime], [checkpoint_frequency] and
    [extra_args]. *)
Definition config_frame (c c' : Config T) : Prop :=
  exists r f x,
    c' = set_runtime r (set_checkpoint_frequency f (set_extra_args x c)).

Definition keeps_config : relation (world T) :=
  fun w w' => config_frame (config w) (config w').

(** [x <= y]: not [y < x]. *)
Definition num_le (x y : T) : Prop := num_lt y x = false.

(** No two elements are [==]. *)
Fixpoint distinct l : bool :=
  match l with
  | [] => true
  | x :: r => negb (Dynamics.contains x r) && distinct r
  end.

(** [x == x]: [x] is not a NaN. *)
Definition self_equal (x : T) : Prop := num_eq x x = true.

(** [x in l] with the identity of objects: [same] tells, element by element,
    which elements of [l] are the object [x] itself.  Python tests identity
    before [==]. *)
Definition object_in (same : list bool) (x : T) (l : list T) : bool :=
  existsb (fun p => p.1 || num_eq p.2 x) (zip same l).

(** [same] marks elements of [l] only, and a marked element, being the
    object [x], has its value. *)
Definition marks (same : list bool) (x : T) (l : list T) : Prop :=
  length same = length l /\
  forall i, same !! i = Some true -> l !! i = Some x.


(** The block number an event carries: in a chunk file name, in the energy
    trajectory write of a block, in its [Finished block] line. *)
Definition event_block e : option Z :=
  match e with
  | SaveChunk x | ParquetWrite x | ParquetAppend x => Some x
  | Log _ (MsgFinishedBlock k _ _) => Some (k - 1)
  | _ => None
  end.

(** The blocks reported finished, in order. *)
Definition finished_blocks evs : list Z :=
  omap (fun e => match e with
                 | Log _ (MsgFinishedBlock k _ _) => Some (k - 1)
                 | _ => None
                 end) evs.

(** The test [frac < 1.0] of the production part is reached and holds: the
    checkpoint frequency is positive, and the quotient of the runtime by it
    is below [1.0]. *)
Definition runtime_is_short (c : Config T) : bool :=
  num_lt num_zero (checkpoint_frequency c) &&
  match num_div (runtime c) (checkpoint_frequency c) with
  | Ok frac => num_lt frac num_one
  | Raise _ => false
  end.

(** What a computation has done to the configuration [c] it started with:
    nothing, or it has set the checkpoint frequency to the runtime, the
    runtime being short; and when it has ended, which of the two. *)
Definition shortens {B} (c : Config T) (r : outcome B * world T) : Prop :=
  (config r.2 = c \/
   runtime_is_short c = true /\
   config r.2 = set_checkpoint_frequency (runtime c) c) /\
  (is_ok r.1 = true ->
   config r.2 = if runtime_is_short c
                then set_checkpoint_frequency (runtime c) c else c).

(** The [extra_args] a parallel run stores for [n] windows. *)
Definition worker_args (c : Config T) (n : Z) : gmap string Z :=
  if String.eqb (platform c) "cpu"
  then {[ "threads" := if max_threads c <? n then 1 else max_threads c / n ]}
  else ∅.

(** The number of blocks the production part of [_run] goes through with
    the configuration [c]: [int(frac)] checkpointed ones and, when a
    fraction is left, one more; none are counted without a positive
    checkpoint frequency. *)
Definition planned_blocks (c : Config T) : outcome Z :=
  if num_lt num_zero (checkpoint_frequency c) then
    match num_div (runtime c) (checkpoint_frequency c) with
    | Ok q =>
        let frac := if num_lt q num_one then num_one else q in
        match num_int frac with
        | Ok n =>
            Ok (n + if num_lt num_zero (num_sub frac (num_of_int n))
                    then 1 else 0)
        | Raise e => Raise e
        end
    | Raise e => Raise e
    end
  else Ok 0.

(** The block numbers of the trajectory chunks written, in order. *)
Definition saved_chunks evs : list Z :=
  omap (fun e => match e with SaveChunk x => Some x | _ => None end) evs.

(** The engine runs and the checkpoints streamed, in order. *)
Definition runs_and_checkpoints evs : list (event T) :=
  List.filter (fun e => match e with
                        | Run _ _ | Checkpoint => true
                        | _ => false
                        end) evs.

Definition no_entry e : Prop :=
  match e with Enter_run _ => False | _ => True end.

(** Neither an entry into [_run] nor an event that carries a block number. *)
Definition plain e : Prop := no_entry e /\ event_block e = None.

Definition block_from (cb : Z) e : Prop :=
  no_entry e /\ forall x, event_block e = Some x -> cb <= x.

Definition current_block_of w : option Z := _current_block <$> sim w.

(** From [w] to [w']: the outside and the current block are the same, and
    the trace has grown by events that satisfy [Q]. *)
Definition steps (Q : event T -> Prop) : relation (world T) := fun w w' =>
  engine w' = engine w /\
  current_block_of w' = current_block_of w /\
  exists evs, trace w' = trace w ++ evs /\ Forall Q evs.

(** The number pass [i] of the loop gives its block: [i + cb], and [cb] when
    that sum is [0]. *)
Definition block_number (cb i : Z) : Z :=
  if i + cb =? 0 then cb else i + cb.

(** The value of the loop variable after the loop. *)
Definition loop_variable (cb : Z) (x : option Z) (l : list Z) : option Z :=
  foldl (fun _ i => Some (block_number cb i)) x l.

(** The blocks reported finished are [cb], [cb + 1], ... without a gap. *)
Definition consecutive_from (cb : Z) (evs : list (event T)) : Prop :=
  exists k : nat, finished_blocks evs = map (Z.add cb) (range (Z.of_nat k)).

(** A computation that numbers its blocks from [cb] on, without a gap. *)
Definition numbered (cb : Z) {A} (m : M T A) : Prop :=
  forall w, current_block_of w = Some cb ->
    engine (m w).2 = engine w /\ current_block_of (m w).2 = Some cb /\
    exists evs, trace (m w).2 = trace w ++ evs /\
      Forall (block_from cb) evs /\
      (0 <= cb -> consecutive_from cb evs).

Definition never_fails w : Prop := forall h e, engine w h e = None.

(** From [w] to [w']: same outside, same configuration, same current block,
    and [evs] appended to the trace. *)
Definition advances w (evs : list (event T)) w' : Prop :=
  engine w' = engine w /\ config w' = config w /\
  current_block_of w' = current_block_of w /\ trace w' = trace w ++ evs.

(** The devices the pool is built from. *)
Definition visible_devices (max_gpus : option Z) (s : string) : list string :=
  match max_gpus with
  | None => split_comma s
  | Some k => slice_to k (split_comma s)
  end.

Definition keeps_workers : relation (world T) := fun w w' =>
  max_workers w' = max_workers w /\ config w' = config w.

(** The world in which the windows of a sequential run start. *)
Definition sequential_start (grid : list T) w : world T :=
  with_lambda_values grid
    (if String.eqb (platform (config w)) "cpu"
     then with_config
            (set_extra_args {[ "threads" := max_threads (config w) ]}
                            (config w)) w
     else w).

(** The world after [run_window] has logged its start and taken the first
    device of the pool. *)
Definition acquired (lambda_value : T) (g : string) (rest : list string) w
    : world T :=
  with_trace
    (trace w ++ [Log Info (MsgRunningLambda lambda_value);
                 Log Printed (MsgRunningOnGPU lambda_value g)])
    (with_gpu_pool rest w).

End Vocabulary.

(** ** Example worlds *)

Module Example.
Section Example.
Context {T : Type} `{PyNum T}.

(** A configuration: 10 time units of production checkpointed every 3, on
    three lambda windows and eight threads. *)
Definition a_config (platform : string) (run_parallel restart minimise : bool)
    : Config T :=
  {| restart := restart;
     runtime := num_of_int 10;
     checkpoint_frequency := num_of_int 3;
     energy_frequency := num_lit 1 10;
     frame_frequency := num_of_int 1;
     equilibration_time := num_zero;
     equilibration_timestep := num_lit 1 1000;
     equilibration_constraints := false;
     timestep := num_lit 4 1000;
     constraint := "h_bonds";
     perturbable_constraint := "h_bonds_not_heavy_perturbed";
     minimise := minimise;
     save_trajectories := true;
     save_energy_components := false;
     save_velocities := false;
     platform := platform;
     run_parallel := run_parallel;
     num_lambda := Some 3;
     max_threads := 8;
     max_gpus := None;
     extra_args := ∅;
     temperature := num_of_int 300;
     output_directory := "output";
     lambda_schedule := "standard_morph" |}.

(** A world before [run]: a caller's list [[0, 1]] at reference [0], a
    system that has simulated [elapsed] time units, an outside where
    nothing fails. *)
Definition a_world (c : Config T) (elapsed : T) : world T :=
  {| config := c;
     lists := {[ 0%nat := [num_zero; num_one] ]};
     cuda_visible_devices := Some "0,1,2,3";
     runner_system := {| perturbable := true; time := elapsed |};
     runner_has_space := true;
     lambda_values := [num_zero; num_lit 1 2; num_one];
     max_workers := None;
     gpu_pool := None;
     sim := None;
     trace := [];
     engine := fun _ _ => None |}.

(** The same world with another outside. *)
Definition with_engine (f : list (event T) -> event T -> option exn)
    (w : world T) : world T :=
  {| config := config w; lists := lists w;
     cuda_visible_devices := cuda_visible_devices w;
     runner_system := runner_system w; runner_has_space := runner_has_space w;
     lambda_values := lambda_values w; max_workers := max_workers w;
     gpu_pool := gpu_pool w; sim := sim w; trace := trace w;
     engine := f |}.

(** The world after [Dynamics(system, 0.5, lambda_values, lambda_energy,
    config)] was bound to [Runner._sim], when the construction succeeds. *)
Definition with_window (w : world T) : world T :=
  match Dynamics.new (runner_system w) (num_lit 1 2) (lambda_values w)
          (Some (Some 0%nat)) None None None w with
  | (Ok d, w') => with_sim d w'
  | (Raise _, w') => w'
  end.

(** An outside in which every production [Run] raises. *)
Definition run_fails (h : list (event T)) (e : event T) : option exn :=
  match e with
  | Run _ _ => Some (EngineError 1)
  | _ => None
  end.

(** An outside in which the first minimisation raises and nothing else. *)
Definition first_minimisation_fails (h : list (event T)) (e : event T)
    : option exn :=
  match e with
  | Minimise _ _ _ =>
      if existsb (fun e' => match e' with Minimise _ _ _ => true | _ => false end) h
      then None else Some (EngineError 2)
  | _ => None
  end.

End Example.

(** Worlds with rational numbers. *)
Definition rational_input : world Q :=
  a_world (a_config "cpu" false false true) 0%Q.

(** A restart after 6 of the 10 time units. *)
Definition restarted : world Q :=
  a_world (a_config "cpu" false true true) 6%Q.

(** A sequential run on the CPU. *)
Definition sequential : world Q :=
  a_world (a_config "cpu" false false true) 0%Q.

(** Parallel runs: eight threads, or the four devices [0,1,2,3]. *)
Definition parallel_cpu : world Q :=
  a_world (a_config "cpu" true false true) 0%Q.

Definition parallel_cuda : world Q :=
  a_world (a_config "cuda" true false true) 0%Q.

(** A window of a parallel CUDA run about to start, one device in the
    pool. *)
Definition one_device : world Q :=
  with_gpu_pool ["0"%string] parallel_cuda.

(** A window at [lambda = 0.5] ready to run. *)
Definition window : world Q := with_window rational_input.

(** The same without minimisation, in an outside where the engine fails. *)
Definition failing_window : world Q :=
  with_engine run_fails
    (with_window (a_world (a_config "cpu" false false false) 0%Q)).

(** The same with minimisation, the first minimisation failing. *)
Definition retried_window : world Q :=
  with_engine first_minimisation_fails window.

(** Worlds with binary64 numbers: a caller's list with a duplicate, and a
    restart after 0.3 time units with a checkpoint every 0.1. *)
Definition duplicated_input : world float :=
  with_lists {[ 0%nat := [0.5%float; 0.5%float] ]}
    (a_world (a_config "cpu" false false true) 0%float).

(** The caller's list out of order, in binary64. *)
Definition binary64_input : world float :=
  with_lists {[ 0%nat := [1%float; 0%float] ]}
    (a_world (a_config "cpu" false false true) 0%float).

Definition restarted_binary64 : world float :=
  a_world (set_checkpoint_frequency 0.1%float
             (a_config "cpu" false true true)) 0.3%float.

End Example.

(** ** Further vocabulary *)

(** The number a finite binary64 value stands for. *)
Definition exact_value (x : float) : Q :=
  match Prim2SF x with
  | S754_finite s m e =>
      (if s then -1 else 1) * inject_Z (Zpos m) * Qpower 2 e
  | _ => 0
  end.

(** [",".join(l)] *)
Fixpoint join_comma (l : list string) : string :=
  match l with
  | [] => EmptyString
  | [s] => s
  | s :: r => (s ++ String ","%char (join_comma r))%string
  end.

(** No comma among the characters of [s]. *)
Fixpoint comma_free (s : string) : bool :=
  match s with
  | EmptyString => true
  | String c r => negb (Ascii.eqb c ","%char) && comma_free r
  end.

(** The value of [f] is the same before and after. *)
Definition keeps {T A : Type} (f : world T -> A) : relation (world T) :=
  fun w w' => f w' = f w.

(** The events of the equilibration stage of [Dynamics._run], and those of
    a minimisation. *)
Definition is_equilibration {T : Type} (e : event T) : bool :=
  match e with
  | Log _ (MsgEquilibrating _) | SetupDynamics true | Equilibrate _
  | SetTimeZero => true
  | _ => false
  end.

Definition is_minimisation {T : Type} (e : event T) : bool :=
  match e with
  | Log _ (MsgMinimising _) | Minimise _ _ _ => true
  | _ => false
  end.

(** The [lambda_windows] of the engine runs, in order. *)
Definition lambda_windows {T : Type} (evs : list (event T)) : list (list T) :=
  omap (fun e => match e with Run _ la => Some la | _ => None end) evs.

(** Both relations hold. *)
Definition both {T : Type} (R1 R2 : relation (world T)) : relation (world T) :=
  fun w w' => R1 w w' /\ R2 w w'.

(** Every engine run of [evs] has the lambda windows [la]. *)
Definition runs_with {T : Type} (la : list T) (e : event T) : Prop :=
  match e with
  | Run _ la' => la' = la
  | _ => True
  end.

(** ** [Dynamics.create_filenames]: the names

    The static method builds the file names of a window from
    [f"{lambda_value:.5f}"]; on a restart it probes the output directory for
    the first configuration file name that is free. *)

(** [f"{x:.5f}"] *)
Class PyFormat (T : Type) : Type := {
  num_fixed5 : T -> string
}.

Module Files.

(** The digit [d] as a character. *)
Definition digit (d : Z) : ascii := ascii_of_nat (48 + Z.to_nat d).

(** [n] hundred-thousandths, [0 <= n], printed with five decimals: the
    integer part, a point, and the five digits of the rest. *)
Definition fixed5 (neg : bool) (n : Z) : string :=
  let m := n mod 100000 in
  ((if neg then "-" else "") ++ str_of_nat (Z.to_nat (n / 100000)) ++
   String "."
     (String (digit (m / 10000 mod 10))
     (String (digit (m / 1000 mod 10))
     (String (digit (m / 100 mod 10))
     (String (digit (m / 10 mod 10))
     (String (digit (m mod 10)) EmptyString))))))%string.

(** A rational: its exact value rounded half-even to five decimals; the
    sign of a negative value stays when it rounds to zero. *)
Definition fixed5_Q (x : Q) : string :=
  fixed5 (Qnum x <? 0)
         (round_half_even (Z.abs (Qnum x) * 100000) (Zpos (Qden x))).

(** A double: the same on its exact value. *)
Definition fixed5_float (x : float) : string :=
  match Prim2SF x with
  | S754_nan => "nan"
  | S754_infinity s => if s then "-inf" else "inf"
  | S754_zero s => fixed5 s 0
  | S754_finite s m e =>
      let num := if 0 <=? e then Zpos m * 2 ^ e else Zpos m in
      let den := if 0 <=? e then 1 else 2 ^ (- e) in
      fixed5 s (round_half_even (num * 100000) den)
  end.

(** [f"{base_filename}_{file_number}.{suffix}" if file_number > 0 else
    f"{base_filename}.{suffix}"] *)
Definition numbered_name (base_filename suffix : string) (file_number : nat)
    : string :=
  match file_number with
  | O => base_filename ++ String "." suffix
  | S _ => base_filename ++ String "_" (str_of_nat file_number ++ String "." suffix)
  end%string.

(** The loop of [increment_filename] from [file_number] on, for at most
    [fuel] passes; [dir] holds the names that exist in the output
    directory. *)
Fixpoint increment_filename_from (dir : gset string)
    (base_filename suffix : string) (fuel file_number : nat)
    : option string :=
  match fuel with
  | O => None
  | S fuel' =>
      let filename := numbered_name base_filename suffix file_number in
      if decide (filename ∈ dir)
      then increment_filename_from dir base_filename suffix fuel'
             (S file_number)
      else Some filename
  end.

(** [increment_filename(base_filename, suffix)]: one pass more than there
    are names in the directory is enough. *)
Definition increment_filename (dir : gset string)
    (base_filename suffix : string) : option string :=
  increment_filename_from dir base_filename suffix (S (size dir)) 0.

Section Names.
Context {T : Type} `{PyNum T} `{PyFormat T}.

(** [create_filenames(lambda_array, lambda_value, output_directory,
    restart)], in a directory that holds the names [dir].  [None] stands
    for a probe that does not end. *)
Definition create_filenames (dir : gset string) (lambda_array : list T)
    (lambda_value : T) (restart : bool)
    : option (outcome (gmap string string)) :=
  if Dynamics.contains lambda_value lambda_array then
    let lam := num_fixed5 lambda_value in
    config_name ← (if restart then increment_filename dir "config" "yaml"
                   else Some "config.yaml"%string);
    Some (Ok
      (<["config" := config_name]>
       (<["energy_components" := ("energy_components_" ++ lam ++ ".txt")%string]>
       (<["trajectory_chunk" := ("traj_" ++ lam ++ "_")%string]>
       (<["trajectory" := ("traj_" ++ lam ++ ".dcd")%string]>
       (<["energy_traj" := ("energy_traj_" ++ lam ++ ".parquet")%string]>
       (<["checkpoint" := ("checkpoint_" ++ lam ++ ".s3")%string]>
       (<["topology1" := "system1.prm7"%string]>
       (<["topology0" := "system0.prm7"%string]> ∅)))))))))
  else Some (Raise (ValueError "lambda_value not in lambda_array")).

End Names.
End Files.

#[global] Instance Q_format : PyFormat Q := {| num_fixed5 := Files.fixed5_Q |}.
#[global] Instance float_format : PyFormat float :=
  {| num_fixed5 := Files.fixed5_float |}.

(** ** Further example worlds *)

Module Example2.
Import Example.

(** [_initialise_simulation] with the energy-sample list [lambda_energy]
    passed to the constructor: a way to build the simulation that
    succeeds. *)
Definition initialise_with_energy (lambda_energy : loc)
    (system : System Q) (lambda_value : Q) (device : option device)
    : M Q unit :=
  lambda_values <- get lambda_values;;
  has_space <- get runner_has_space;;
  try_except
    (d <- Dynamics.new system lambda_value lambda_values
            (Some (Some lambda_energy)) None (Some device) (Some has_space);;
     modify (with_sim d))
    (fun e => log Warning (MsgSystemCreationFailed lambda_value);;; raise e).

(** A window function that completes at once. *)
Definition completes (lambda_value : Q) : M Q (@Runner.result Q) :=
  ret (Runner.Complete lambda_value).

(** The window of the parallel CUDA run, the simulation constructed. *)
Definition constructed_on_device : world Q :=
  (initialise_with_energy 0%nat (runner_system one_device) (1 # 2)%Q
     (Some (DevStr "0"))
     (acquired (1 # 2)%Q "0"%string [] one_device)).2.

(** The parallel CPU run, its workers chosen. *)
Definition workers_chosen : world Q :=
  ((Runner._create_shared_resources;;; Runner.configure_workers 3)
     parallel_cpu).2.

(** The restart, after the construction of a first session. *)
Definition restarted_once : world Q :=
  (Dynamics.__init__ (runner_system restarted) (1 # 2)%Q
     (lambda_values restarted) (Some 0%nat) (1 # 1000)%Q None true
     restarted).2.

(** Two windows whose lambdas agree to five decimals. *)
Definition close_lambdas : list Q := [(1 # 2)%Q; (500001 # 1000000)%Q].

End Example2.

Module Example3.
Import Example.

(** A session in binary64, with the given runtime and checkpoint
    frequency. *)
Definition binary64_window (runtime checkpoint_frequency : float)
    : world float :=
  with_window
    (a_world (set_checkpoint_frequency checkpoint_frequency
                (set_runtime runtime (a_config "cpu" false false true)))
             0%float).

(** The session of a restart: [elapsed] time units have been simulated and
    the configured runtime is [runtime]. *)
Definition resumed (runtime elapsed : Q) : world Q :=
  with_window
    (a_world (set_runtime runtime (a_config "cpu" false true true)) elapsed).

End Example3.

(** * Properties *)

(** ** Gradient neighbours *)

Section GradientNeighbours.
Local Open Scope float_scope.

(** The error is raised exactly when both neighbours leave [0, 1]. *)
Lemma generate_lam_vals_raises {T : Type} `{PyNum T} (b i : T) :
  (exists e, Dynamics.generate_lam_vals b i = Raise e) <->
  num_lt num_one (num_add b i) && num_lt (num_sub b i) num_zero = true.
Proof.
  unfold Dynamics.generate_lam_vals.
  destruct (num_lt num_one (num_add b i)), (num_lt (num_sub b i) num_zero);
    simpl; split; try discriminate; try reflexivity; eauto;
    intros [e He]; discriminate.
Qed.

(** C1, as stated, fails at its fourth vector: at [lambda_value = 0.0005]
    with [increment = 0.001] nothing is raised. *)
Lemma generate_lam_vals_small_lambda_no_error :
  ~ (exists e, Dynamics.generate_lam_vals 0.0005 0.001 = Raise e).
Proof.
  intros [e He]. vm_compute in He. discriminate.
Qed.

(** C1 (amended): in binary64, [generate_lam_vals] gives [[0.001]] at
    [0.0], [[0.999]] at [1.0] and [[0.499, 0.501]] at [0.5] for the
    increment [0.001]; at [0.0005] it gives the upper neighbour [[0.0015]]
    alone; it raises (a [ValueError]) only when both neighbours leave
    [0, 1], as at [0.5] with the increment [0.6]. *)
Theorem generate_lam_vals_vectors :
  Dynamics.generate_lam_vals 0.0 0.001 = Ok [0.001] /\
  Dynamics.generate_lam_vals 1.0 0.001 = Ok [0.999] /\
  Dynamics.generate_lam_vals 0.5 0.001 = Ok [0.499; 0.501] /\
  Dynamics.generate_lam_vals 0.0005 0.001 = Ok [0.0015] /\
  Dynamics.generate_lam_vals 0.5 0.6 = Raise (ValueError "Increment too large") /\
  (forall b i : float,
      (exists e, Dynamics.generate_lam_vals b i = Raise e) <->
      (1.0 <? b + i) && (b - i <? 0.0) = true).
Proof.
  repeat (split; [vm_compute; reflexivity |]).
  intros b i.
  change 1.0 with (num_one (T := float)).
  change 0.0 with (num_zero (T := float)).
  exact (generate_lam_vals_raises b i).
Qed.

End GradientNeighbours.
(** ** Reasoning about computations

    A relation between the world before and the world after is respected by
    a computation when it holds across every run of it, whatever the
    outcome.  For a preorder this is compositional. *)

Section Respects.
Context {T : Type}.
Implicit Types (R : relation (world T)).

Lemma respects_ret R `{!Reflexive R} {A} (a : A) : respects R (ret a).
Proof. intros w. simpl. reflexivity. Qed.

Lemma respects_raise R `{!Reflexive R} {A} (e : exn) :
  respects R (raise (A := A) e).
Proof. intros w. simpl. reflexivity. Qed.

Lemma respects_lift R `{!Reflexive R} {A} (r : outcome A) :
  respects R (lift r).
Proof. intros w. simpl. reflexivity. Qed.

Lemma respects_get R `{!Reflexive R} {A} (f : world T -> A) :
  respects R (get f).
Proof. intros w. simpl. reflexivity. Qed.

Lemma respects_bind R `{!Transitive R} {A B} (m : M T A) (k : A -> M T B) :
  respects R m -> (forall a, respects R (k a)) -> respects R (bind m k).
Proof.
  intros Hm Hk w. unfold bind. specialize (Hm w).
  destruct (m w) as [[a | e] w1]; simpl in *; [| exact Hm].
  transitivity w1; [exact Hm | apply Hk].
Qed.

Lemma respects_try R `{!Transitive R} {A} (m : M T A) (h : exn -> M T A) :
  respects R m -> (forall e, respects R (h e)) -> respects R (try_except m h).
Proof.
  intros Hm Hh w. unfold try_except. specialize (Hm w).
  destruct (m w) as [[a | e] w1]; simpl in *; [exact Hm |].
  transitivity w1; [exact Hm | apply Hh].
Qed.

Lemma respects_modify R (f : world T -> world T) :
  (forall w, R w (f w)) -> respects R (modify f).
Proof. intros Hf w. apply Hf. Qed.

Lemma respects_emit R (e : event T) :
  (forall w, R w (with_trace (trace w ++ [e]) w)) -> respects R (emit e).
Proof. intros He w. apply He. Qed.

Lemma respects_call R (e : event T) :
  (forall w, R w (with_trace (trace w ++ [e]) w)) -> respects R (call e).
Proof.
  intros He w. unfold call. destruct (engine w (trace w) e); apply He.
Qed.

Lemma respects_for_each R `{!PreOrder R} {A B} (f : A -> M T B) (l : list A) :
  (forall a, respects R (f a)) -> respects R (for_each f l).
Proof.
  intros Hf. induction l as [| a l IH]; simpl.
  - apply respects_ret; apply _.
  - apply respects_bind; [apply _ | apply Hf |].
    intros b. apply respects_bind; [apply _ | exact IH |].
    intros bs. apply respects_ret; apply _.
Qed.

Lemma respects_list_read R `{!Reflexive R} (l : loc) :
  respects R (list_read l).
Proof.
  intros w. unfold list_read. destruct (lists w !! l); simpl; reflexivity.
Qed.

End Respects.

(** Taking apart a computation along its syntax; [prim] closes the leaves. *)
Ltac respects_step prim :=
  lazymatch goal with
  | |- respects _ (ret _) => apply respects_ret; apply _
  | |- respects _ (raise _) => apply respects_raise; apply _
  | |- respects _ (lift _) => apply respects_lift; apply _
  | |- respects _ (get _) => apply respects_get; apply _
  | |- respects _ (list_read _) => apply respects_list_read; apply _
  | |- respects _ (bind _ _) => apply respects_bind; [apply _ | | intros ?]
  | |- respects _ (try_except _ _) =>
      apply respects_try; [apply _ | | intros ?]
  | |- respects _ (for_each _ _) =>
      apply respects_for_each; [apply _ | intros ?]
  | |- respects _ (modify _) => apply respects_modify; prim
  | |- respects _ (emit _) => apply respects_emit; prim
  | |- respects _ (call _) => apply respects_call; prim
  | |- respects _ (if ?b then _ else _) => destruct b
  | |- respects _ (match ?x with _ => _ end) => destruct x
  | |- respects _ _ => prim
  end.

Ltac respects_auto prim := repeat (respects_step prim).

(** ** The configuration object: which fields are written *)

Section ConfigFrame.
Context {T : Type} `{PyNum T}.
Implicit Types (c : Config T).

Lemma config_frame_refl c : config_frame c c.
Proof.
  exists (runtime c), (checkpoint_frequency c), (extra_args c).
  destruct c; reflexivity.
Qed.

Lemma config_frame_trans c1 c2 c3 :
  config_frame c1 c2 -> config_frame c2 c3 -> config_frame c1 c3.
Proof.
  intros (r & f & x & ->) (r' & f' & x' & ->).
  exists r', f', x'. destruct c1; reflexivity.
Qed.

Lemma config_frame_runtime v c : config_frame c (set_runtime v c).
Proof.
  exists v, (checkpoint_frequency c), (extra_args c).
  destruct c; reflexivity.
Qed.

Lemma config_frame_checkpoint_frequency v c :
  config_frame c (set_checkpoint_frequency v c).
Proof.
  exists (runtime c), v, (extra_args c). destruct c; reflexivity.
Qed.

Lemma config_frame_extra_args v c : config_frame c (set_extra_args v c).
Proof.
  exists (runtime c), (checkpoint_frequency c), v. destruct c; reflexivity.
Qed.

#[global] Instance keeps_config_preorder : PreOrder (keeps_config (T := T)).
Proof.
  split.
  - intros w. apply config_frame_refl.
  - intros w1 w2 w3. apply config_frame_trans.
Qed.

End ConfigFrame.

Create HintDb frame.

Ltac frame_leaf :=
  first
    [ solve [eauto with frame]
    | intros ?; unfold keeps_config; simpl;
      first [ apply config_frame_refl | apply config_frame_runtime
            | apply config_frame_checkpoint_frequency
            | apply config_frame_extra_args ] ].

Ltac frame := respects_auto frame_leaf.

Section ConfigFramePass.
Context {T : Type} `{PyNum T}.
Local Abbreviation ok := (respects (T := T) keeps_config).

Lemma frame_log lv m : ok (log lv m).
Proof. unfold log. frame. Qed.

Lemma frame_list_new xs : ok (list_new xs).
Proof. intros w. apply config_frame_refl. Qed.

Lemma frame_list_copy l : ok (list_copy l).
Proof. unfold list_copy. apply respects_bind; [apply _ | frame |]. apply frame_list_new. Qed.

Lemma frame_list_append l x : ok (list_append l x).
Proof. unfold list_append. frame. Qed.

Lemma frame_self : ok Dynamics.self.
Proof. intros w. unfold Dynamics.self. destruct (sim w); apply config_frame_refl. Qed.

Hint Resolve frame_log frame_list_new frame_list_copy frame_list_append frame_self : frame.

Lemma frame_init system lambda_val lambda_array lambda_energy increment
    device has_space :
  ok (Dynamics.__init__ system lambda_val lambda_array lambda_energy
        increment device has_space).
Proof. unfold Dynamics.__init__, Dynamics.create_filenames. frame. Qed.

End ConfigFramePass.

#[global] Hint Resolve frame_log frame_list_new frame_list_copy
  frame_list_append frame_self frame_init : frame.

(** Running a computation symbolically: case analysis on what decides the
    next step (the outside's answer to a call, a test, a lookup). *)
Ltac head_scrutinee t :=
  lazymatch t with
  | match ?x with _ => _ end => head_scrutinee x
  | (match ?x with _ => _ end) _ => head_scrutinee x
  | _ => t
  end.

Ltac unfold_prims H :=
  unfold bind, ret, raise, lift, get, modify, emit, log, call, try_except in H.

Ltac exec_in H :=
  repeat (
    unfold_prims H;
    cbn -[Z.add Z.eqb Z.leb Z.ltb Z.div list_read list_new list_copy list_append
         range Dynamics.blocks Dynamics.remainder_block
         num_lit num_add num_sub num_div num_lt num_eq num_int num_round
         num_zero num_one num_of_int] in H;
    lazymatch type of H with
    | ?lhs = _ =>
        lazymatch lhs with
        | match _ with _ => _ end => idtac
        | (match _ with _ => _ end) _ => idtac
        end;
        let s := head_scrutinee lhs in
        let E := fresh "E" in destruct s eqn:E
    end).

(** ** The energy-sample list built by the constructor *)

Section ListObjects.
Context {T : Type}.
Implicit Types (w : world T).

Lemma list_read_spec l w r w' :
  list_read l w = (r, w') ->
  w' = w /\
  match r with
  | Ok xs => lists w !! l = Some xs
  | Raise _ => lists w !! l = None
  end.
Proof.
  unfold list_read. destruct (lists w !! l); intros [= <- <-]; auto.
Qed.

Lemma list_new_spec xs w :
  exists l, lists w !! l = None /\
            list_new xs w = (Ok l, with_lists (<[l := xs]> (lists w)) w).
Proof.
  exists (fresh (dom (lists w))). split; [| reflexivity].
  apply not_elem_of_dom, is_fresh.
Qed.

Lemma list_copy_spec l w r w' :
  list_copy l w = (r, w') ->
  match r with
  | Ok c => exists xs, lists w !! l = Some xs /\ lists w !! c = None /\
                       w' = with_lists (<[c := xs]> (lists w)) w
  | Raise _ => w' = w
  end.
Proof.
  unfold list_copy, bind. destruct (list_read l w) as [[xs | e] w1] eqn:E;
    apply list_read_spec in E as [-> E].
  - destruct (list_new_spec xs w) as (c & Hc & ->). intros [= <- <-]. eauto.
  - intros [= <- <-]. reflexivity.
Qed.

Lemma list_append_spec l x w r w' :
  list_append l x w = (r, w') ->
  match r with
  | Ok _ => exists xs, lists w !! l = Some xs /\
                       w' = with_lists (<[l := xs ++ [x]]> (lists w)) w
  | Raise _ => w' = w
  end.
Proof.
  unfold list_append, bind. destruct (list_read l w) as [[xs | e] w1] eqn:E;
    apply list_read_spec in E as [-> E]; intros [= <- <-]; eauto.
Qed.

End ListObjects.

Section Constructor.
Context {T : Type} `{PyNum T}.
Implicit Types (w : world T).

(** What the constructor does to the list objects: the lists that existed
    are left as they were, and on success [_lambda_energy] refers to a new
    list, the sorted copy of the argument, with [lambda_val] appended to the
    copy when it was not in it. *)
Lemma init_lists system lambda_val lambda_array l increment device has_space
    w r w' :
  Dynamics.__init__ system lambda_val lambda_array (Some l) increment device
    has_space w = (r, w') ->
  (forall l0 xs0, lists w !! l0 = Some xs0 -> lists w' !! l0 = Some xs0) /\
  match r with
  | Ok d =>
      exists ys, lists w !! l = Some ys /\
        lists w' !! _lambda_energy d =
          Some (Dynamics.sorted
                  (if Dynamics.contains lambda_val ys then ys
                   else ys ++ [lambda_val]))
  | Raise _ => True
  end.
Proof.
  intros Hrun. unfold Dynamics.__init__, Dynamics.create_filenames in Hrun.
  exec_in Hrun; inversion Hrun; subst; clear Hrun;
    repeat match goal with
      | E : list_read _ _ = _ |- _ => apply list_read_spec in E as [-> E]
      | E : list_copy _ _ = _ |- _ => apply list_copy_spec in E
      | E : list_append _ _ _ = _ |- _ => apply list_append_spec in E
      | E : list_new ?xs ?w = _ |- _ =>
          let c := fresh "c" in let Hc := fresh "Hc" in let Hn := fresh "Hn" in
          destruct (list_new_spec xs w) as (c & Hc & Hn);
          rewrite Hn in E; inversion E; subst; clear E Hn
      | E : exists _, _ |- _ => destruct E as (? & ? & ? & ?)
      | E : exists _, _ |- _ => destruct E as (? & ? & ?)
      end; subst; cbn in *.
  all: repeat match goal with
         | E : <[?a:=_]> _ !! ?a = Some _ |- _ =>
             rewrite lookup_insert_eq in E; inversion E; subst; clear E
         end.
  all: rewrite ?insert_insert_eq in *.
  all: split; [intros l0 xs0 Hl0 | try exact I].
  all: repeat match goal with
         | Hn : ?m !! ?a = None |- <[?a:=_]> ?m !! ?b = _ =>
             rewrite (lookup_insert_ne m a b); [| intros ->; congruence]
         | Hn : <[?c:=_]> ?m !! ?a = None |- <[?a:=_]> _ !! ?b = _ =>
             rewrite lookup_insert_ne;
             [| intros ->; rewrite lookup_insert_ne in Hn; congruence]
         | |- <[?a:=_]> (<[?a:=_]> _) !! _ = _ => rewrite insert_insert_eq
         end; try assumption.
  all: try (eexists; split; [eassumption |]; rewrite lookup_insert_eq;
            repeat match goal with
              | E : Dynamics.contains _ _ = _ |- _ => rewrite E
              end; reflexivity).
Qed.
End Constructor.

Section Membership.
Context {T : Type} `{PyNum T}.
Implicit Types (x y : T) (l : list T) (same : list bool).

Lemma marks_cons b same x y l :
  marks (b :: same) x (y :: l) ->
  (b = true -> y = x) /\ marks same x l.
Proof.
  intros [Hlen Hm]. split.
  - intros ->. specialize (Hm 0%nat eq_refl). simpl in Hm. congruence.
  - split; [simpl in Hlen; congruence |].
    intros i Hi. exact (Hm (S i) Hi).
Qed.

(** For an [x] that is [==] to itself, Python's [x in l] is the search for
    an element [==] to [x], whichever elements are the object [x]. *)
Lemma object_in_contains same x l :
  marks same x l -> self_equal x ->
  object_in same x l = Dynamics.contains x l.
Proof.
  revert same. induction l as [| y r IH]; intros [| b same] Hm Hx;
    try (destruct Hm as [Hlen _]; simpl in Hlen; discriminate);
    [reflexivity |].
  apply marks_cons in Hm as [Hb Hm].
  unfold object_in, Dynamics.contains in *. simpl.
  rewrite (IH same Hm Hx). destruct b; simpl; [| reflexivity].
  rewrite (Hb eq_refl). unfold self_equal in Hx. rewrite Hx. reflexivity.
Qed.

(** An element [==] to [x] is found by Python's [x in l] for every [x]. *)
Lemma contains_object_in same x l :
  length same = length l ->
  Dynamics.contains x l = true -> object_in same x l = true.
Proof.
  revert same. induction l as [| y r IH]; intros [| b same] Hlen;
    try discriminate; simpl in Hlen.
  unfold object_in, Dynamics.contains in *. simpl.
  intros Hc. apply orb_true_iff in Hc as [Hc | Hc].
  - rewrite Hc, orb_true_r. reflexivity.
  - rewrite (IH same); [apply orb_true_r | congruence | exact Hc].
Qed.

End Membership.

(** ** The stored energy-sample list *)

Section Sorting.
Context {T : Type} `{NumOrder T}.
Implicit Types (x y : T) (l : list T).

Lemma contains_app x l1 l2 :
  Dynamics.contains x (l1 ++ l2) =
  Dynamics.contains x l1 || Dynamics.contains x l2.
Proof. unfold Dynamics.contains. apply existsb_app. Qed.

Lemma contains_self x l :
  self_equal x -> Dynamics.contains x (l ++ [x]) = true.
Proof.
  intros Hx. rewrite contains_app. simpl. rewrite Hx. simpl.
  apply orb_true_r.
Qed.

Lemma contains_insert z x l :
  Dynamics.contains z (Dynamics.insert x l) = Dynamics.contains z (x :: l).
Proof.
  induction l as [| y r IH]; simpl; [reflexivity |].
  destruct (num_lt y x); simpl; [| reflexivity].
  rewrite IH. simpl.
  destruct (num_eq y z), (num_eq x z); reflexivity.
Qed.

Lemma contains_sorted z l :
  Dynamics.contains z (Dynamics.sorted l) = Dynamics.contains z l.
Proof.
  induction l as [| x r IH]; simpl; [reflexivity |].
  rewrite contains_insert. simpl. rewrite IH. reflexivity.
Qed.

Lemma distinct_insert x l :
  distinct (Dynamics.insert x l) = distinct (x :: l).
Proof.
  induction l as [| y r IH]; simpl; [reflexivity |].
  destruct (num_lt y x); simpl; [| reflexivity].
  rewrite IH, contains_insert. simpl. rewrite (num_eq_sym y x).
  destruct (num_eq x y), (Dynamics.contains y r), (Dynamics.contains x r),
    (distinct r); reflexivity.
Qed.

Lemma distinct_sorted l : distinct (Dynamics.sorted l) = distinct l.
Proof.
  induction l as [| x r IH]; simpl; [reflexivity |].
  rewrite distinct_insert. simpl. rewrite contains_sorted, IH. reflexivity.
Qed.

Lemma distinct_snoc x l :
  Dynamics.contains x l = false -> distinct l = true ->
  distinct (l ++ [x]) = true.
Proof.
  induction l as [| y r IH]; simpl; [reflexivity |].
  intros Hx Hd. apply orb_false_elim in Hx as [Hyx Hx].
  apply andb_prop in Hd as [Hy Hd].
  rewrite contains_app. simpl. rewrite (num_eq_sym x y), Hyx.
  rewrite orb_false_r, Hy. simpl. apply IH; assumption.
Qed.

Lemma Forall_insert (P : T -> Prop) x l :
  P x -> Forall P l -> Forall P (Dynamics.insert x l).
Proof.
  intros Hx Hl. induction Hl as [| y r Hy Hr IH]; simpl.
  - constructor; [exact Hx | constructor].
  - destruct (num_lt y x); repeat constructor; assumption.
Qed.

Lemma Forall_sorted (P : T -> Prop) l :
  Forall P l -> Forall P (Dynamics.sorted l).
Proof.
  induction 1 as [| x r Hx Hr IH]; simpl; [constructor |].
  apply Forall_insert; assumption.
Qed.

Lemma insert_sorted x l :
  self_equal x -> Forall self_equal l ->
  StronglySorted num_le l -> StronglySorted num_le (Dynamics.insert x l).
Proof.
  intros Hx Hok Hl. induction Hl as [| y r Hr IH Hy]; simpl.
  - repeat constructor.
  - apply Forall_cons_1 in Hok as [Hyok Hrok].
    destruct (num_lt y x) eqn:E.
    + constructor; [exact (IH Hrok) |].
      apply Forall_insert; [| exact Hy].
      unfold num_le. apply num_lt_asym. exact E.
    + constructor; [constructor; assumption |].
      constructor; [exact E |].
      rewrite Forall_forall in Hy, Hrok. apply Forall_forall.
      intros z Hz. unfold num_le in *.
      apply (num_le_trans x y z);
        [exact Hx | exact Hyok | exact (Hrok z Hz) | exact E
        | exact (Hy z Hz)].
Qed.

Lemma sorted_sorted l :
  Forall self_equal l -> StronglySorted num_le (Dynamics.sorted l).
Proof.
  induction 1 as [| x r Hx Hr IH]; simpl; [constructor |].
  apply insert_sorted; [exact Hx | apply Forall_sorted; exact Hr | exact IH].
Qed.

End Sorting.

#[global] Instance Q_order : NumOrder Q.
Proof.
  split; simpl; unfold Rat.ltb.
  - intros x y Hxy. apply negb_true_iff in Hxy. apply negb_false_iff.
    apply Qle_bool_iff. destruct (Qlt_le_dec x y) as [Hlt | Hle].
    + apply Qlt_le_weak. exact Hlt.
    + apply Qle_bool_iff in Hle. congruence.
  - intros x y z _ _ _ Hyx Hzy. apply negb_false_iff in Hyx, Hzy.
    apply negb_false_iff. apply Qle_bool_iff in Hyx, Hzy.
    apply Qle_bool_iff. eapply Qle_trans; eassumption.
  - intros x y. destruct (Qeq_bool y x) eqn:E.
    + apply Qeq_bool_iff. apply Qeq_bool_iff in E. symmetry. exact E.
    + destruct (Qeq_bool x y) eqn:E'; [| reflexivity].
      apply Qeq_bool_iff in E'. symmetry in E'. apply Qeq_bool_iff in E'.
      congruence.
Qed.

(** *** The order of binary64

    [SFcompare] orders the floats that are not NaN by sign, exponent and
    mantissa. *)

Section FloatOrder.

Ltac compare_cases :=
  repeat match goal with
  | |- context [PosDef.Pos.compare_cont Eq ?a ?b] =>
      change (PosDef.Pos.compare_cont Eq a b) with (Pos.compare a b)
  end;
  repeat match goal with
  | |- context [Z.compare ?a ?b] => destruct (Z.compare_spec a b)
  | |- context [Pos.compare ?a ?b] => destruct (Pos.compare_spec a b)
  end; simpl in *; try congruence; try lia.

Lemma SFcompare_sym f g :
  SFcompare g f = option_map CompOpp (SFcompare f g).
Proof.
  destruct f as [s | s | | s m e], g as [s' | s' | | s' m' e']; simpl;
    try reflexivity; try (destruct s; reflexivity);
    try (destruct s'; reflexivity);
    try (destruct s, s'; reflexivity).
  change (PosDef.Pos.compare_cont Eq m' m) with (Pos.compare m' m).
  change (PosDef.Pos.compare_cont Eq m m') with (Pos.compare m m').
  rewrite (Z.compare_antisym e e'), (Pos.compare_antisym m m').
  destruct s, s'; simpl; try reflexivity;
    destruct (e ?= e')%Z, (m ?= m')%positive; reflexivity.
Qed.

Lemma SFeqb_sym f g : SFeqb f g = SFeqb g f.
Proof.
  unfold SFeqb. rewrite (SFcompare_sym f g).
  destruct (SFcompare f g) as [[] |]; reflexivity.
Qed.

Lemma SFltb_asym f g : SFltb f g = true -> SFltb g f = false.
Proof.
  unfold SFltb. rewrite (SFcompare_sym f g).
  destruct (SFcompare f g) as [[] |]; simpl; congruence.
Qed.

Lemma SFltb_le_trans f g h :
  SFeqb f f = true -> SFeqb g g = true -> SFeqb h h = true ->
  SFltb g f = false -> SFltb h g = false -> SFltb h f = false.
Proof.
  unfold SFeqb, SFltb.
  destruct f as [s | s | | s m e], g as [s' | s' | | s' m' e'],
    h as [s'' | s'' | | s'' m'' e'']; simpl; try congruence;
    intros _ _ _;
    repeat match goal with b : bool |- _ => destruct b end; simpl;
    try congruence; compare_cases.
Qed.

End FloatOrder.

#[global] Instance float_order : NumOrder float.
Proof.
  split; simpl.
  - intros x y. rewrite !ltb_spec. apply SFltb_asym.
  - intros x y z. rewrite !ltb_spec, !FloatAxioms.eqb_spec. apply SFltb_le_trans.
  - intros x y. rewrite !FloatAxioms.eqb_spec. apply SFeqb_sym.
Qed.

Section EnergySampleList.
Context {T : Type} `{NumOrder T}.
Implicit Types (w : world T) (lambda_val : T).

(** C8 (amended): when neither [lambda_val] nor an element of the caller's
    list is a NaN (each is [==] to itself), after a successful construction
    the stored energy-sample list is sorted in ascending order and contains
    the window's own [lambda_val]; it is free of duplicates when the
    caller's list was (the constructor avoids adding a second [lambda_val],
    it does not remove the duplicates it is given).  Binary64 numbers and
    rationals both have the order this asks for. *)
Theorem lambda_energy_sorted system lambda_val lambda_array l increment device
    has_space w d w' ys :
  lists w !! l = Some ys ->
  self_equal lambda_val -> Forall self_equal ys ->
  Dynamics.__init__ system lambda_val lambda_array (Some l) increment device
    has_space w = (Ok d, w') ->
  exists xs, lists w' !! _lambda_energy d = Some xs /\
    StronglySorted num_le xs /\
    Dynamics.contains lambda_val xs = true /\
    (distinct ys = true -> distinct xs = true).
Proof.
  intros Hys Hx Hok Hrun. apply init_lists in Hrun as [_ (ys' & Hys' & Hxs)].
  assert (ys' = ys) as -> by congruence.
  eexists. split; [exact Hxs |].
  rewrite contains_sorted, distinct_sorted.
  destruct (Dynamics.contains lambda_val ys) eqn:E.
  - split; [apply sorted_sorted; exact Hok |]. split; [exact E | auto].
  - split; [apply sorted_sorted, Forall_app; split;
            [exact Hok | repeat constructor; exact Hx] |].
    split; [apply contains_self; exact Hx
           | intros Hd; apply distinct_snoc; assumption].
Qed.

(** C10: the constructor leaves every list object that existed before it as
    it was, the caller's [lambda_energy] among them: it works on a copy. *)
Theorem constructor_keeps_lambda_energy system lambda_val lambda_array l
    increment device has_space w ys :
  lists w !! l = Some ys ->
  lists (Dynamics.__init__ system lambda_val lambda_array (Some l) increment
           device has_space w).2 !! l = Some ys.
Proof.
  intros Hys.
  destruct (Dynamics.__init__ _ _ _ _ _ _ _ w) as [r w'] eqn:Hrun.
  apply init_lists in Hrun as [Hkeep _]. apply Hkeep, Hys.
Qed.

End EnergySampleList.

Section EnergySampleListExamples.
Import Example.

(** C8, as stated, fails: the duplicates of the caller's list are kept.
    With [lambda_energy = [0.5, 0.5]] and [lambda_val = 0.0] the stored list
    is [[0.0, 0.5, 0.5]]. *)
Lemma lambda_energy_duplicates_kept :
  exists d w',
    Dynamics.__init__ (runner_system duplicated_input) 0%float
      (lambda_values duplicated_input) (Some 0%nat) 0.001%float None true
      duplicated_input = (Ok d, w') /\
    lists w' !! _lambda_energy d = Some [0%float; 0.5%float; 0.5%float] /\
    distinct [0%float; 0.5%float; 0.5%float] = false.
Proof.
  eexists _, _. split; [vm_compute; reflexivity |].
  split; vm_compute; reflexivity.
Qed.

Lemma lambda_energy_sorted_witness :
  exists d w',
    Dynamics.__init__ (runner_system binary64_input) 0.5%float
      (lambda_values binary64_input) (Some 0%nat) 0.001%float None true
      binary64_input = (Ok d, w') /\
    exists xs, lists w' !! _lambda_energy d = Some xs /\
      StronglySorted num_le xs /\
      Dynamics.contains 0.5%float xs = true /\
      (distinct [1%float; 0%float] = true -> distinct xs = true).
Proof.
  eexists _, _. split; [vm_compute; reflexivity |].
  apply (lambda_energy_sorted (runner_system binary64_input) 0.5%float
           (lambda_values binary64_input) 0%nat 0.001%float None true
           binary64_input).
  - vm_compute. reflexivity.
  - vm_compute. reflexivity.
  - repeat constructor.
  - vm_compute. reflexivity.
Defined.

(** A NaN is [<] no number and no number is [<] it: a list that holds one
    comes out of [sorted] as it went in. *)
Lemma lambda_energy_nan_unsorted :
  Dynamics.sorted [1%float; nan; 0%float; 0.5%float] =
    [1%float; nan; 0%float; 0.5%float] /\
  ~ StronglySorted num_le [1%float; nan; 0%float; 0.5%float].
Proof.
  split; [vm_compute; reflexivity |].
  intros Hs. inversion Hs as [| x r _ Hall]; subst.
  inversion Hall as [| y q _ Hrest]; subst.
  inversion Hrest as [| z q' Hz _]; subst.
  vm_compute in Hz. discriminate.
Qed.

Lemma constructor_keeps_lambda_energy_witness :
  lists (Dynamics.__init__ (runner_system rational_input) (1 # 2)%Q
           (lambda_values rational_input) (Some 0%nat) (1 # 1000)%Q None
           true rational_input).2 !! 0%nat = Some [0%Q; 1%Q].
Proof.
  apply (constructor_keeps_lambda_energy (runner_system rational_input)
           (1 # 2)%Q (lambda_values rational_input) 0%nat (1 # 1000)%Q None
           true rational_input [0%Q; 1%Q]).
  vm_compute. reflexivity.
Defined.

End EnergySampleListExamples.

(** ** Traces *)

Section Traces.
Context {T : Type}.
Implicit Types (w : world T) (e : event T) (evs : list (event T)).
Implicit Types (Q : event T -> Prop).

#[global] Instance steps_preorder Q : PreOrder (steps Q).
Proof.
  split.
  - intros w. repeat split. exists []. rewrite app_nil_r. auto.
  - intros w1 w2 w3 (He1 & Hc1 & evs1 & Ht1 & Hq1) (He2 & Hc2 & evs2 & Ht2 & Hq2).
    split; [congruence |]. split; [congruence |].
    exists (evs1 ++ evs2). rewrite Ht2, Ht1, app_assoc.
    split; [reflexivity | apply Forall_app; auto].
Qed.

Lemma steps_weaken (Q Q' : event T -> Prop) w w' :
  (forall e, Q e -> Q' e) -> steps Q w w' -> steps Q' w w'.
Proof.
  intros HQ (He & Hc & evs & Ht & Hq). repeat split; auto.
  exists evs. split; [exact Ht |]. eapply Forall_impl; eauto.
Qed.

Lemma steps_event (Q : event T -> Prop) e w :
  Q e -> steps Q w (with_trace (trace w ++ [e]) w).
Proof.
  intros He. repeat split. exists [e]. split; [reflexivity |].
  constructor; [exact He | constructor].
Qed.

Lemma steps_config Q c w : steps Q w (with_config c w).
Proof. repeat split. exists []. simpl. rewrite app_nil_r. auto. Qed.

Lemma steps_lists Q h w : steps Q w (with_lists h w).
Proof. repeat split. exists []. simpl. rewrite app_nil_r. auto. Qed.

Lemma steps_sim Q (d d' : Dyn T) w :
  sim w = Some d -> _current_block d' = _current_block d ->
  steps Q w (with_sim d' w).
Proof.
  intros Hd Hcb. split; [reflexivity |]. split.
  - unfold current_block_of. simpl. rewrite Hd. simpl. congruence.
  - exists []. simpl. rewrite app_nil_r. auto.
Qed.

Lemma respects_weaken (Q Q' : event T -> Prop) {A} (m : M T A) :
  (forall e, Q e -> Q' e) -> respects (steps Q) m -> respects (steps Q') m.
Proof. intros HQ Hm w. eapply steps_weaken; [exact HQ | apply Hm]. Qed.

Lemma plain_no_entry e : plain e -> no_entry e.
Proof. intros [He _]. exact He. Qed.

Lemma plain_block_from cb e : plain e -> block_from cb e.
Proof. intros [He Hb]. split; [exact He |]. intros x Hx. congruence. Qed.

Lemma block_from_no_entry cb e : block_from cb e -> no_entry e.
Proof. intros [He _]. exact He. Qed.



End Traces.

Create HintDb steps.

Ltac steps_leaf :=
  first
    [ solve [eauto with steps]
    | apply respects_weaken with plain;
      [first [apply plain_no_entry | apply plain_block_from]
      | solve [eauto with steps]]
    | intros ?;
      first [ apply steps_config | apply steps_lists
            | apply steps_event; repeat split; simpl; auto; discriminate ] ].

Ltac steps_auto := respects_auto steps_leaf.

Section StepsPass.
Context {T : Type} `{PyNum T}.
Implicit Types (w : world T).

Lemma steps_self Q : respects (T := T) (steps Q) Dynamics.self.
Proof.
  intros w. unfold Dynamics.self. destruct (sim w); simpl; reflexivity.
Qed.

Lemma steps_update_self Q (f : Dyn T -> Dyn T) :
  (forall d, _current_block (f d) = _current_block d) ->
  respects (steps Q) (Dynamics.update_self f).
Proof.
  intros Hf w. unfold Dynamics.update_self, Dynamics.self, bind, modify.
  destruct (sim w) as [d |] eqn:E; simpl; [| reflexivity].
  apply steps_sim with d; auto.
Qed.

Lemma steps_list_new Q xs : respects (T := T) (steps Q) (list_new xs).
Proof. intros w. apply steps_lists. Qed.

Hint Resolve steps_self steps_list_new : steps.

Lemma steps_log Q lv m : Q (Log lv m) -> respects (T := T) (steps Q) (log lv m).
Proof. intros HQ w. apply steps_event, HQ. Qed.

Lemma steps_setup_dynamics b : respects (T := T) (steps plain) (Dynamics._setup_dynamics b).
Proof. unfold Dynamics._setup_dynamics. steps_auto. Qed.

Lemma steps_minimisation lm c pc :
  respects (T := T) (steps plain) (Dynamics._minimisation lm c pc).
Proof. unfold Dynamics._minimisation, log. steps_auto. Qed.

Hint Resolve steps_setup_dynamics steps_minimisation : steps.

Lemma steps_equilibration : respects (T := T) (steps plain) Dynamics._equilibration.
Proof. unfold Dynamics._equilibration, log. steps_auto. Qed.

Lemma steps_finalise : respects (T := T) (steps plain) Dynamics.finalise.
Proof. unfold Dynamics.finalise. steps_auto. Qed.

Lemma steps_save_energy_components :
  respects (T := T) (steps plain) Dynamics._save_energy_components.
Proof.
  unfold Dynamics._save_energy_components. steps_auto.
  apply steps_update_self. reflexivity.
Qed.

Hint Resolve steps_equilibration steps_finalise steps_save_energy_components : steps.

(** The production part: no further entry into [_run]. *)
Lemma steps_save_chunk x :
  respects (T := T) (steps no_entry) (Dynamics.save_chunk x).
Proof. unfold Dynamics.save_chunk. steps_auto. Qed.

Lemma steps_save_energy_components' :
  respects (T := T) (steps no_entry) Dynamics._save_energy_components.
Proof.
  apply respects_weaken with plain; [apply plain_no_entry |].
  apply steps_save_energy_components.
Qed.

Hint Resolve steps_save_chunk steps_save_energy_components' : steps.

Lemma steps_block lam_arr total i :
  respects (T := T) (steps no_entry) (Dynamics.block lam_arr total i).
Proof. unfold Dynamics.block, log. steps_auto. Qed.

Hint Resolve steps_block : steps.

Lemma steps_blocks lam_arr total x r :
  respects (T := T) (steps no_entry) (Dynamics.blocks lam_arr total x r).
Proof.
  revert x. induction r as [| i r IH]; intros x; simpl; steps_auto.
Qed.

Lemma steps_remainder_block lam_arr total x rem :
  respects (T := T) (steps no_entry)
    (Dynamics.remainder_block lam_arr total x rem).
Proof. unfold Dynamics.remainder_block, log. steps_auto. Qed.

Hint Resolve steps_blocks steps_remainder_block : steps.

Lemma steps_production lam_arr :
  respects (T := T) (steps no_entry) (Dynamics.production lam_arr).
Proof. unfold Dynamics.production. steps_auto. Qed.

End StepsPass.

#[global] Hint Resolve steps_self steps_list_new steps_setup_dynamics
  steps_minimisation steps_equilibration steps_finalise
  steps_save_energy_components steps_save_chunk
  steps_save_energy_components' steps_block steps_blocks
  steps_remainder_block steps_production : steps.

(** ** Block numbers *)

Section Blocks.
Context {T : Type} `{PyNum T}.
Implicit Types (w : world T) (evs : list (event T)) (lam_arr : list T).

Lemma block_number_offset cb i : 0 <= cb -> 0 <= i -> block_number cb i = cb + i.
Proof.
  intros Hcb Hi. unfold block_number.
  destruct (Z.eqb_spec (i + cb) 0); lia.
Qed.

Lemma block_number_ge cb i : 0 <= i -> cb <= block_number cb i.
Proof.
  intros Hi. unfold block_number. destruct (Z.eqb_spec (i + cb) 0); lia.
Qed.

Lemma current_block_sim w cb :
  current_block_of w = Some cb ->
  exists d, sim w = Some d /\ _current_block d = cb.
Proof.
  unfold current_block_of. destruct (sim w) as [d |]; simpl; [| discriminate].
  intros [= <-]. eauto.
Qed.

Ltac trace_split :=
  simpl; rewrite <- ?app_assoc; simpl;
  first [ eexists; split; [reflexivity |]
        | exists []; split; [rewrite app_nil_r; reflexivity |] ].

Ltac block_events :=
  repeat (apply Forall_cons_2;
          [split; [exact I | simpl; intros ? ?; simplify_eq; lia] |]);
  apply Forall_nil_2.

Lemma block_spec cb lam_arr total i w r w' :
  current_block_of w = Some cb -> 0 <= i ->
  Dynamics.block lam_arr total i w = (r, w') ->
  engine w' = engine w /\ current_block_of w' = Some cb /\
  exists evs, trace w' = trace w ++ evs /\ Forall (block_from cb) evs /\
    match r with
    | Ok x => x = block_number cb i /\ finished_blocks evs = [x]
    | Raise _ => finished_blocks evs = []
    end.
Proof.
  intros Hcb Hi Hrun.
  destruct (current_block_sim _ _ Hcb) as (d & Hd & <-).
  pose proof (block_number_ge (_current_block d) i Hi) as Hge.
  unfold Dynamics.block, Dynamics._save_energy_components,
    Dynamics.save_chunk, Dynamics.update_self, Dynamics.self in Hrun.
  unfold block_number in *.
  exec_in Hrun; simplify_eq.
  all: split; [reflexivity |].
  all: split; [unfold current_block_of; simpl;
               repeat match goal with E : sim _ = _ |- _ => rewrite E end;
               reflexivity |].
  all: trace_split.
  all: split; [block_events |].
  all: simpl; rewrite ?Z.add_simpl_r; auto.
Qed.

Lemma finished_blocks_app (evs1 evs2 : list (event T)) :
  finished_blocks (evs1 ++ evs2) = finished_blocks evs1 ++ finished_blocks evs2.
Proof. apply omap_app. Qed.

Lemma finished_blocks_plain (evs : list (event T)) :
  Forall plain evs -> finished_blocks evs = [].
Proof.
  induction 1 as [| e evs [_ He] _ IH]; [reflexivity |].
  destruct e as [lv m| | | | | | | | | | | | | | | | | |]; simpl in *;
    try exact IH.
  destruct m; simpl in *; try exact IH. discriminate.
Qed.

Lemma blocks_spec cb lam_arr total l : forall x0 w r w',
  current_block_of w = Some cb -> Forall (Z.le 0) l ->
  Dynamics.blocks lam_arr total x0 l w = (r, w') ->
  engine w' = engine w /\ current_block_of w' = Some cb /\
  exists evs, trace w' = trace w ++ evs /\ Forall (block_from cb) evs /\
    match r with
    | Ok x => x = loop_variable cb x0 l /\
              finished_blocks evs = map (block_number cb) l
    | Raise _ => exists k, finished_blocks evs = map (block_number cb) (take k l)
    end.
Proof.
  induction l as [| i l IH]; intros x0 w r w' Hcb Hl Hrun.
  - simpl in Hrun. injection Hrun as <- <-.
    repeat split; auto. exists []. rewrite app_nil_r. repeat split; auto.
  - simpl in Hrun. unfold bind in Hrun.
    apply Forall_cons in Hl as [Hi Hl].
    destruct (Dynamics.block lam_arr total i w) as [[x | e] w1] eqn:Hb;
      apply (block_spec cb) in Hb as (He1 & Hc1 & evs1 & Ht1 & Hq1 & Hf1);
      try assumption.
    + destruct Hf1 as [-> Hf1].
      apply IH in Hrun as (He2 & Hc2 & evs2 & Ht2 & Hq2 & Hf2); try assumption.
      split; [congruence |]. split; [exact Hc2 |].
      exists (evs1 ++ evs2). rewrite Ht2, Ht1, app_assoc.
      split; [reflexivity |]. split; [apply Forall_app; auto |].
      rewrite finished_blocks_app, Hf1.
      destruct r as [x | e].
      * destruct Hf2 as [-> ->]. split; reflexivity.
      * destruct Hf2 as [k ->]. exists (S k). reflexivity.
    + injection Hrun as <- <-.
      split; [exact He1 |]. split; [exact Hc1 |].
      exists evs1. repeat split; auto. exists 0%nat. exact Hf1.
Qed.

Lemma remainder_block_spec cb lam_arr total x rem w r w' :
  current_block_of w = Some cb ->
  (forall xv, x = Some xv -> cb <= xv) ->
  Dynamics.remainder_block lam_arr total x rem w = (r, w') ->
  engine w' = engine w /\ current_block_of w' = Some cb /\
  exists evs, trace w' = trace w ++ evs /\ Forall (block_from cb) evs /\
    (finished_blocks evs = [] /\ r <> Ok tt \/
     exists xv, x = Some xv /\ finished_blocks evs = [xv + 1]).
Proof.
  intros Hcb Hx Hrun.
  destruct (current_block_sim _ _ Hcb) as (d & Hd & <-).
  unfold Dynamics.remainder_block, Dynamics.save_chunk, Dynamics.self in Hrun.
  exec_in Hrun; simplify_eq.
  all: try (specialize (Hx _ eq_refl)).
  all: split; [reflexivity |].
  all: split; [unfold current_block_of; simpl;
               repeat match goal with E : sim _ = _ |- _ => rewrite E end;
               reflexivity |].
  all: trace_split.
  all: split; [block_events |].
  all: simpl; rewrite ?Z.add_simpl_r; eauto.
  all: left; split; [reflexivity | discriminate].
Qed.

Lemma range_nonneg n : Forall (Z.le 0) (range n).
Proof.
  unfold range. apply Forall_forall. intros x Hx.
  apply list_elem_of_In, in_map_iff in Hx as (j & <- & _). lia.
Qed.

Lemma map_block_number cb l :
  0 <= cb -> Forall (Z.le 0) l -> map (block_number cb) l = map (Z.add cb) l.
Proof.
  intros Hcb Hl. induction Hl as [| i l Hi _ IH]; simpl; [reflexivity |].
  rewrite block_number_offset, IH by assumption. reflexivity.
Qed.

Lemma take_range k n :
  take k (range n) = range (Z.of_nat (Nat.min k (Z.to_nat n))).
Proof.
  unfold range. rewrite Nat2Z.id, firstn_map, take_seq. reflexivity.
Qed.

Lemma range_succ n : 0 <= n -> range (n + 1) = range n ++ [n].
Proof.
  intros Hn. unfold range.
  replace (Z.to_nat (n + 1)) with (S (Z.to_nat n)) by lia.
  rewrite seq_S, map_app. simpl. rewrite Z2Nat.id by exact Hn. reflexivity.
Qed.

Lemma loop_variable_range cb n xv :
  loop_variable cb None (range n) = Some xv ->
  0 < n /\ xv = block_number cb (n - 1).
Proof.
  unfold range, loop_variable.
  destruct (Z.to_nat n) as [| m] eqn:E; [discriminate |].
  rewrite seq_S, map_app, foldl_app. simpl. intros [= <-].
  split; [lia |]. f_equal. lia.
Qed.

Lemma loop_variable_ge cb l : forall x0,
  Forall (Z.le 0) l -> (forall xv, x0 = Some xv -> cb <= xv) ->
  forall xv, loop_variable cb x0 l = Some xv -> cb <= xv.
Proof.
  induction l as [| i l IH]; intros x0 Hl Hx0 xv; simpl; [apply Hx0 |].
  apply Forall_cons in Hl as [Hi Hl]. apply IH; [exact Hl |].
  intros ? [= <-]. apply block_number_ge, Hi.
Qed.

Lemma consecutive_nil cb : consecutive_from (T := T) cb [].
Proof. exists 0%nat. reflexivity. Qed.

Lemma consecutive_plain cb evs : Forall plain evs -> consecutive_from cb evs.
Proof. intros Hp. exists 0%nat. rewrite finished_blocks_plain; auto. Qed.

(** The loop and the final block that may follow it. *)
Lemma loop_spec cb lam_arr total n (more : bool) rem w r w' :
  current_block_of w = Some cb ->
  (x <- Dynamics.blocks lam_arr total None (range n);;
   if more then Dynamics.remainder_block lam_arr total x rem else ret tt) w
    = (r, w') ->
  engine w' = engine w /\ current_block_of w' = Some cb /\
  exists evs, trace w' = trace w ++ evs /\ Forall (block_from cb) evs /\
    (0 <= cb -> consecutive_from cb evs).
Proof.
  intros Hcb Hrun. unfold bind in Hrun.
  destruct (Dynamics.blocks _ _ _ _ w) as [[x | e] w1] eqn:Hb;
    apply (blocks_spec cb) in Hb as (He1 & Hc1 & evs1 & Ht1 & Hq1 & Hf1);
    try assumption; try apply range_nonneg.
  - destruct Hf1 as [-> Hf1]. destruct more.
    + apply (remainder_block_spec cb) in Hrun
        as (He2 & Hc2 & evs2 & Ht2 & Hq2 & Hf2); try assumption.
      * split; [congruence |]. split; [exact Hc2 |].
        exists (evs1 ++ evs2). rewrite Ht2, Ht1, app_assoc.
        split; [reflexivity |]. split; [apply Forall_app; auto |].
        intros Hpos. rewrite map_block_number in Hf1
          by (try assumption; apply range_nonneg).
        unfold consecutive_from. rewrite finished_blocks_app, Hf1.
        destruct Hf2 as [[-> _] | (xv & Hxv & ->)].
        -- exists (Z.to_nat n). rewrite app_nil_r. unfold range.
           rewrite !Nat2Z.id. reflexivity.
        -- apply loop_variable_range in Hxv as [Hn ->].
           rewrite block_number_offset by lia.
           exists (Z.to_nat (n + 1)). rewrite Z2Nat.id by lia.
           rewrite range_succ, map_app by lia. simpl.
           f_equal. f_equal. lia.
      * apply loop_variable_ge; [apply range_nonneg | discriminate].
    + injection Hrun as <- <-.
      split; [exact He1 |]. split; [exact Hc1 |].
      exists evs1. repeat split; auto.
      intros Hpos. exists (Z.to_nat n). rewrite Hf1.
      rewrite map_block_number by (try assumption; apply range_nonneg).
      unfold range. rewrite !Nat2Z.id. reflexivity.
  - injection Hrun as <- <-.
    split; [exact He1 |]. split; [exact Hc1 |].
    exists evs1. repeat split; auto.
    intros Hpos. destruct Hf1 as [k Hf1].
    exists (Nat.min k (Z.to_nat n)).
    rewrite Hf1, take_range.
    apply map_block_number; [assumption | apply range_nonneg].
Qed.

Lemma numbered_plain cb {A} (m : M T A) :
  respects (steps plain) m -> numbered cb m.
Proof.
  intros Hm w Hcb. destruct (Hm w) as (He & Hc & evs & Ht & Hq).
  split; [exact He |]. split; [congruence |].
  exists evs. split; [exact Ht |]. split.
  - eapply Forall_impl; [exact Hq | apply plain_block_from].
  - intros _. apply consecutive_plain, Hq.
Qed.

Lemma numbered_after_plain cb {A B} (m : M T A) (k : A -> M T B) :
  respects (steps plain) m -> (forall a, numbered cb (k a)) ->
  numbered cb (bind m k).
Proof.
  intros Hm Hk w Hcb. unfold bind.
  destruct (Hm w) as (He & Hc & evs & Ht & Hq).
  destruct (m w) as [[a | e] w1]; simpl in *.
  - destruct (Hk a w1) as (He2 & Hc2 & evs2 & Ht2 & Hq2 & Hf2); [congruence |].
    split; [congruence |]. split; [exact Hc2 |].
    exists (evs ++ evs2). rewrite Ht2, Ht, app_assoc.
    split; [reflexivity |]. split.
    + apply Forall_app. split; [| exact Hq2].
      eapply Forall_impl; [exact Hq | apply plain_block_from].
    + intros Hpos. destruct (Hf2 Hpos) as [n Hn]. exists n.
      rewrite finished_blocks_app, finished_blocks_plain by exact Hq.
      exact Hn.
  - split; [exact He |]. split; [congruence |].
    exists evs. split; [exact Ht |]. split.
    + eapply Forall_impl; [exact Hq | apply plain_block_from].
    + intros _. apply consecutive_plain, Hq.
Qed.

Lemma numbered_before_plain cb {A B} (m : M T A) (k : A -> M T B) :
  numbered cb m -> (forall a, respects (steps plain) (k a)) ->
  numbered cb (bind m k).
Proof.
  intros Hm Hk w Hcb. unfold bind.
  destruct (Hm w Hcb) as (He & Hc & evs & Ht & Hq & Hf).
  destruct (m w) as [[a | e] w1]; simpl in *.
  - destruct (Hk a w1) as (He2 & Hc2 & evs2 & Ht2 & Hq2).
    split; [congruence |]. split; [congruence |].
    exists (evs ++ evs2). rewrite Ht2, Ht, app_assoc.
    split; [reflexivity |]. split.
    + apply Forall_app. split; [exact Hq |].
      eapply Forall_impl; [exact Hq2 | apply plain_block_from].
    + intros Hpos. destruct (Hf Hpos) as [n Hn]. exists n.
      rewrite finished_blocks_app, (finished_blocks_plain evs2) by exact Hq2.
      rewrite app_nil_r. exact Hn.
  - split; [exact He |]. split; [exact Hc |]. exists evs. auto.
Qed.

Lemma numbered_loop cb lam_arr total n (more : bool) rem :
  numbered cb
    (x <- Dynamics.blocks lam_arr total None (range n);;
     if more then Dynamics.remainder_block lam_arr total x rem else ret tt).
Proof.
  intros w Hcb.
  destruct ((x <- Dynamics.blocks lam_arr total None (range n);; _) w)
    as [r w'] eqn:Hrun.
  eapply loop_spec; eassumption.
Qed.

Lemma steps_config_modify (Q : event T -> Prop) (f : Config T -> Config T) :
  respects (steps Q) (modify (fun w => with_config (f (config w)) w)).
Proof. intros w. apply steps_config. Qed.

Lemma numbered_production cb lam_arr :
  numbered cb (Dynamics.production lam_arr).
Proof.
  unfold Dynamics.production.
  apply numbered_after_plain; [apply steps_self | intros d].
  apply numbered_after_plain; [apply respects_get; apply _ | intros cfg].
  destruct (num_lt num_zero (checkpoint_frequency cfg)).
  - apply numbered_after_plain; [apply respects_lift; apply _ | intros frac].
    apply numbered_after_plain.
    { steps_auto. }
    intros frac'.
    apply numbered_after_plain; [apply respects_lift; apply _ | intros n].
    apply numbered_loop.
  - apply numbered_plain. steps_auto.
Qed.



(** The blocks of a run are numbered from the current block on. *)
Lemma run_numbered cb lm ir w :
  current_block_of w = Some cb ->
  exists evs,
    trace (Dynamics._run lm ir w).2 = trace w ++ Enter_run lm :: evs /\
    Forall (block_from cb) evs /\
    (0 <= cb -> consecutive_from cb evs).
Proof.
  intros Hcb. unfold Dynamics._run.
  change (bind (emit (Enter_run lm)) ?k w)
    with (k tt (with_trace (trace w ++ [Enter_run lm]) w)).
  match goal with
  | |- context [(?k (with_trace ?t w)).2] => assert (Hk : numbered cb k)
  end.
  { repeat (apply numbered_after_plain;
            [solve [unfold log; steps_auto;
                    try (apply steps_update_self; reflexivity)]
            | intros ?]).
    apply numbered_before_plain; [apply numbered_production |].
    intros _. apply steps_finalise. }
  destruct (Hk (with_trace (trace w ++ [Enter_run lm]) w) Hcb)
    as (_ & _ & evs & Ht & Hq & Hf).
  exists evs. split; [| auto].
  rewrite Ht. simpl. rewrite <- app_assoc. reflexivity.
Qed.

End Blocks.

(** ** Restart *)

Section Restart.
Context {T : Type} `{PyNum T}.
Implicit Types (w : world T) (evs : list (event T)).

(** What the constructor does about a restart. *)
Lemma init_resume system lambda_val lambda_array lambda_energy increment
    device has_space w d w' :
  Dynamics.__init__ system lambda_val lambda_array lambda_energy increment
    device has_space w = (Ok d, w') ->
  if restart (config w) then
    (exists q,
        num_div (time system) (checkpoint_frequency (config w)) = Ok q /\
        num_int (num_round q 12) = Ok (_current_block d)) /\
    config w' =
      set_runtime (num_sub (runtime (config w)) (time system)) (config w)
  else _current_block d = 0 /\ config w' = config w.
Proof.
  intros Hrun. unfold Dynamics.__init__, Dynamics.create_filenames in Hrun.
  exec_in Hrun; simplify_eq;
    repeat match goal with
      | E : list_read _ _ = _ |- _ => apply list_read_spec in E as [-> E]
      | E : list_copy _ _ = _ |- _ => apply list_copy_spec in E
      | E : list_append _ _ _ = _ |- _ => apply list_append_spec in E
      | E : list_new ?xs ?w = _ |- _ =>
          let c := fresh "c" in let Hc := fresh "Hc" in let Hn := fresh "Hn" in
          destruct (list_new_spec xs w) as (c & Hc & Hn);
          rewrite Hn in E; inversion E; subst; clear E Hn
      | E : exists _, _ |- _ => destruct E as (? & ? & ? & ?)
      | E : exists _, _ |- _ => destruct E as (? & ? & ?)
      end; subst; cbn in *.
  all: repeat match goal with E : restart _ = _ |- _ => rewrite E end.
  all: eauto.
Qed.

End Restart.

(** ** The production loop when nothing fails *)

Section Production.
Context {T : Type} `{PyNum T}.
Implicit Types (w : world T) (evs : list (event T)) (lam_arr : list T).

Lemma runs_and_checkpoints_app (evs1 evs2 : list (event T)) :
  runs_and_checkpoints (evs1 ++ evs2) =
  runs_and_checkpoints evs1 ++ runs_and_checkpoints evs2.
Proof. apply Stdlib.Lists.List.filter_app. Qed.

Ltac no_failure Hnf :=
  try match goal with
      | E : engine _ _ _ = Some _ |- _ => rewrite Hnf in E; discriminate
      end.

Lemma block_ok lam_arr total i w cb :
  never_fails w -> current_block_of w = Some cb ->
  exists w' evs,
    Dynamics.block lam_arr total i w = (Ok (block_number cb i), w') /\
    advances w evs w' /\
    runs_and_checkpoints evs =
      [Run (checkpoint_frequency (config w)) lam_arr; Checkpoint].
Proof.
  intros Hnf Hcb.
  destruct (current_block_sim _ _ Hcb) as (d & Hd & <-).
  destruct (Dynamics.block lam_arr total i w) as [r w'] eqn:Hrun.
  unfold Dynamics.block, Dynamics._save_energy_components,
    Dynamics.save_chunk, Dynamics.update_self, Dynamics.self in Hrun.
  unfold block_number.
  exec_in Hrun; simplify_eq; no_failure Hnf.
  all: eexists _, _; split; [reflexivity |].
  all: split;
    [split; [reflexivity |]; split; [reflexivity |]; split;
     [unfold current_block_of; simpl;
      repeat match goal with E : sim _ = _ |- _ => rewrite E end;
      reflexivity
     | simpl; rewrite <- ?app_assoc; simpl; reflexivity] |].
  all: reflexivity.
Qed.

Lemma advances_never_fails w evs w' :
  advances w evs w' -> never_fails w -> never_fails w'.
Proof. intros (He & _) Hnf h e. rewrite He. apply Hnf. Qed.

Lemma advances_trans w1 evs1 w2 evs2 w3 :
  advances w1 evs1 w2 -> advances w2 evs2 w3 ->
  advances w1 (evs1 ++ evs2) w3.
Proof.
  intros (He1 & Hc1 & Hb1 & Ht1) (He2 & Hc2 & Hb2 & Ht2).
  repeat split; try congruence. rewrite Ht2, Ht1, app_assoc. reflexivity.
Qed.

Lemma blocks_ok lam_arr total l cb : forall x0 w,
  never_fails w -> current_block_of w = Some cb ->
  exists w' evs,
    Dynamics.blocks lam_arr total x0 l w = (Ok (loop_variable cb x0 l), w') /\
    advances w evs w' /\
    runs_and_checkpoints evs =
      concat (repeat [Run (checkpoint_frequency (config w)) lam_arr;
                      Checkpoint] (length l)).
Proof.
  induction l as [| i l IH]; intros x0 w Hnf Hcb; simpl.
  - exists w, []. repeat split; auto. rewrite app_nil_r. reflexivity.
  - destruct (block_ok lam_arr total i w cb Hnf Hcb)
      as (w1 & evs1 & Hb & Ha1 & Hr1).
    unfold bind. rewrite Hb.
    destruct (IH (Some (block_number cb i)) w1) as (w2 & evs2 & Hbs & Ha2 & Hr2).
    { eapply advances_never_fails; eassumption. }
    { destruct Ha1 as (_ & _ & Hc & _). congruence. }
    exists w2, (evs1 ++ evs2). split; [exact Hbs |].
    split; [eapply advances_trans; eassumption |].
    rewrite runs_and_checkpoints_app, Hr1, Hr2.
    destruct Ha1 as (_ & -> & _). reflexivity.
Qed.

Lemma remainder_block_ok lam_arr total xv rem w cb :
  never_fails w -> current_block_of w = Some cb ->
  exists w' evs,
    Dynamics.remainder_block lam_arr total (Some xv) rem w = (Ok tt, w') /\
    advances w evs w' /\
    runs_and_checkpoints evs = [Run rem lam_arr].
Proof.
  intros Hnf Hcb.
  destruct (current_block_sim _ _ Hcb) as (d & Hd & <-).
  destruct (Dynamics.remainder_block lam_arr total (Some xv) rem w)
    as [r w'] eqn:Hrun.
  unfold Dynamics.remainder_block, Dynamics.save_chunk, Dynamics.self in Hrun.
  exec_in Hrun; simplify_eq; no_failure Hnf.
  all: eexists _, _; split; [reflexivity |].
  all: split;
    [split; [reflexivity |]; split; [reflexivity |]; split;
     [unfold current_block_of; simpl;
      repeat match goal with E : sim _ = _ |- _ => rewrite E end;
      reflexivity
     | simpl; rewrite <- ?app_assoc; simpl; reflexivity] |].
  all: reflexivity.
Qed.

End Production.

Section ProductionRuns.
Context {T : Type} `{PyNum T}.
Implicit Types (w : world T) (evs : list (event T)) (lam_arr : list T).

Lemma bind_ok {A B} (m : M T A) (k : A -> M T B) w a w1 :
  m w = (Ok a, w1) -> bind m k w = k a w1.
Proof. intros Hm. unfold bind. rewrite Hm. reflexivity. Qed.

Lemma length_range n : length (range n) = Z.to_nat n.
Proof. unfold range. rewrite length_map, length_seq. reflexivity. Qed.

Lemma loop_variable_bound cb n :
  0 < n -> exists xv, loop_variable cb None (range n) = Some xv.
Proof.
  intros Hn. unfold loop_variable, range.
  destruct (Z.to_nat n) as [| m] eqn:E; [lia |].
  rewrite seq_S, map_app, foldl_app. simpl. eauto.
Qed.

(** C6 (amended): with a positive checkpoint frequency [c], a runtime [r]
    and an outside that does not fail, the production loop runs as follows,
    in the arithmetic of the program.  [frac] is the quotient [r / c] as
    computed, replaced by [1.0] when it is below [1.0], and then the
    checkpoint frequency becomes [r].  There are [int(frac)] runs of the
    length of the checkpoint frequency, each followed by its checkpoint,
    and, when [rem = frac - int(frac)] is positive, one more run, which is
    given [rem] itself as its length and after which no checkpoint is
    streamed. *)
Theorem production_partition w cb lam_arr q n :
  current_block_of w = Some cb -> never_fails w ->
  let r := runtime (config w) in
  let c := checkpoint_frequency (config w) in
  num_lt num_zero c = true ->
  num_div r c = Ok q ->
  let short := num_lt q num_one in
  let frac := if short then num_one else q in
  num_int frac = Ok n -> 0 < n ->
  let rem := num_sub frac (num_of_int n) in
  exists w' evs,
    Dynamics.production lam_arr w = (Ok tt, w') /\
    trace w' = trace w ++ evs /\
    config w' =
      (if short then set_checkpoint_frequency r (config w) else config w) /\
    runs_and_checkpoints evs =
      concat (repeat [Run (if short then r else c) lam_arr; Checkpoint]
                     (Z.to_nat n))
      ++ (if num_lt num_zero rem then [Run rem lam_arr] else []).
Proof.
  intros Hcb Hnf r c H0c Hq short frac Hn Hpos rem.
  destruct (current_block_sim _ _ Hcb) as (d & Hd & Hdcb).
  unfold Dynamics.production.
  rewrite (bind_ok _ _ w d w)
    by (unfold Dynamics.self; rewrite Hd; reflexivity).
  rewrite (bind_ok _ _ w (config w) w) by reflexivity.
  fold r c. rewrite H0c.
  rewrite (bind_ok _ _ w q w) by (unfold lift; rewrite Hq; reflexivity).
  fold short.
  set (w1 := if short
             then with_config (set_checkpoint_frequency r (config w)) w
             else w).
  assert (Hnf1 : never_fails w1) by (subst w1; destruct short; exact Hnf).
  assert (Hcb1 : current_block_of w1 = Some cb)
    by (subst w1; destruct short; exact Hcb).
  assert (Hcfg1 : config w1 =
                  if short then set_checkpoint_frequency r (config w)
                  else config w) by (subst w1; destruct short; reflexivity).
  assert (Hlen : checkpoint_frequency (config w1) = if short then r else c)
    by (rewrite Hcfg1; destruct short; reflexivity).
  assert (Ht1 : trace w1 = trace w) by (subst w1; destruct short; reflexivity).
  rewrite (bind_ok _ _ w frac w1)
    by (subst w1 frac; destruct short; reflexivity).
  rewrite (bind_ok _ _ w1 n w1) by (unfold lift; rewrite Hn; reflexivity).
  fold rem.
  destruct (blocks_ok lam_arr
              (_current_block d + n + (if num_lt num_zero rem then 1 else 0))
              (range n) cb None w1 Hnf1 Hcb1)
    as (w2 & evs & Hb & Ha & Hruns).
  rewrite (bind_ok _ _ w1 _ w2 Hb). rewrite length_range, Hlen in Hruns.
  destruct (num_lt num_zero rem) eqn:Hrem.
  - destruct (loop_variable_bound cb n Hpos) as [xv Hxv]. rewrite Hxv.
    destruct (remainder_block_ok lam_arr (_current_block d + n + 1) xv rem
                w2 cb) as (w3 & evs' & Hrb & Ha' & Hruns').
    { eapply advances_never_fails; eassumption. }
    { destruct Ha as (_ & _ & Hc2 & _). congruence. }
    rewrite Hrb.
    destruct (advances_trans _ _ _ _ _ Ha Ha') as (_ & Hcfg & _ & Ht).
    exists w3, (evs ++ evs'). split; [reflexivity |].
    split; [rewrite Ht, Ht1; reflexivity |].
    split; [rewrite Hcfg; exact Hcfg1 |].
    rewrite runs_and_checkpoints_app, Hruns, Hruns'. reflexivity.
  - destruct Ha as (_ & Hcfg & _ & Ht).
    exists w2, evs. split; [reflexivity |].
    split; [rewrite Ht, Ht1; reflexivity |].
    split; [rewrite Hcfg; exact Hcfg1 |].
    rewrite Hruns, app_nil_r. reflexivity.
Qed.

End ProductionRuns.


(** *** with exact arithmetic *)

Section ProductionExact.
Implicit Types (w : world Q).
Local Open Scope Q_scope.

Lemma Q_lt_true (x y : Q) : num_lt x y = true <-> x < y.
Proof.
  simpl. unfold Rat.ltb. rewrite negb_true_iff.
  split.
  - intros Hle. apply Qnot_le_lt. intros Hyx.
    apply Qle_bool_iff in Hyx. congruence.
  - intros Hlt. destruct (Qle_bool y x) eqn:E; [| reflexivity].
    apply Qle_bool_iff in E. apply Qlt_not_le in Hlt. contradiction.
Qed.

Lemma Q_lt_false (x y : Q) : num_lt x y = false <-> y <= x.
Proof.
  simpl. unfold Rat.ltb. rewrite negb_false_iff. apply Qle_bool_iff.
Qed.

Lemma Q_div_ok (r c : Q) : 0 < c -> num_div r c = Ok (Qred (r / c)).
Proof.
  intros Hc. simpl. unfold Rat.div.
  destruct (Qeq_bool c 0) eqn:E; [| reflexivity].
  apply Qeq_bool_iff in E. rewrite E in Hc. apply Qlt_irrefl in Hc.
  contradiction.
Qed.

Lemma Q_div_mult (r c : Q) : 0 < c -> r / c * c == r.
Proof.
  intros Hc. field. intros E. rewrite E in Hc. apply Qlt_irrefl in Hc.
  exact Hc.
Qed.

Lemma Q_div_lt_one (r c : Q) : 0 < c -> (r / c < 1 <-> r < c).
Proof.
  intros Hc. rewrite <- (Qmult_lt_r (r / c) 1 c Hc).
  rewrite Q_div_mult, Qmult_1_l by exact Hc. reflexivity.
Qed.

Lemma Q_int_floor (q : Q) : 0 <= q -> num_int q = Ok (Qfloor q).
Proof.
  intros Hq. simpl. unfold Rat.to_int. f_equal.
  destruct q as [n d]. simpl. apply Z.quot_div_nonneg; [| reflexivity].
  unfold Qle in Hq. simpl in Hq. lia.
Qed.

(** In exact arithmetic, with positive runtime [r] and checkpoint frequency
    [c], and an outside that does not fail, the production loop runs as
    follows.  If
    [r < c] the checkpoint frequency becomes [r] and there is one block of
    length [r], with its checkpoint, and nothing else.  Otherwise there are
    [floor(r / c)] blocks of length [c], each followed by its checkpoint,
    and, when the rest [r / c - floor(r / c)] is positive, one more run of
    that length after which no checkpoint is streamed. *)
Lemma production_partition_exact w cb lam_arr :
  current_block_of w = Some cb -> never_fails w ->
  let r := runtime (config w) in
  let c := checkpoint_frequency (config w) in
  0 < r -> 0 < c ->
  exists w' evs,
    Dynamics.production lam_arr w = (Ok tt, w') /\
    trace w' = trace w ++ evs /\
    (r < c ->
       checkpoint_frequency (config w') = r /\
       runs_and_checkpoints evs = [Run r lam_arr; Checkpoint]) /\
    (c <= r ->
       exists rem, rem == r / c - inject_Z (Qfloor (r / c)) /\
         checkpoint_frequency (config w') = c /\
         runs_and_checkpoints evs =
           concat (repeat [Run c lam_arr; Checkpoint]
                          (Z.to_nat (Qfloor (r / c))))
           ++ (if Qlt_le_dec 0 rem then [Run rem lam_arr] else [])).
Proof.
  intros Hcb Hnf r c Hr Hc.
  destruct (current_block_sim _ _ Hcb) as (d & Hd & Hdcb).
  unfold Dynamics.production.
  rewrite (bind_ok _ _ w d w) by (unfold Dynamics.self; rewrite Hd; reflexivity).
  rewrite (bind_ok _ _ w (config w) w) by reflexivity.
  fold r c.
  assert (H0c : num_lt num_zero c = true) by (apply Q_lt_true; exact Hc).
  rewrite H0c.
  rewrite (bind_ok _ _ w (Qred (r / c)) w)
    by (unfold lift; rewrite (Q_div_ok r c Hc); reflexivity).
  destruct (num_lt (Qred (r / c)) num_one) eqn:Hlt.
  - apply Q_lt_true in Hlt. change (num_one (T := Q)) with 1 in Hlt.
    rewrite Qred_correct in Hlt. apply (proj1 (Q_div_lt_one r c Hc)) in Hlt.
    set (w1 := with_config (set_checkpoint_frequency r (config w)) w).
    rewrite (bind_ok _ _ w num_one w1) by reflexivity.
    rewrite (bind_ok _ _ w1 1%Z w1) by reflexivity.
    destruct (blocks_ok lam_arr
                (_current_block d + 1 +
                 (if num_lt num_zero (num_sub num_one (num_of_int 1))
                  then 1 else 0))%Z
                (range 1) cb None w1)
      as (w2 & evs & Hb & (_ & Hcfg & _ & Ht) & Hruns); [exact Hnf | exact Hcb |].
    rewrite (bind_ok _ _ w1 _ w2 Hb).
    change (num_lt num_zero (num_sub num_one (num_of_int 1))) with false.
    exists w2, evs. split; [reflexivity |]. split; [exact Ht |]. split.
    + intros _. rewrite Hcfg. split; [reflexivity | exact Hruns].
    + intros Hle. apply Qle_not_lt in Hle. contradiction.
  - apply Q_lt_false in Hlt. change (num_one (T := Q)) with 1 in Hlt.
    assert (Hge : c <= r).
    { apply Qnot_lt_le. intros Hrc. apply (proj2 (Q_div_lt_one r c Hc)) in Hrc.
      rewrite <- (Qred_correct (r / c)) in Hrc.
      apply Qle_not_lt in Hlt. contradiction. }
    set (frac := Qred (r / c)) in *.
    assert (Hfloor : Qfloor frac = Qfloor (r / c))
      by (subst frac; rewrite Qred_correct; reflexivity).
    rewrite (bind_ok _ _ w frac w) by reflexivity.
    rewrite (bind_ok _ _ w (Qfloor frac) w)
      by (unfold lift; rewrite Q_int_floor;
          [reflexivity | eapply Qle_trans; [| exact Hlt]; discriminate]).
    set (rem := num_sub frac (num_of_int (Qfloor frac))).
    assert (Hrem : rem == r / c - inject_Z (Qfloor (r / c))).
    { subst rem. simpl. unfold Rat.sub, Rat.lit.
      rewrite !Qred_correct, Hfloor. subst frac. rewrite Qred_correct.
      reflexivity. }
    destruct (blocks_ok lam_arr
                (_current_block d + Qfloor frac +
                 (if num_lt num_zero rem then 1 else 0))%Z
                (range (Qfloor frac)) cb None w)
      as (w2 & evs & Hb & Ha & Hruns); [exact Hnf | exact Hcb |].
    rewrite (bind_ok _ _ w _ w2 Hb). rewrite length_range, Hfloor in Hruns.
    destruct (num_lt num_zero rem) eqn:Hpos.
    + apply Q_lt_true in Hpos. change (num_zero (T := Q)) with 0 in Hpos.
      assert (Hx : exists xv,
        loop_variable cb None (range (Qfloor frac)) = Some xv).
      { unfold loop_variable, range.
        destruct (Z.to_nat (Qfloor frac)) as [| m] eqn:E.
        - exfalso. assert (1 <= Qfloor frac)%Z; [| lia].
          change 1%Z with (Qfloor 1). apply Qfloor_resp_le. exact Hlt.
        - rewrite seq_S, map_app, foldl_app. simpl. eauto. }
      destruct Hx as [xv Hxv]. rewrite Hxv.
      destruct (remainder_block_ok lam_arr
                  (_current_block d + Qfloor frac + 1)%Z xv rem w2 cb)
        as (w3 & evs' & Hrb & Ha' & Hruns').
      { eapply advances_never_fails; eassumption. }
      { destruct Ha as (_ & _ & Hc2 & _). congruence. }
      rewrite Hrb.
      destruct (advances_trans _ _ _ _ _ Ha Ha') as (_ & Hcfg & _ & Ht).
      exists w3, (evs ++ evs'). split; [reflexivity |]. split; [exact Ht |].
      split.
      * intros Hrc. apply Qle_not_lt in Hge. contradiction.
      * intros _. exists rem. split; [exact Hrem |].
        split; [rewrite Hcfg; reflexivity |].
        rewrite runs_and_checkpoints_app, Hruns, Hruns'.
        destruct (Qlt_le_dec 0 rem) as [_ | Hle]; [reflexivity |].
        apply Qle_not_lt in Hle. contradiction.
    + apply Q_lt_false in Hpos. change (num_zero (T := Q)) with 0 in Hpos.
      destruct Ha as (_ & Hcfg & _ & Ht).
      exists w2, evs. split; [reflexivity |]. split; [exact Ht |]. split.
      * intros Hrc. apply Qle_not_lt in Hge. contradiction.
      * intros _. exists rem. split; [exact Hrem |].
        split; [rewrite Hcfg; reflexivity |].
        rewrite Hruns.
        destruct (Qlt_le_dec 0 rem) as [Hlt' | _];
          [| rewrite app_nil_r; reflexivity].
        apply Qle_not_lt in Hpos. contradiction.
Qed.

End ProductionExact.

(** ** The retry *)

Section Retry.
Context {T : Type} `{PyNum T}.
Implicit Types (w : world T) (evs : list (event T)).






End Retry.

(** ** The configuration object across the operations of the core *)

Section ConfigFrameCore.
Context {T : Type} `{PyNum T}.
Implicit Types (w : world T) (evs : list (event T)) (lam_arr : list T).
Local Abbreviation ok := (respects (T := T) keeps_config).

Lemma frame_new system lambda_val lambda_array lambda_energy increment device
    has_space :
  ok (Dynamics.new system lambda_val lambda_array lambda_energy increment
        device has_space).
Proof. unfold Dynamics.new. frame. Qed.

Lemma frame_update_self f : ok (Dynamics.update_self f).
Proof. unfold Dynamics.update_self. frame. Qed.

Lemma frame_minimisation lm c pc : ok (Dynamics._minimisation lm c pc).
Proof. unfold Dynamics._minimisation. frame. Qed.

Lemma frame_setup_dynamics b : ok (Dynamics._setup_dynamics b).
Proof. unfold Dynamics._setup_dynamics. frame. Qed.

Hint Resolve frame_new frame_update_self frame_minimisation
  frame_setup_dynamics : frame.

Lemma frame_equilibration : ok Dynamics._equilibration.
Proof. unfold Dynamics._equilibration. frame. Qed.

Lemma frame_save_energy_components : ok Dynamics._save_energy_components.
Proof. unfold Dynamics._save_energy_components. frame. Qed.

Lemma frame_save_chunk x : ok (Dynamics.save_chunk x).
Proof. unfold Dynamics.save_chunk. frame. Qed.

Hint Resolve frame_equilibration frame_save_energy_components
  frame_save_chunk : frame.

Lemma frame_block lam_arr total i : ok (Dynamics.block lam_arr total i).
Proof. unfold Dynamics.block. frame. Qed.

Hint Resolve frame_block : frame.

Lemma frame_blocks lam_arr total x r : ok (Dynamics.blocks lam_arr total x r).
Proof. revert x. induction r as [| i r IH]; intros x; simpl; frame. Qed.

Lemma frame_remainder_block lam_arr total x rem :
  ok (Dynamics.remainder_block lam_arr total x rem).
Proof. unfold Dynamics.remainder_block. frame. Qed.

Hint Resolve frame_blocks frame_remainder_block : frame.

Lemma frame_production lam_arr : ok (Dynamics.production lam_arr).
Proof. unfold Dynamics.production. frame. Qed.

Lemma frame_finalise : ok Dynamics.finalise.
Proof. unfold Dynamics.finalise. frame. Qed.

Hint Resolve frame_production frame_finalise : frame.

Lemma frame_run lm ir : ok (Dynamics._run lm ir).
Proof. unfold Dynamics._run. frame. Qed.

Lemma frame_get_timing : ok Dynamics.get_timing.
Proof. unfold Dynamics.get_timing. frame. Qed.

Lemma frame_cleanup : ok Dynamics._cleanup.
Proof. unfold Dynamics._cleanup. frame. Qed.

Hint Resolve frame_run frame_get_timing frame_cleanup : frame.

Lemma frame_lambda_grid n : ok (Runner.lambda_grid n).
Proof. unfold Runner.lambda_grid. frame. Qed.

Lemma frame_get_cuda_devices : ok Runner.get_cuda_devices.
Proof. unfold Runner.get_cuda_devices. frame. Qed.

Hint Resolve frame_lambda_grid frame_get_cuda_devices : frame.

Lemma frame_create_shared_resources : ok Runner._create_shared_resources.
Proof. unfold Runner._create_shared_resources. frame. Qed.

Lemma frame_the_gpu_pool : ok Runner.the_gpu_pool.
Proof. unfold Runner.the_gpu_pool. frame. Qed.

Hint Resolve frame_create_shared_resources frame_the_gpu_pool : frame.

Lemma frame_update_gpu_pool g : ok (Runner._update_gpu_pool g).
Proof. unfold Runner._update_gpu_pool. frame. Qed.

Lemma frame_remove_gpu_from_pool g : ok (Runner._remove_gpu_from_pool g).
Proof. unfold Runner._remove_gpu_from_pool. frame. Qed.

Hint Resolve frame_update_gpu_pool frame_remove_gpu_from_pool : frame.

Lemma frame_initialise_simulation system lambda_value device :
  ok (Runner._initialise_simulation system lambda_value device).
Proof. unfold Runner._initialise_simulation. frame. Qed.

Lemma frame_attempt lm : ok (Runner.attempt lm).
Proof. unfold Runner.attempt. frame. Qed.

Hint Resolve frame_initialise_simulation frame_attempt : frame.

Lemma frame_runner_run lambda_value : ok (Runner._run lambda_value).
Proof. unfold Runner._run. frame. Qed.

Hint Resolve frame_runner_run : frame.

Lemma frame_unpack_run lambda_value : ok (Runner.unpack_run lambda_value).
Proof. unfold Runner.unpack_run. frame. Qed.

Lemma frame_acquire_gpu lambda_value : ok (Runner.acquire_gpu lambda_value).
Proof. unfold Runner.acquire_gpu. frame. Qed.

Lemma frame_release_gpu g : ok (Runner.release_gpu g).
Proof. unfold Runner.release_gpu. frame. Qed.

Hint Resolve frame_unpack_run frame_acquire_gpu frame_release_gpu : frame.

Lemma frame_run_window_with initialise lambda_value :
  (forall s l d, ok (initialise s l d)) ->
  ok (Runner.run_window_with initialise lambda_value).
Proof. intros Hi. unfold Runner.run_window_with. frame. Qed.

Lemma frame_run_window lambda_value : ok (Runner.run_window lambda_value).
Proof.
  apply frame_run_window_with. intros. apply frame_initialise_simulation.
Qed.

Lemma frame_submit {A} (job : M T A) : ok (Runner.submit job).
Proof.
  intros w. unfold Runner.submit. destruct (job w) as [r w1].
  apply config_frame_refl.
Qed.

Lemma frame_configure_workers n : ok (Runner.configure_workers n).
Proof. unfold Runner.configure_workers. frame. Qed.

Hint Resolve frame_submit frame_configure_workers : frame.

Lemma frame_run_with run_window :
  (forall l, ok (run_window l)) -> ok (Runner.run_with run_window).
Proof. intros Hw. unfold Runner.run_with. frame. Qed.

Lemma frame_runner : ok Runner.run.
Proof. apply frame_run_with. apply frame_run_window. Qed.

End ConfigFrameCore.



(** ** The worker pool *)

Section Workers.
Context {T : Type} `{PyNum T}.
Implicit Types (w : world T) (evs : list (event T)).

#[global] Instance keeps_workers_preorder : PreOrder (keeps_workers (T := T)).
Proof.
  split.
  - intros w. split; reflexivity.
  - intros w1 w2 w3 [Hm1 Hc1] [Hm2 Hc2]. split; congruence.
Qed.

Lemma keeps_workers_submit {A} (job : M T A) :
  respects keeps_workers (Runner.submit job).
Proof.
  intros w. unfold Runner.submit. destruct (job w). split; reflexivity.
Qed.

Ltac workers_leaf :=
  first [ apply keeps_workers_submit | intros ?; split; reflexivity ].

Lemma keeps_workers_create :
  respects (T := T) keeps_workers Runner._create_shared_resources.
Proof.
  unfold Runner._create_shared_resources, Runner.get_cuda_devices.
  respects_auto workers_leaf.
Qed.

Lemma create_shared_resources_cuda w s :
  platform (config w) = "cuda" -> cuda_visible_devices w = Some s ->
  exists w1, Runner._create_shared_resources w = (Ok tt, w1) /\
    keeps_workers w w1 /\
    gpu_pool w1 =
      Some (Runner.zero_cuda_devices
              (visible_devices (max_gpus (config w)) s)).
Proof.
  intros Hp Hs.
  destruct (Runner._create_shared_resources w) as [r w1] eqn:Hrun.
  pose proof (keeps_workers_create w) as Hk. rewrite Hrun in Hk.
  unfold Runner._create_shared_resources, Runner.get_cuda_devices in Hrun.
  unfold bind at 1, get in Hrun. rewrite Hp in Hrun. simpl in Hrun.
  unfold bind at 1 2, get in Hrun. rewrite Hs in Hrun.
  unfold visible_devices.
  destruct (max_gpus (config w)); injection Hrun as <- <-;
    eexists; split; try reflexivity; split; try exact Hk; reflexivity.
Qed.

Lemma configure_workers_cpu n w :
  platform (config w) = "cpu" ->
  0 < max_threads (config w) -> 0 < n ->
  exists w2, Runner.configure_workers n w = (Ok tt, w2) /\
    max_workers w2 = Some (Z.min (max_threads (config w)) n) /\
    config w2 =
      set_extra_args
        {[ "threads" :=
             max_threads (config w) / Z.min (max_threads (config w)) n ]}
        (config w).
Proof.
  intros Hp Ht Hn. unfold Runner.configure_workers.
  unfold bind at 1, get. rewrite Hp. simpl.
  destruct (Z.ltb_spec (max_threads (config w)) n) as [Hlt | Hge].
  - eexists. split; [reflexivity |]. simpl.
    rewrite Z.min_l by lia. rewrite Z.div_same by lia. auto.
  - destruct (Z.eqb_spec n 0) as [-> | Hne]; [lia |].
    eexists. split; [reflexivity |]. simpl.
    rewrite Z.min_r by lia. auto.
Qed.

Lemma configure_workers_gpu n w l :
  platform (config w) = "cuda" -> gpu_pool w = Some l ->
  exists w2, Runner.configure_workers n w = (Ok tt, w2) /\
    max_workers w2 = Some (Z.of_nat (length l)) /\
    config w2 = set_extra_args ∅ (config w).
Proof.
  intros Hp Hl. unfold Runner.configure_workers.
  unfold bind at 1, get. rewrite Hp. simpl.
  unfold Runner.the_gpu_pool, bind at 1 2, get. rewrite Hl. simpl.
  eexists. split; [reflexivity |]. auto.
Qed.

(** What follows the choice of the workers leaves it as it is. *)
Lemma run_with_parallel run_window w n w1 w2 :
  num_lambda (config w) = Some n -> run_parallel (config w) = true ->
  Runner._create_shared_resources w = (Ok tt, w1) ->
  Runner.configure_workers n w1 = (Ok tt, w2) ->
  keeps_workers w2 (Runner.run_with run_window w).2.
Proof.
  intros Hn Hp Hc Hw. unfold Runner.run_with.
  unfold bind at 1, get. rewrite Hn, Hp.
  unfold bind at 1. rewrite Hc. unfold bind at 1. rewrite Hw.
  match goal with
  | |- keeps_workers w2 (?m w2).2 => assert (Hm : respects keeps_workers m)
  end.
  { respects_auto workers_leaf. }
  apply Hm.
Qed.

(** C7 (amended): in a parallel run the number of workers is
    [min(max_threads, num_lambda)] on the CPU platform, each worker being
    given [max_threads // workers] threads, and on the CUDA platform it is
    the size of the device pool, whatever [num_lambda] is. *)
Theorem worker_pool_size run_window w n :
  num_lambda (config w) = Some n -> run_parallel (config w) = true ->
  (platform (config w) = "cpu" ->
   0 < max_threads (config w) -> 0 < n ->
   let workers := Z.min (max_threads (config w)) n in
   max_workers (Runner.run_with run_window w).2 = Some workers /\
   extra_args (config (Runner.run_with run_window w).2) =
     {[ "threads" := max_threads (config w) / workers ]}) /\
  (platform (config w) = "cuda" ->
   forall s, cuda_visible_devices w = Some s ->
   max_workers (Runner.run_with run_window w).2 =
     Some (Z.of_nat (length (visible_devices (max_gpus (config w)) s)))).
Proof.
  intros Hn Hp. split.
  - intros Hcpu Ht Hpos workers.
    assert (Hc : Runner._create_shared_resources w = (Ok tt, w)).
    { unfold Runner._create_shared_resources, bind at 1, get.
      rewrite Hcpu. reflexivity. }
    destruct (configure_workers_cpu n w Hcpu Ht Hpos) as (w2 & Hw & Hm & Hcfg).
    destruct (run_with_parallel run_window w n w w2 Hn Hp Hc Hw) as [Hm' Hc'].
    rewrite Hm', Hc', Hm, Hcfg. split; reflexivity.
  - intros Hcuda s Hs.
    destruct (create_shared_resources_cuda w s Hcuda Hs)
      as (w1 & Hc & [_ Hcfg] & Hpool).
    destruct (configure_workers_gpu n w1 _ (eq_trans (f_equal platform Hcfg) Hcuda) Hpool)
      as (w2 & Hw & Hm & _).
    destruct (run_with_parallel run_window w n w1 w2 Hn Hp Hc Hw) as [Hm' _].
    rewrite Hm', Hm. unfold Runner.zero_cuda_devices.
    rewrite length_map. reflexivity.
Qed.

End Workers.

(** ** Failing windows *)

Section Failures.
Context {T : Type} `{PyNum T}.
Implicit Types (w : world T) (evs : list (event T)).

Lemma for_each_raises {A B} (f : A -> M T B) before a after w rs wk e w1 :
  for_each f before w = (Ok rs, wk) ->
  f a wk = (Raise e, w1) ->
  for_each f (before ++ a :: after) w = (Raise e, w1).
Proof.
  revert w rs. induction before as [| b before IH]; intros w rs Hb Ha; simpl.
  - injection Hb as <- <-. unfold bind. rewrite Ha. reflexivity.
  - simpl in Hb. unfold bind in *.
    destruct (f b w) as [[r | e0] w0]; [| discriminate].
    destruct (for_each f before w0) as [[rs0 | e0] w2] eqn:E; [| discriminate].
    injection Hb as <- <-. rewrite (IH w0 rs0 E Ha). reflexivity.
Qed.

Lemma lambda_grid_pure n w : (Runner.lambda_grid n w).2 = w.
Proof.
  unfold Runner.lambda_grid. generalize (range n). intros l.
  induction l as [| i l IH]; simpl; [reflexivity |].
  unfold bind at 1 2, lift.
  destruct (num_div _ _); [| reflexivity]. simpl.
  unfold bind at 1. destruct (for_each _ l w) as [[rs | e] w1]; simpl in *;
    exact IH.
Qed.

(** C2, on the code: in a sequential run the exception of a window is not
    caught.  It is the outcome of [run], and the world is left as that
    window left it: the windows after it are not run. *)
Theorem sequential_run_propagates run_window w n grid before lambda_value
    after rs wk e w1 :
  num_lambda (config w) = Some n -> run_parallel (config w) = false ->
  (Runner.lambda_grid n w).1 = Ok grid ->
  grid = before ++ lambda_value :: after ->
  for_each run_window before (sequential_start grid w) = (Ok rs, wk) ->
  run_window lambda_value wk = (Raise e, w1) ->
  Runner.run_with run_window w = (Raise e, w1).
Proof.
  intros Hn Hp Hgrid -> Hbefore Hfail. unfold Runner.run_with.
  unfold bind at 1, get. rewrite Hn, Hp. unfold sequential_start in Hbefore.
  unfold bind at 1.
  destruct (String.eqb (platform (config w)) "cpu"); simpl.
  - unfold bind at 1.
    set (w0 := with_config _ w) in *.
    assert (Hg : Runner.lambda_grid n w0 =
                 (Ok (before ++ lambda_value :: after), w0)).
    { pose proof (lambda_grid_pure n w0) as Hpure.
      assert (Hsame : (Runner.lambda_grid n w0).1 = (Runner.lambda_grid n w).1).
      { clear. unfold Runner.lambda_grid. generalize (range n). intros l.
        induction l as [| i l IH]; simpl; [reflexivity |].
        unfold bind at 1 2 4 5, lift.
        destruct (num_div _ _); [| reflexivity]. simpl.
        unfold bind at 1 2.
        destruct (for_each _ l w0) as [[rs0 | e0] w00],
                 (for_each _ l w) as [[rs1 | e1] w01]; simpl in *;
          congruence. }
      destruct (Runner.lambda_grid n w0) as [r0 w0']. simpl in *.
      subst w0'. rewrite Hsame, Hgrid. reflexivity. }
    rewrite Hg. unfold bind at 1, modify.
    apply (for_each_raises _ _ _ _ _ _ _ _ _ Hbefore Hfail).
  - unfold bind at 1, ret.
    pose proof (lambda_grid_pure n w) as Hpure.
    destruct (Runner.lambda_grid n w) as [r0 w0']. simpl in *. subst.
    unfold bind at 1, modify.
    apply (for_each_raises _ _ _ _ _ _ _ _ _ Hbefore Hfail).
Qed.

End Failures.

Section Devices.
Context {T : Type} `{PyNum T}.
Implicit Types (w : world T) (evs : list (event T)).

(** In a parallel run no exception of a window leaves [run], and the list
    returned holds the result of the last window at most. *)
Lemma parallel_run_results run_window w n rs w' :
  num_lambda (config w) = Some n -> run_parallel (config w) = true ->
  Runner.run_with run_window w = (Ok rs, w') ->
  (length rs <= 1)%nat.
Proof.
  intros Hn Hp Hrun. unfold Runner.run_with in Hrun.
  unfold bind at 1, get in Hrun. rewrite Hn, Hp in Hrun.
  unfold bind in Hrun.
  destruct (Runner._create_shared_resources w) as [[[] | e0] w1];
    [| discriminate].
  destruct (Runner.configure_workers n w1) as [[[] | e1] w2];
    [| discriminate].
  unfold get in Hrun.
  destruct (default 0 (max_workers w2) <=? 0); [discriminate |].
  simpl in Hrun.
  destruct (for_each _ (lambda_values w2) w2) as [[futures | e2] w3];
    [| discriminate].
  destruct (last futures) as [[r | e3] |]; simpl in Hrun;
    try discriminate; injection Hrun as <- <-; simpl; lia.
Qed.

Lemma remove_first_head g rest : Runner.remove_first g (g :: rest) = Some rest.
Proof. simpl. rewrite String.eqb_refl. reflexivity. Qed.

Lemma run_window_acquires initialise lambda_value w g rest :
  platform (config w) = "cuda" -> run_parallel (config w) = true ->
  gpu_pool w = Some (g :: rest) ->
  Runner.run_window_with initialise lambda_value w =
  (r <- (initialise (runner_system w) lambda_value (Some (DevStr g));;;
         r <- try_except (Runner.unpack_run lambda_value)
                (fun e => Runner.release_gpu (DevStr g);;; raise e);;
         Runner.release_gpu (DevStr g);;;
         Dynamics._cleanup;;;
         ret (Some r));;
   match r with
   | None => raise (UnboundLocalError "df")
   | Some (df, lambda_grad, speed) =>
       call (WindowParquet lambda_value lambda_grad);;;
       log Success (MsgComplete lambda_value);;;
       ret (Runner.Complete lambda_value)
   end) (acquired lambda_value g rest w).
Proof.
  intros Hp Hpar Hpool. unfold Runner.run_window_with.
  unfold bind at 1, log, emit, modify. unfold bind at 1 2, get. simpl.
  rewrite Hp, Hpar. simpl.
  unfold bind at 1 2 3, Runner.acquire_gpu, Runner.the_gpu_pool.
  unfold bind at 1 2, get. simpl. rewrite Hpool. simpl.
  unfold Runner._remove_gpu_from_pool, Runner.the_gpu_pool.
  unfold bind at 1 2 3, get. simpl. rewrite Hpool. simpl.
  rewrite String.eqb_refl. simpl.
  unfold bind at 1, emit, modify. simpl.
  unfold acquired. rewrite <- app_assoc. reflexivity.
Qed.

(** When the construction of the simulation raises, [run_window] ends
    there: the device it took is not put back. *)
Lemma construction_failure_keeps_device initialise lambda_value w g rest e w1 :
  platform (config w) = "cuda" -> run_parallel (config w) = true ->
  gpu_pool w = Some (g :: rest) ->
  initialise (runner_system w) lambda_value (Some (DevStr g))
    (acquired lambda_value g rest w) = (Raise e, w1) ->
  Runner.run_window_with initialise lambda_value w = (Raise e, w1).
Proof.
  intros Hp Hpar Hpool Hinit.
  rewrite (run_window_acquires _ _ _ _ _ Hp Hpar Hpool).
  unfold bind at 1 2. rewrite Hinit. reflexivity.
Qed.

(** [_initialise_simulation] as written raises: the call of the constructor
    misses [lambda_energy]. *)
Lemma initialise_simulation_raises system lambda_value device w :
  Runner._initialise_simulation system lambda_value device w =
  (Raise (TypeError "Dynamics.__init__() missing 1 required positional argument: 'lambda_energy'"),
   with_trace (trace w ++ [Log Warning (MsgSystemCreationFailed lambda_value)])
     w).
Proof. reflexivity. Qed.

(** C3, on the code: a window of a parallel CUDA run takes the first device
    of the pool, the construction of its simulation raises, and the device
    is not in the pool any more when [run_window] is left. *)
Theorem device_lost lambda_value w g rest :
  platform (config w) = "cuda" -> run_parallel (config w) = true ->
  gpu_pool w = Some (g :: rest) ->
  exists e w',
    Runner.run_window lambda_value w = (Raise e, w') /\
    gpu_pool w' = Some rest.
Proof.
  intros Hp Hpar Hpool. eexists _, _. split.
  - apply construction_failure_keeps_device with g rest; try assumption.
    apply initialise_simulation_raises.
  - reflexivity.
Qed.

(** The path the code does protect: when the construction succeeds and the
    run raises, the device is appended to the pool before the exception is
    raised again. *)
Lemma run_failure_returns_device initialise lambda_value w g rest w1 e w2 :
  platform (config w) = "cuda" -> run_parallel (config w) = true ->
  gpu_pool w = Some (g :: rest) ->
  initialise (runner_system w) lambda_value (Some (DevStr g))
    (acquired lambda_value g rest w) = (Ok tt, w1) ->
  run_parallel (config w1) = true -> gpu_pool w1 = Some rest ->
  Runner.unpack_run lambda_value w1 = (Raise e, w2) ->
  run_parallel (config w2) = true -> gpu_pool w2 = Some rest ->
  exists w',
    Runner.run_window_with initialise lambda_value w = (Raise e, w') /\
    gpu_pool w' = Some (rest ++ [g]).
Proof.
  intros Hp Hpar Hpool Hinit Hpar1 Hpool1 Hrun Hpar2 Hpool2.
  rewrite (run_window_acquires _ _ _ _ _ Hp Hpar Hpool).
  unfold bind at 1 2. rewrite Hinit. unfold bind at 1, try_except.
  rewrite Hrun. unfold bind at 1, Runner.release_gpu.
  unfold bind at 1, get. rewrite Hpar2.
  unfold Runner._update_gpu_pool, Runner.the_gpu_pool.
  unfold bind at 1 2, get. rewrite Hpool2. simpl.
  eexists. split; reflexivity.
Qed.

End Devices.

(** ** The properties at the example worlds *)

Section Examples.
Import Example.
Local Open Scope Q_scope.

Lemma sequential_run_propagates_witness :
  exists w1,
    Runner.run sequential =
      (Raise (TypeError "Dynamics.__init__() missing 1 required positional argument: 'lambda_energy'"),
       w1) /\
    trace w1 = [Log Info (MsgRunningLambda 0);
                Log Warning (MsgSystemCreationFailed 0)].
Proof.
  eexists. split.
  - eapply (sequential_run_propagates Runner.run_window sequential 3
              [0; 1 # 2; 1] [] 0 [1 # 2; 1] []).
    + vm_compute. reflexivity.
    + vm_compute. reflexivity.
    + vm_compute. reflexivity.
    + reflexivity.
    + reflexivity.
    + vm_compute. reflexivity.
  - vm_compute. reflexivity.
Defined.

Lemma device_lost_witness :
  exists e w',
    Runner.run_window 0 one_device = (Raise e, w') /\ gpu_pool w' = Some [].
Proof.
  apply (device_lost 0 one_device "0" []); vm_compute; reflexivity.
Defined.


(** The retry, on an example: the first minimisation, at [0.5], raises; the
    second attempt minimises at [0.0] and goes through. *)
Example retry_minimises_at_zero :
  is_ok (Runner._run (1 # 2) retried_window).1 = true /\
  List.filter (fun e => match e with
                        | Enter_run _ | Minimise _ _ _ => true
                        | _ => false
                        end)
    (trace (Runner._run (1 # 2) retried_window).2) =
  [Enter_run None;
   Minimise (1 # 2) "h_bonds" "h_bonds_not_heavy_perturbed";
   Enter_run (Some 0);
   Minimise 0 "h_bonds" "h_bonds_not_heavy_perturbed"].
Proof. split; vm_compute; reflexivity. Qed.

(** In binary64 [0.3 / 0.1] is [2.9999999999999996]; rounded to 12
    decimals it is [3.0], and the restart is at block 3. *)
Example restart_block_binary64 :
  match Dynamics.__init__ (runner_system restarted_binary64) 0.5%float
          (lambda_values restarted_binary64) (Some 0%nat) 0.001%float None
          true restarted_binary64 with
  | (Ok d, _) => _current_block d = 3%Z
  | (Raise _, _) => False
  end.
Proof. vm_compute. reflexivity. Qed.

Example production_partition_exact_example :
  exists w' evs,
    Dynamics.production [0; 1 # 2; 1] window = (Ok tt, w') /\
    trace w' = trace window ++ evs /\
    (10 < 3 ->
       checkpoint_frequency (config w') = 10 /\
       runs_and_checkpoints evs = [Run 10 [0; 1 # 2; 1]; Checkpoint]) /\
    (3 <= 10 ->
       exists rem, rem == 10 / 3 - inject_Z (Qfloor (10 / 3)) /\
         checkpoint_frequency (config w') = 3 /\
         runs_and_checkpoints evs =
           concat (repeat [Run 3 [0; 1 # 2; 1]; Checkpoint]
                          (Z.to_nat (Qfloor (10 / 3))))
           ++ (if Qlt_le_dec 0 rem then [Run rem [0; 1 # 2; 1]] else [])).
Proof.
  apply (production_partition_exact window 0 [0; 1 # 2; 1]).
  - vm_compute. reflexivity.
  - intros h e. reflexivity.
  - vm_compute. reflexivity.
  - vm_compute. reflexivity.
Qed.

(** The same run, spelled out: three blocks of length 3 with their
    checkpoints, then the rest, 1/3, without one. *)
Example production_example :
  runs_and_checkpoints (trace (Dynamics.production [0; 1 # 2; 1] window).2) =
    [Run 3 [0; 1 # 2; 1]; Checkpoint;
     Run 3 [0; 1 # 2; 1]; Checkpoint;
     Run 3 [0; 1 # 2; 1]; Checkpoint;
     Run (1 # 3) [0; 1 # 2; 1]].
Proof. vm_compute. reflexivity. Qed.

Lemma worker_pool_size_witness :
  let workers := Z.min (max_threads (config parallel_cpu)) 3 in
  max_workers (Runner.run_with Runner.run_window parallel_cpu).2 =
    Some workers /\
  extra_args (config (Runner.run_with Runner.run_window parallel_cpu).2) =
    {[ "threads" := (max_threads (config parallel_cpu) / workers)%Z ]}.
Proof.
  assert (Hn : num_lambda (config parallel_cpu) = Some 3%Z) by reflexivity.
  assert (Hp : run_parallel (config parallel_cpu) = true) by reflexivity.
  assert (Hc : platform (config parallel_cpu) = "cpu"%string) by reflexivity.
  assert (Ht : (0 < max_threads (config parallel_cpu))%Z) by reflexivity.
  assert (H3 : (0 < 3)%Z) by reflexivity.
  exact (proj1 (worker_pool_size Runner.run_window parallel_cpu 3 Hn Hp)
           Hc Ht H3).
Defined.

(** On that example: three workers with two threads each. *)
Example worker_pool_example :
  max_workers (Runner.run parallel_cpu).2 = Some 3%Z /\
  extra_args (config (Runner.run parallel_cpu).2) = {[ "threads" := 2%Z ]}.
Proof. split; vm_compute; reflexivity. Qed.

(** C7, as stated, fails on the CUDA platform: with four devices and three
    windows there are four workers, not [min(4, 3)]. *)
Lemma gpu_workers_ignore_num_lambda :
  num_lambda (config parallel_cuda) = Some 3%Z /\
  max_workers (Runner.run parallel_cuda).2 = Some 4%Z /\
  max_workers (Runner.run parallel_cuda).2 <> Some (Z.min 4 3).
Proof.
  split; [reflexivity |].
  assert (E : max_workers (Runner.run parallel_cuda).2 = Some 4%Z)
    by (vm_compute; reflexivity).
  split; [exact E |]. rewrite E. discriminate.
Qed.

(** C9, as stated, fails: the constructor writes [runtime] on a restart. *)
Lemma restart_rewrites_runtime :
  runtime (config restarted) = 10 /\
  runtime (config (Dynamics.__init__ (runner_system restarted) (1 # 2)
                     (lambda_values restarted) (Some 0%nat) (1 # 1000) None
                     true restarted).2) = 4.
Proof. split; vm_compute; reflexivity. Qed.

End Examples.

(** ** Fields that a computation leaves alone *)

Section Keeps.
Context {T : Type} `{PyNum T}.
Implicit Types (w : world T).

#[global] Instance keeps_preorder {A} (f : world T -> A) : PreOrder (keeps f).
Proof.
  split.
  - intros w. reflexivity.
  - intros w1 w2 w3 H12 H23. unfold keeps in *. congruence.
Qed.

End Keeps.

Create HintDb keeps.

Ltac keeps_leaf :=
  first [ solve [eauto with keeps] | intros ?; reflexivity ].

Ltac keeps_auto := respects_auto keeps_leaf.

Section KeepsPass.
Context {T : Type} `{PyNum T}.
Implicit Types (w : world T) (lam_arr : list T).

(** A field that the trace, the configuration and the session are not part
    of. *)
Context {A : Type} (f : world T -> A).
Hypothesis f_trace : forall t w, f (with_trace t w) = f w.
Hypothesis f_config : forall c w, f (with_config c w) = f w.
Hypothesis f_sim : forall d w, f (with_sim d w) = f w.

Lemma keeps_self : respects (keeps f) Dynamics.self.
Proof. intros w. unfold Dynamics.self. destruct (sim w); reflexivity. Qed.

Ltac field_leaf :=
  first
    [ apply keeps_self
    | intros ?; unfold keeps;
      first [ apply f_trace | apply f_config | apply f_sim ] ].

Lemma keeps_update_self g : respects (keeps f) (Dynamics.update_self g).
Proof. unfold Dynamics.update_self. respects_auto field_leaf. Qed.

Lemma keeps_production lam_arr :
  respects (keeps f) (Dynamics.production lam_arr).
Proof.
  assert (Hblocks : forall total r x,
             respects (keeps f) (Dynamics.blocks lam_arr total x r)).
  { intros total r. induction r as [| i r IH]; intros x; simpl.
    - apply respects_ret; apply _.
    - unfold Dynamics.block, Dynamics._save_energy_components,
        Dynamics.save_chunk, Dynamics.update_self, log.
      respects_auto ltac:(first [apply IH | field_leaf]). }
  unfold Dynamics.production, Dynamics.remainder_block,
    Dynamics.save_chunk, log.
  respects_auto ltac:(first [apply Hblocks | field_leaf]).
Qed.

Lemma keeps_finalise : respects (keeps f) Dynamics.finalise.
Proof. unfold Dynamics.finalise. respects_auto field_leaf. Qed.

(** [Dynamics._run] leaves such a field alone. *)
Lemma keeps_run lm ir : respects (keeps f) (Dynamics._run lm ir).
Proof.
  unfold Dynamics._run, Dynamics._equilibration, Dynamics._minimisation,
    Dynamics._setup_dynamics, Dynamics.update_self, log.
  respects_auto ltac:(first
    [apply keeps_production | apply keeps_finalise | field_leaf]).
Qed.

Lemma keeps_unpack_run lambda_value :
  respects (keeps f) (Runner.unpack_run lambda_value).
Proof.
  unfold Runner.unpack_run, Runner._run, Runner.attempt, Dynamics.get_timing,
    log.
  respects_auto ltac:(first [apply keeps_run | field_leaf]).
Qed.

End KeepsPass.

(** ** The device pool *)

Section DeviceIds.

Lemma string_app_cons x (a b : string) :
  (String x a ++ b = String x (a ++ b))%string.
Proof. reflexivity. Qed.

Lemma string_app_nil_r (a : string) : (a ++ EmptyString = a)%string.
Proof.
  induction a as [| x a IH]; [reflexivity |].
  rewrite string_app_cons, IH. reflexivity.
Qed.

Lemma string_app_assoc (a b c : string) :
  ((a ++ b) ++ c = a ++ (b ++ c))%string.
Proof.
  induction a as [| x a IH]; [reflexivity |].
  rewrite !string_app_cons, IH. reflexivity.
Qed.

Lemma comma_free_app a b :
  comma_free (a ++ b) = comma_free a && comma_free b.
Proof.
  induction a as [| x a IH]; [reflexivity |].
  rewrite string_app_cons. simpl. rewrite IH, andb_assoc. reflexivity.
Qed.

Lemma split_comma_aux_nonempty cur s : split_comma_aux cur s <> [].
Proof.
  revert cur. induction s as [| c s IH]; intros cur; simpl; [discriminate |].
  destruct (Ascii.eqb c ","); [discriminate | apply IH].
Qed.

Lemma join_comma_cons s l :
  l <> [] -> join_comma (s :: l) = (s ++ String "," (join_comma l))%string.
Proof. destruct l; [congruence | reflexivity]. Qed.

Lemma split_comma_aux_join cur s :
  join_comma (split_comma_aux cur s) = (cur ++ s)%string.
Proof.
  revert cur. induction s as [| c s IH]; intros cur; simpl;
    [rewrite string_app_nil_r; reflexivity |].
  destruct (Ascii.eqb_spec c ",") as [-> | Hc].
  - rewrite join_comma_cons by apply split_comma_aux_nonempty.
    rewrite IH. reflexivity.
  - rewrite IH, string_app_assoc. reflexivity.
Qed.

Lemma split_comma_aux_comma_free cur s :
  comma_free cur = true ->
  Forall (fun p => comma_free p = true) (split_comma_aux cur s).
Proof.
  revert cur. induction s as [| c s IH]; intros cur Hcur; simpl.
  - constructor; [exact Hcur | constructor].
  - destruct (Ascii.eqb c ",") eqn:E.
    + constructor; [exact Hcur | apply IH; reflexivity].
    + apply IH. rewrite comma_free_app, Hcur. simpl. rewrite E. reflexivity.
Qed.

Lemma split_comma_aux_of_join cur l :
  Forall (fun p => comma_free p = true) l -> l <> [] ->
  forall p r, l = p :: r ->
  split_comma_aux cur (join_comma l) = (cur ++ p)%string :: r.
Proof.
  intros Hl. revert cur. induction Hl as [| q l Hq Hl IH]; intros cur Hne p r E;
    [congruence |].
  injection E as -> ->.
  assert (Hgo : forall t cur', comma_free t = true ->
            forall rest, split_comma_aux cur' (t ++ String "," rest) =
                         (cur' ++ t)%string :: split_comma_aux EmptyString rest).
  { clear. induction t as [| x t IHt]; intros cur' Ht rest; simpl.
    - rewrite string_app_nil_r. reflexivity.
    - simpl in Ht. apply andb_true_iff in Ht as [Hx Ht].
      apply negb_true_iff in Hx. rewrite Hx.
      rewrite IHt by exact Ht. rewrite string_app_assoc. reflexivity. }
  assert (Hend : forall t cur', comma_free t = true ->
            split_comma_aux cur' t = [(cur' ++ t)%string]).
  { clear. induction t as [| x t IHt]; intros cur' Ht; simpl.
    - rewrite string_app_nil_r. reflexivity.
    - simpl in Ht. apply andb_true_iff in Ht as [Hx Ht].
      apply negb_true_iff in Hx. rewrite Hx.
      rewrite IHt by exact Ht. rewrite string_app_assoc. reflexivity. }
  destruct r as [| p' r'].
  - simpl. apply Hend, Hq.
  - rewrite join_comma_cons by discriminate.
    rewrite Hgo by exact Hq. f_equal.
    rewrite (IH EmptyString ltac:(discriminate) p' r' eq_refl). reflexivity.
Qed.

(** X16.
    [get_cuda_devices]: without [CUDA_VISIBLE_DEVICES] a [ValueError] and
    nothing printed; with it the pieces between the commas are returned and
    two lines are printed.  There is always at least one piece (an empty
    variable gives the one device name [""]), no piece holds a comma, and
    joining the pieces with commas gives the variable back. *)
Theorem get_cuda_devices_pieces {T : Type} (w : world T) :
  match cuda_visible_devices w with
  | None =>
      Runner.get_cuda_devices w =
        (Raise (ValueError "CUDA_VISIBLE_DEVICES not set"), w)
  | Some s =>
      exists devices,
        Runner.get_cuda_devices w =
          (Ok devices,
           with_trace (trace w ++ [Log Printed (MsgCudaDevices devices);
                                   Log Printed (MsgNumGpus (length devices))])
             w) /\
        devices <> [] /\
        Forall (fun p => comma_free p = true) devices /\
        join_comma devices = s
  end.
Proof.
  unfold Runner.get_cuda_devices, bind, get.
  destruct (cuda_visible_devices w) as [s |]; [| reflexivity].
  exists (split_comma s). split.
  - unfold emit, modify, ret. simpl. rewrite <- app_assoc. reflexivity.
  - split; [apply split_comma_aux_nonempty |].
    split; [apply split_comma_aux_comma_free; reflexivity |].
    apply (split_comma_aux_join EmptyString).
Qed.

(** X17.
    Splitting is the inverse of joining: names without commas, joined into
    [CUDA_VISIBLE_DEVICES], are the devices [get_cuda_devices] returns. *)
Theorem get_cuda_devices_of_join {T : Type} (w : world T) (names : list string) :
  names <> [] -> Forall (fun p => comma_free p = true) names ->
  cuda_visible_devices w = Some (join_comma names) ->
  (Runner.get_cuda_devices w).1 = Ok names.
Proof.
  intros Hne Hfree Hs. unfold Runner.get_cuda_devices, bind, get.
  rewrite Hs. simpl. f_equal. unfold split_comma.
  destruct names as [| p r]; [congruence |].
  apply (split_comma_aux_of_join EmptyString (p :: r) Hfree Hne p r eq_refl).
Qed.

Lemma index_of_app v (pre l : list string) :
  v ∉ pre ->
  index_of v (pre ++ l) = option_map (Nat.add (length pre)) (index_of v l).
Proof.
  intros Hv. induction pre as [| x pre IH]; simpl.
  - destruct (index_of v l); reflexivity.
  - apply not_elem_of_cons in Hv as [Hne Hv].
    destruct (String.eqb_spec x v) as [-> | _]; [congruence |].
    rewrite IH by exact Hv. destruct (index_of v l); reflexivity.
Qed.

Lemma index_of_nodup (pre suf : list string) :
  NoDup (pre ++ suf) ->
  map (fun v => default 0%nat (index_of v (pre ++ suf))) suf =
  seq (length pre) (length suf).
Proof.
  revert pre. induction suf as [| v suf IH]; intros pre Hnd; [reflexivity |].
  simpl. f_equal.
  - apply NoDup_app in Hnd as (_ & Hdis & _).
    rewrite index_of_app.
    + simpl. rewrite String.eqb_refl. simpl. lia.
    + intros Hin. apply (Hdis v Hin). left.
  - specialize (IH (pre ++ [v])). rewrite <- app_assoc in IH. simpl in IH.
    rewrite IH by exact Hnd. rewrite length_app. simpl.
    f_equal. lia.
Qed.

Lemma zero_cuda_devices_seq (devices : list string) :
  NoDup devices ->
  Runner.zero_cuda_devices devices =
  map str_of_nat (seq 0 (length devices)).
Proof.
  intros Hnd. unfold Runner.zero_cuda_devices.
  pose proof (index_of_nodup [] devices Hnd) as Hidx. simpl in Hidx.
  rewrite <- Hidx, map_map. reflexivity.
Qed.

Lemma index_of_first v (l : list string) i :
  index_of v l = Some i <->
  l !! i = Some v /\ forall j, (j < i)%nat -> l !! j <> Some v.
Proof.
  revert i. induction l as [| x l IH]; intros i; simpl.
  - split; [discriminate | intros [Hi _]; destruct i; discriminate].
  - destruct (String.eqb_spec x v) as [-> | Hne].
    + split.
      * intros [= <-]. split; [reflexivity | intros j Hj; lia].
      * intros [Hi Hfirst]. destruct i as [| i]; [reflexivity |].
        destruct (Hfirst 0%nat ltac:(lia)). reflexivity.
    + destruct i as [| i].
      * split; [destruct (index_of v l); discriminate |].
        intros [[= Hx] _]. congruence.
      * specialize (IH i). destruct (index_of v l) as [k |]; simpl.
        -- split.
           ++ intros [= Hk]. assert (k = i) as -> by lia.
              destruct IH as [[Hi Hfirst] _]; [reflexivity |].
              split; [exact Hi |]. intros [| j] Hj; simpl.
              ** congruence.
              ** apply Hfirst. lia.
           ++ intros [Hi Hfirst]. f_equal. f_equal.
              assert (Some k = Some i) as [= ->]; [| reflexivity].
              apply IH. split; [exact Hi |].
              intros j Hj. apply (Hfirst (S j)). lia.
        -- split; [discriminate |]. intros [Hi Hfirst].
           assert (None = Some i) by
             (apply IH; split; [exact Hi |];
              intros j Hj; apply (Hfirst (S j)); lia).
           discriminate.
Qed.

(** X18.
    [zero_cuda_devices] gives every device the position of the first name
    equal to its own, as a string.  So when the names are pairwise different
    the result is ["0"], ["1"], ... in order, and a name that is repeated
    gets the same id each time. *)
Theorem zero_cuda_devices_ids (devices : list string) :
  (forall i v, devices !! i = Some v ->
     exists j, (j <= i)%nat /\ devices !! j = Some v /\
       (forall k, (k < j)%nat -> devices !! k <> Some v) /\
       Runner.zero_cuda_devices devices !! i = Some (str_of_nat j)) /\
  (NoDup devices ->
   Runner.zero_cuda_devices devices =
   map str_of_nat (seq 0 (length devices))).
Proof.
  split; [| apply zero_cuda_devices_seq].
  intros i v Hi. unfold Runner.zero_cuda_devices.
  rewrite list_lookup_fmap, Hi. simpl.
  destruct (index_of v devices) as [j |] eqn:Hj.
  - apply index_of_first in Hj as [Hj Hfirst].
    exists j. repeat split; auto.
    destruct (Nat.le_gt_cases j i) as [Hle | Hgt]; [exact Hle |].
    destruct (Hfirst i Hgt Hi).
  - exfalso.
    assert (Hnone : forall l : list string, index_of v l = None -> v ∉ l).
    { clear. induction l as [| x l IH]; simpl; [intros _; apply not_elem_of_nil |].
      destruct (String.eqb_spec x v) as [-> | Hne]; [discriminate |].
      destruct (index_of v l); [discriminate |]. intros _.
      apply not_elem_of_cons. split; [congruence | apply IH; reflexivity]. }
    apply (Hnone devices Hj). eapply list_elem_of_lookup_2, Hi.
Qed.

End DeviceIds.

(** ** Devices taken and given back *)

Section DevicePool.
Context {T : Type} `{PyNum T}.
Implicit Types (w : world T).

Lemma remove_first_elem g (l : list string) :
  g ∈ l -> exists l', Runner.remove_first g l = Some l' /\ g :: l' ≡ₚ l.
Proof.
  induction l as [| x l IH]; intros Hin; [inversion Hin |].
  simpl. destruct (String.eqb_spec x g) as [-> | Hne].
  - eexists. split; reflexivity.
  - apply elem_of_cons in Hin as [-> | Hin]; [congruence |].
    destruct (IH Hin) as (l' & -> & Hp).
    eexists. split; [reflexivity |].
    rewrite <- Hp. apply Permutation_swap.
Qed.

Lemma remove_first_not_elem g (l : list string) :
  g ∉ l -> Runner.remove_first g l = None.
Proof.
  induction l as [| x l IH]; intros Hin; [reflexivity |].
  apply not_elem_of_cons in Hin as [Hne Hin]. simpl.
  destruct (String.eqb_spec x g) as [-> | _]; [congruence |].
  rewrite IH by exact Hin. reflexivity.
Qed.

(** X20.
    Taking a device out of the pool and putting it back: when the device is
    in the pool, its first occurrence goes and it comes back at the end, so
    the pool holds the same devices as before; when it is not, [list.remove]
    raises a [ValueError] and the pool is as it was. *)
Theorem pool_remove_then_update g l w :
  gpu_pool w = Some l ->
  (g ∈ l ->
   exists l',
     (Runner._remove_gpu_from_pool g;;; Runner._update_gpu_pool g) w =
       (Ok tt, with_gpu_pool (l' ++ [g]) w) /\
     Runner.remove_first g l = Some l' /\
     l' ++ [g] ≡ₚ l) /\
  (g ∉ l ->
   Runner._remove_gpu_from_pool g w =
     (Raise (ValueError "list.remove(x): x not in list"), w)).
Proof.
  intros Hl. split; intros Hg.
  - destruct (remove_first_elem g l Hg) as (l' & Hr & Hp).
    exists l'. split; [| split; [exact Hr |]].
    + unfold Runner._remove_gpu_from_pool, Runner._update_gpu_pool,
        Runner.the_gpu_pool, bind, get. rewrite Hl. simpl. rewrite Hr.
      reflexivity.
    + rewrite <- Hp. symmetry. apply Permutation_cons_append.
  - unfold Runner._remove_gpu_from_pool, Runner.the_gpu_pool, bind, get.
    rewrite Hl. simpl. rewrite (remove_first_not_elem g l Hg). reflexivity.
Qed.

Lemma length_slice_to {A} (k : Z) (l : list A) :
  length (slice_to k l) =
  if 0 <=? k then Nat.min (Z.to_nat k) (length l)
  else (length l - Z.to_nat (- k))%nat.
Proof.
  unfold slice_to. destruct (0 <=? k); rewrite length_take; lia.
Qed.

Lemma slice_to_nodup {A} (k : Z) (l : list A) : NoDup l -> NoDup (slice_to k l).
Proof.
  intros Hnd. unfold slice_to.
  destruct (0 <=? k); (eapply sublist_NoDup; [exact Hnd | apply sublist_take]).
Qed.

(** X19.
    The pool [_create_shared_resources] builds on the CUDA platform, when
    the names in [CUDA_VISIBLE_DEVICES] are pairwise different: the ids
    ["0"], ..., ["m-1"], where [m] is the number of names, cut down to
    [max_gpus] when that is set ([devices[:max_gpus]]: a negative [max_gpus]
    drops that many names from the end). *)
Theorem device_pool_ids w s :
  platform (config w) = "cuda" -> cuda_visible_devices w = Some s ->
  NoDup (split_comma s) ->
  let n := length (split_comma s) in
  let m := match max_gpus (config w) with
           | None => n
           | Some k => if 0 <=? k then Nat.min (Z.to_nat k) n
                       else (n - Z.to_nat (- k))%nat
           end in
  exists w1,
    Runner._create_shared_resources w = (Ok tt, w1) /\
    gpu_pool w1 = Some (map str_of_nat (seq 0 m)).
Proof.
  intros Hp Hs Hnd n m.
  destruct (create_shared_resources_cuda w s Hp Hs) as (w1 & Hrun & _ & Hpool).
  exists w1. split; [exact Hrun |]. rewrite Hpool. f_equal.
  unfold visible_devices, m, n.
  destruct (max_gpus (config w)) as [k |].
  - rewrite zero_cuda_devices_seq by (apply slice_to_nodup, Hnd).
    rewrite length_slice_to. reflexivity.
  - apply zero_cuda_devices_seq, Hnd.
Qed.

End DevicePool.

(** ** Windows and their results *)

Section Windows.
Context {T : Type} `{PyNum T}.
Implicit Types (w : world T).

Lemma config_frame_run_parallel (c c' : Config T) :
  config_frame c c' -> run_parallel c' = run_parallel c.
Proof. intros (r & f & x & ->). reflexivity. Qed.

(** X21.
    Once the construction of the simulation has succeeded, the device the
    window took is back in the pool, at its end, when [run_window] is left,
    whether the simulation ran, raised, or the final write raised. *)
Theorem device_returned_after_construction initialise lambda_value w g rest w1 :
  platform (config w) = "cuda" -> run_parallel (config w) = true ->
  gpu_pool w = Some (g :: rest) ->
  initialise (runner_system w) lambda_value (Some (DevStr g))
    (acquired lambda_value g rest w) = (Ok tt, w1) ->
  run_parallel (config w1) = true -> gpu_pool w1 = Some rest ->
  gpu_pool (Runner.run_window_with initialise lambda_value w).2 =
    Some (rest ++ [g]).
Proof.
  intros Hp Hpar Hpool Hinit Hpar1 Hpool1.
  rewrite (run_window_acquires _ _ _ _ _ Hp Hpar Hpool).
  unfold bind at 1 2. rewrite Hinit. unfold bind at 1, try_except.
  pose proof (keeps_unpack_run gpu_pool (fun _ _ => eq_refl)
                (fun _ _ => eq_refl) (fun _ _ => eq_refl) lambda_value w1)
    as Hk.
  pose proof (frame_unpack_run lambda_value w1) as Hf.
  apply config_frame_run_parallel in Hf.
  destruct (Runner.unpack_run lambda_value w1) as [[[[df lg] sp] | e] w2];
    unfold keeps in Hk; simpl in Hk, Hf; rewrite Hpool1 in Hk;
    rewrite Hpar1 in Hf.
  - unfold bind at 1, Runner.release_gpu. unfold bind at 1, get.
    rewrite Hf. unfold Runner._update_gpu_pool, Runner.the_gpu_pool.
    unfold bind at 1 2, get. rewrite Hk. simpl.
    unfold bind at 1, Dynamics._cleanup, emit, modify. simpl.
    unfold call. simpl. destruct (engine w2 _ _); reflexivity.
  - unfold bind at 1, Runner.release_gpu. unfold bind at 1, get.
    rewrite Hf. unfold Runner._update_gpu_pool, Runner.the_gpu_pool.
    unfold bind at 1 2, get. rewrite Hk. reflexivity.
Qed.

(** X22.
    Without minimisation the exception of the simulation is logged and
    dropped: [_run(sim)] returns [None], and what leaves the window is the
    [TypeError] of unpacking [None]. *)
Theorem unminimised_failure_is_type_error lambda_value w e w1 :
  minimise (config w) = false ->
  Runner.attempt None w = (Raise e, w1) ->
  Runner.unpack_run lambda_value w =
    (Raise (TypeError "cannot unpack non-iterable NoneType object"),
     with_trace (trace w1 ++ [Log Error (MsgDynamicsFailed lambda_value e)])
       w1).
Proof.
  intros Hm Ha. unfold Runner.unpack_run, Runner._run.
  unfold bind at 1 2, get. rewrite Hm. unfold try_except, bind at 1.
  rewrite Ha. reflexivity.
Qed.

Lemma run_window_not_ok lambda_value w :
  is_ok (Runner.run_window lambda_value w).1 = false.
Proof.
  destruct (Runner.run_window lambda_value w) as [[r | e] w'] eqn:Hrun;
    [exfalso | reflexivity].
  unfold Runner.run_window, Runner.run_window_with in Hrun.
  unfold Runner.acquire_gpu, Runner._remove_gpu_from_pool,
    Runner.the_gpu_pool in Hrun.
  exec_in Hrun; discriminate.
Qed.

(** X23.
    [run_window] as written never returns.  On the CPU platform the
    construction of the simulation raises, and the window ends with that
    [TypeError], two lines after it started.  On a platform that is neither
    ["cpu"] nor ["cuda"] nothing is built or run and [df] is not bound: the
    window ends with the [UnboundLocalError] of reading it, one line after
    it started. *)
Theorem run_window_raises lambda_value w :
  is_ok (Runner.run_window lambda_value w).1 = false /\
  (platform (config w) = "cpu" ->
   Runner.run_window lambda_value w =
     (Raise (TypeError "Dynamics.__init__() missing 1 required positional argument: 'lambda_energy'"),
      with_trace
        (trace w ++ [Log Info (MsgRunningLambda lambda_value);
                     Log Warning (MsgSystemCreationFailed lambda_value)])
        w)) /\
  (platform (config w) <> "cpu" -> platform (config w) <> "cuda" ->
   Runner.run_window lambda_value w =
     (Raise (UnboundLocalError "df"),
      with_trace (trace w ++ [Log Info (MsgRunningLambda lambda_value)]) w)).
Proof.
  split; [apply run_window_not_ok |]. split.
  - intros Hp. unfold Runner.run_window, Runner.run_window_with.
    unfold bind at 1, log, emit, modify. unfold bind at 1 2, get. simpl.
    rewrite Hp. simpl. unfold bind at 1 2.
    rewrite initialise_simulation_raises. simpl.
    rewrite <- app_assoc. reflexivity.
  - intros Hcpu Hcuda. unfold Runner.run_window, Runner.run_window_with.
    unfold bind at 1, log, emit, modify. unfold bind at 1 2, get. simpl.
    apply String.eqb_neq in Hcpu, Hcuda. rewrite Hcpu, Hcuda. reflexivity.
Qed.

Lemma lambda_grid_const n w w' :
  (Runner.lambda_grid n w).1 = (Runner.lambda_grid n w').1.
Proof.
  unfold Runner.lambda_grid. generalize (range n). intros l.
  induction l as [| i l IH]; simpl; [reflexivity |].
  unfold bind at 1 2 4 5, lift.
  destruct (num_div _ _); [| reflexivity]. simpl.
  unfold bind at 1 2.
  destruct (for_each _ l w) as [[rs0 | e0] w00],
           (for_each _ l w') as [[rs1 | e1] w01]; simpl in *; congruence.
Qed.

(** A sequential run is the loop over the grid, started in the world where
    the grid and the threads have been stored. *)
Lemma run_with_sequential run_window w n :
  num_lambda (config w) = Some n -> run_parallel (config w) = false ->
  Runner.run_with run_window w =
  match (Runner.lambda_grid n w).1 with
  | Ok grid => for_each run_window grid (sequential_start grid w)
  | Raise e =>
      (Raise e,
       if String.eqb (platform (config w)) "cpu"
       then with_config
              (set_extra_args {[ "threads" := max_threads (config w) ]}
                              (config w)) w
       else w)
  end.
Proof.
  intros Hn Hp. unfold Runner.run_with.
  unfold bind at 1, get. rewrite Hn, Hp. unfold sequential_start.
  unfold bind at 1.
  destruct (String.eqb (platform (config w)) "cpu"); simpl.
  - unfold bind at 1. set (w0 := with_config _ w).
    pose proof (lambda_grid_pure n w0) as Hpure.
    pose proof (lambda_grid_const n w0 w) as Hsame.
    destruct (Runner.lambda_grid n w0) as [r0 w0'].
    simpl in Hpure, Hsame. subst w0'. rewrite <- Hsame.
    destruct r0; reflexivity.
  - unfold bind at 1, ret.
    pose proof (lambda_grid_pure n w) as Hpure.
    destruct (Runner.lambda_grid n w) as [r0 w0']. simpl in *. subst.
    destruct r0; reflexivity.
Qed.

Lemma for_each_all_ok {A B} (f : A -> M T B) (g : A -> B) (l : list A) w :
  (forall a w0, exists w1, f a w0 = (Ok (g a), w1)) ->
  exists w', for_each f l w = (Ok (map g l), w').
Proof.
  intros Hf. revert w. induction l as [| a l IH]; intros w; simpl.
  - eexists. reflexivity.
  - unfold bind at 1. destruct (Hf a w) as (w1 & ->).
    unfold bind at 1. destruct (IH w1) as (w2 & ->).
    eexists. reflexivity.
Qed.

(** X24.
    A sequential run whose windows all complete returns their results, one
    for each lambda of the grid, in the order of the grid. *)
Theorem sequential_run_collects run_window w n grid :
  num_lambda (config w) = Some n -> run_parallel (config w) = false ->
  (Runner.lambda_grid n w).1 = Ok grid ->
  (forall lambda_value w0,
      exists w1, run_window lambda_value w0 =
                 (Ok (Runner.Complete lambda_value), w1)) ->
  (Runner.run_with run_window w).1 = Ok (map Runner.Complete grid).
Proof.
  intros Hn Hp Hgrid Hwin.
  rewrite (run_with_sequential _ _ _ Hn Hp), Hgrid.
  destruct (for_each_all_ok run_window Runner.Complete grid
              (sequential_start grid w) Hwin) as (w' & ->).
  reflexivity.
Qed.

Lemma for_each_submit {A} (job : T -> M T A) (l : list T) w :
  exists futures w',
    for_each (fun lambda_value => Runner.submit (job lambda_value)) l w =
      (Ok futures, w') /\
    length futures = length l /\
    ((forall lambda_value w0, is_ok (job lambda_value w0).1 = false) ->
     Forall (fun r => is_ok r = false) futures).
Proof.
  revert w. induction l as [| a l IH]; intros w; simpl.
  - eexists _, _. split; [reflexivity |]. split; [reflexivity |].
    intros _. constructor.
  - unfold bind at 1, Runner.submit at 1.
    destruct (job a w) as [r w1] eqn:Hjob.
    match goal with
    | |- context [bind (for_each ?f l) _ ?w2] =>
        destruct (IH w2) as (futures & w' & Hrun & Hlen & Hall);
        unfold bind at 1; rewrite Hrun
    end.
    eexists _, _. split; [reflexivity |]. split; [simpl; congruence |].
    intros Hfail. constructor; [| apply Hall, Hfail].
    specialize (Hfail a w). rewrite Hjob in Hfail. exact Hfail.
Qed.

Lemma keeps_lambda_values_setup n :
  respects (T := T) (keeps lambda_values)
    (Runner._create_shared_resources;;; Runner.configure_workers n).
Proof.
  unfold Runner._create_shared_resources, Runner.get_cuda_devices,
    Runner.configure_workers, Runner.the_gpu_pool.
  keeps_auto.
Qed.

(** A parallel run, once the workers are chosen: every window is submitted,
    and the future of the last one is the only one that is read. *)
Lemma run_with_parallel_futures run_window w n w2 :
  num_lambda (config w) = Some n -> run_parallel (config w) = true ->
  (Runner._create_shared_resources;;; Runner.configure_workers n) w =
    (Ok tt, w2) ->
  0 < default 0 (max_workers w2) ->
  exists futures w3,
    for_each (fun lambda_value => Runner.submit (run_window lambda_value))
      (lambda_values w) w2 = (Ok futures, w3) /\
    length futures = length (lambda_values w) /\
    ((forall lambda_value w0, is_ok (run_window lambda_value w0).1 = false) ->
     Forall (fun r => is_ok r = false) futures) /\
    Runner.run_with run_window w =
      match last futures with
      | None => (Raise (UnboundLocalError "jobs"), w3)
      | Some (Ok r) => (Ok [r], w3)
      | Some (Raise e) =>
          (Ok [], with_trace (trace w3 ++ [Log Printed (MsgException e)]) w3)
      end.
Proof.
  intros Hn Hp Hsetup Hpos.
  pose proof (keeps_lambda_values_setup n w) as Hk.
  rewrite Hsetup in Hk. unfold keeps in Hk. simpl in Hk.
  destruct (for_each_submit run_window (lambda_values w) w2)
    as (futures & w3 & Hrun & Hlen & Hall).
  exists futures, w3. repeat split; try assumption.
  unfold Runner.run_with. unfold bind at 1, get. rewrite Hn, Hp.
  unfold bind at 1 in Hsetup. unfold bind at 1.
  destruct (Runner._create_shared_resources w) as [[[] | e0] w1];
    [| discriminate].
  unfold bind at 1. rewrite Hsetup.
  unfold bind at 1 2, get.
  destruct (Z.leb_spec (default 0 (max_workers w2)) 0) as [Hle | _]; [lia |].
  simpl. unfold bind at 1 2, get. simpl. rewrite Hk, Hrun.
  destruct (last futures) as [[r | e] |]; reflexivity.
Qed.

Lemma last_length {A} (l : list A) : l <> [] -> exists a, last l = Some a.
Proof.
  intros Hne. destruct (last l) as [a |] eqn:E; [eauto |].
  apply last_None in E. congruence.
Qed.

(** X25.
    In a parallel run the exception of a window does not leave [run]: once
    the workers are chosen and there is a window to run, [run] returns,
    whatever the windows do, and its list holds one result at most. *)
Theorem parallel_run_catches run_window w n w2 :
  num_lambda (config w) = Some n -> run_parallel (config w) = true ->
  (Runner._create_shared_resources;;; Runner.configure_workers n) w =
    (Ok tt, w2) ->
  0 < default 0 (max_workers w2) ->
  lambda_values w <> [] ->
  exists rs w',
    Runner.run_with run_window w = (Ok rs, w') /\ (length rs <= 1)%nat.
Proof.
  intros Hn Hp Hsetup Hpos Hne.
  destruct (run_with_parallel_futures run_window w n w2 Hn Hp Hsetup Hpos)
    as (futures & w3 & _ & Hlen & _ & ->).
  destruct (last_length futures) as [[r | e] ->].
  - intros ->. destruct (lambda_values w); [congruence | discriminate].
  - eexists _, _. split; [reflexivity | simpl; lia].
  - eexists _, _. split; [reflexivity | simpl; lia].
Qed.

(** X27.
    What [run] as written can return: no window completes, so a list that
    is returned is empty (a parallel run prints the exception of the last
    window; a sequential run returns only when the grid is empty). *)
Theorem run_returns_no_result w rs w' :
  Runner.run w = (Ok rs, w') -> rs = [].
Proof.
  intros Hrun. unfold Runner.run in Hrun.
  destruct (num_lambda (config w)) as [n |] eqn:Hn;
    [| unfold Runner.run_with, bind, get in Hrun; rewrite Hn in Hrun;
       discriminate].
  destruct (run_parallel (config w)) eqn:Hp.
  - destruct ((Runner._create_shared_resources;;; Runner.configure_workers n) w)
      as [[[] | e0] w2] eqn:Hsetup.
    + destruct (Z.leb_spec (default 0 (max_workers w2)) 0) as [Hle | Hpos].
      * exfalso. unfold Runner.run_with in Hrun.
        unfold bind at 1, get in Hrun. rewrite Hn, Hp in Hrun.
        unfold bind at 1 in Hsetup. unfold bind at 1 in Hrun.
        destruct (Runner._create_shared_resources w) as [[[] | e0] w1];
          [| discriminate].
        unfold bind at 1 in Hrun. rewrite Hsetup in Hrun.
        unfold bind at 1 2, get in Hrun.
        destruct (Z.leb_spec (default 0 (max_workers w2)) 0); [| lia].
        discriminate.
      * destruct (run_with_parallel_futures Runner.run_window w n w2 Hn Hp
                    Hsetup Hpos) as (futures & w3 & _ & _ & Hall & Heq).
        specialize (Hall run_window_not_ok). rewrite Heq in Hrun.
        destruct (last futures) as [[r | e] |] eqn:Hlast.
        -- apply last_Some in Hlast as [l' ->].
           apply Forall_app in Hall as [_ Hall].
           apply Forall_cons in Hall as [Hr _]. discriminate.
        -- injection Hrun as <- _. reflexivity.
        -- discriminate.
    + exfalso. unfold Runner.run_with in Hrun.
      unfold bind at 1, get in Hrun. rewrite Hn, Hp in Hrun.
      unfold bind at 1 in Hsetup. unfold bind at 1 in Hrun.
      destruct (Runner._create_shared_resources w) as [[[] | e1] w1].
      * unfold bind at 1 in Hrun. rewrite Hsetup in Hrun. discriminate.
      * discriminate.
  - rewrite (run_with_sequential _ _ _ Hn Hp) in Hrun.
    destruct (Runner.lambda_grid n w).1 as [grid | e]; [| discriminate].
    destruct grid as [| lambda_value grid]; simpl in Hrun.
    + injection Hrun as <- _. reflexivity.
    + unfold bind at 1 in Hrun.
      pose proof (run_window_not_ok lambda_value
                    (sequential_start (lambda_value :: grid) w)) as Hw.
      destruct (Runner.run_window lambda_value _) as [[r | e] w1];
        discriminate.
Qed.

(** X26.
    The threads of a parallel CPU run: every worker has at least one, all
    workers together have no more than [max_threads], and fewer than one
    per worker are left unused. *)
Theorem threads_not_oversubscribed run_window w n :
  num_lambda (config w) = Some n -> run_parallel (config w) = true ->
  platform (config w) = "cpu" -> 0 < max_threads (config w) -> 0 < n ->
  exists workers threads,
    max_workers (Runner.run_with run_window w).2 = Some workers /\
    extra_args (config (Runner.run_with run_window w).2) !! "threads" =
      Some threads /\
    1 <= workers <= n /\ 1 <= threads /\
    workers * threads <= max_threads (config w) /\
    max_threads (config w) < workers * (threads + 1).
Proof.
  intros Hn Hp Hcpu Ht Hpos.
  assert (Hc : Runner._create_shared_resources w = (Ok tt, w)).
  { unfold Runner._create_shared_resources, bind at 1, get.
    rewrite Hcpu. reflexivity. }
  destruct (configure_workers_cpu n w Hcpu Ht Hpos) as (w2 & Hw & Hm & Hcfg).
  destruct (run_with_parallel run_window w n w w2 Hn Hp Hc Hw) as [Hm' Hc'].
  set (mt := max_threads (config w)) in *.
  exists (Z.min mt n), (mt / Z.min mt n).
  rewrite Hm', Hc', Hm, Hcfg. split; [reflexivity |].
  split; [apply lookup_singleton_eq |].
  assert (Hmin : 1 <= Z.min mt n <= mt) by lia.
  pose proof (Z.div_mod mt (Z.min mt n) ltac:(lia)) as Hdm.
  pose proof (Z.mod_pos_bound mt (Z.min mt n) ltac:(lia)) as Hmod.
  assert (Hq : 1 <= mt / Z.min mt n).
  { apply Z.div_le_lower_bound; lia. }
  repeat split; try lia; nia.
Qed.

End Windows.

(** ** The lambda grid *)

Section Rounding.

(** [round_half_even n d] is within a half of [n/d], and even when [n/d] is
    half-way between two integers. *)
Lemma round_half_even_near n d :
  0 < d ->
  let r := round_half_even n d in
  2 * d * r - d <= 2 * n <= 2 * d * r + d /\
  (2 * n = 2 * d * r - d -> Z.even r = true) /\
  (2 * n = 2 * d * r + d -> Z.even r = true).
Proof.
  intros Hd. unfold round_half_even.
  pose proof (Z.div_mod n d ltac:(lia)) as Hn.
  pose proof (Z.mod_pos_bound n d Hd) as Hr.
  set (q := n / d) in *. set (m := n mod d) in *.
  destruct (Z.compare_spec (2 * m) d) as [He | Hl | Hg].
  - destruct (Z.even q) eqn:Hq; cbv zeta.
    + split; [nia |]. split; [intros; nia | intros; exact Hq].
    + split; [nia |]. split; [| intros; nia].
      intros _. rewrite Z.even_add, Hq. reflexivity.
  - cbv zeta. split; [nia |]. split; intros; nia.
  - cbv zeta. split; [nia |]. split; intros; nia.
Qed.




End Rounding.


Section LambdaGrid.
Local Open Scope Q_scope.
Implicit Types (w : world Q).

(** [round(i / (num_lambda - 1), 5)] on rationals. *)
Local Abbreviation quotient n i := (Qred (Qred (i # 1) / Qred ((n - 1) # 1))).
Local Abbreviation grid_value n i := (Rat.round (quotient n i) 5).
















End LambdaGrid.

(** ** What the constructor checks *)

Section ConstructorChecks.
Context {T : Type} `{PyNum T}.
Implicit Types (w : world T) (lambda_val : T) (lambda_array : list T).

Lemma list_copy_ok l w ys :
  lists w !! l = Some ys ->
  exists c, lists w !! c = None /\
    list_copy l w = (Ok c, with_lists (<[c := ys]> (lists w)) w).
Proof.
  intros Hl. unfold list_copy, bind, list_read. rewrite Hl.
  destruct (list_new_spec ys w) as (c & Hc & ->). eauto.
Qed.

(** The part of the constructor that builds the energy-sample list never
    fails when [lambda_energy] is a list. *)
Lemma init_list_part lambda_val l w ys :
  lists w !! l = Some ys ->
  exists le h,
    (copy <- list_copy l;;
     xs <- list_read copy;;
     (if Dynamics.contains lambda_val xs then ret tt
      else list_append copy lambda_val);;;
     xs <- list_read copy;;
     list_new (Dynamics.sorted xs)) w = (Ok le, with_lists h w).
Proof.
  intros Hl. destruct (list_copy_ok l w ys Hl) as (c & Hc & Hcopy).
  unfold bind at 1. rewrite Hcopy.
  unfold bind at 1, list_read at 1. simpl. rewrite lookup_insert_eq.
  destruct (Dynamics.contains lambda_val ys).
  - unfold bind at 1, ret. unfold bind at 1, list_read. simpl.
    rewrite lookup_insert_eq. unfold list_new. simpl. eauto.
  - unfold bind at 1, list_append, bind at 1, list_read. simpl.
    rewrite lookup_insert_eq. unfold modify. simpl.
    unfold bind at 1, list_read. simpl. rewrite lookup_insert_eq.
    unfold list_new. simpl. eauto.
Qed.

Lemma init_steps system lambda_val lambda_array l increment device has_space
    w ys :
  lists w !! l = Some ys -> perturbable system = true ->
  forall cb w0,
    (cfg <- get config;;
     if restart cfg then
       modify (fun w =>
         with_config (set_runtime (num_sub (runtime cfg) (time system))
                                  (config w)) w);;;
       q <- lift (num_div (time system) (checkpoint_frequency cfg));;
       lift (num_int (num_round q 12))
     else ret 0) w = (Ok cb, w0) ->
    exists h,
      Dynamics.__init__ system lambda_val lambda_array (Some l) increment
        device has_space w =
      if Dynamics.contains lambda_val lambda_array
      then (Ok {| _current_block := cb; _lambda_val := lambda_val;
                  _lambda_array := lambda_array;
                  _lambda_energy := fresh (dom h);
                  _increment := increment; _device := device;
                  _has_space := has_space; _lambda_grad := None;
                  _nrg_sample := 0 |},
            with_lists (<[fresh (dom h) := Dynamics.sorted
                            (if Dynamics.contains lambda_val ys then ys
                             else ys ++ [lambda_val])]> h) w0)
      else (Raise (ValueError "lambda_value not in lambda_array"),
            with_lists (<[fresh (dom h) := Dynamics.sorted
                            (if Dynamics.contains lambda_val ys then ys
                             else ys ++ [lambda_val])]> h) w0).
Proof.
  intros Hl Hp cb w0 Hcb.
  assert (Hl0 : lists w0 !! l = Some ys).
  { unfold bind at 1, get in Hcb. destruct (restart (config w)).
    - unfold bind at 1, modify in Hcb. unfold bind, lift in Hcb. simpl in Hcb.
      destruct (num_div _ _); [| discriminate].
      destruct (num_int _); [| discriminate].
      injection Hcb as _ <-. exact Hl.
    - injection Hcb as _ <-. exact Hl. }
  destruct (list_copy_ok l w0 ys Hl0) as (c & Hc & Hcopy).
  exists (if Dynamics.contains lambda_val ys
          then <[c := ys]> (lists w0)
          else <[c := ys ++ [lambda_val]]> (<[c := ys]> (lists w0))).
  unfold Dynamics.__init__. unfold bind at 1. rewrite Hp. unfold ret at 1.
  unfold bind at 1 in Hcb. unfold bind at 1.
  destruct (get config w) as [[cfg | e] w1]; [| discriminate].
  unfold bind at 1. rewrite Hcb.
  unfold bind at 1. rewrite Hcopy.
  unfold bind at 1, list_read at 1. simpl. rewrite lookup_insert_eq.
  unfold Dynamics.create_filenames.
  destruct (Dynamics.contains lambda_val ys).
  - unfold bind at 1, ret at 1. unfold bind at 1, list_read at 1. simpl.
    rewrite lookup_insert_eq. unfold bind at 1, list_new. simpl.
    destruct (Dynamics.contains lambda_val lambda_array); reflexivity.
  - unfold bind at 1, list_append, bind at 1, list_read at 1. simpl.
    rewrite lookup_insert_eq. unfold modify. simpl.
    unfold bind at 1, list_read at 1. simpl. rewrite lookup_insert_eq.
    unfold bind at 1, list_new. simpl.
    destruct (Dynamics.contains lambda_val lambda_array); reflexivity.
Qed.

(** X1.
    The checks of the constructor, when the run is not a restart and
    [lambda_energy] is a list.  A system without perturbable molecules is
    refused first, with a [KeyError], and nothing has changed.  Then the
    construction succeeds when an element of [lambda_array] is [==] to
    [lambda_val], and a new session starts at block [0], with no gradient
    neighbours yet and the sample counter at [0].  When no element is, and
    [lambda_val] is [==] to itself, the construction fails with a
    [ValueError].  (A NaN is not [==] to itself: for one, [in] finds the
    object itself in the list or nothing, and the outcome follows the
    identity of objects.) *)
Theorem constructor_checks system lambda_val lambda_array l increment device
    has_space w ys :
  restart (config w) = false -> lists w !! l = Some ys ->
  let r := Dynamics.__init__ system lambda_val lambda_array (Some l) increment
             device has_space w in
  (perturbable system = false ->
   r = (Raise (KeyError "No perturbable molecules in the system"), w)) /\
  (perturbable system = true ->
   Dynamics.contains lambda_val lambda_array = true ->
   exists d, r.1 = Ok d /\
     _current_block d = 0 /\ _lambda_val d = lambda_val /\
     _lambda_array d = lambda_array /\ _increment d = increment /\
     _device d = device /\ _has_space d = has_space /\
     _lambda_grad d = None /\ _nrg_sample d = 0) /\
  (perturbable system = true -> self_equal lambda_val ->
   Dynamics.contains lambda_val lambda_array = false ->
   r.1 = Raise (ValueError "lambda_value not in lambda_array")).
Proof.
  intros Hr Hl r. split; [| split].
  - intros Hp. unfold r, Dynamics.__init__. unfold bind at 1. rewrite Hp.
    reflexivity.
  - intros Hp Hc.
    destruct (init_steps system lambda_val lambda_array l increment device
                has_space w ys Hl Hp 0 w) as (h & Hrun).
    { unfold bind, get. rewrite Hr. reflexivity. }
    unfold r. rewrite Hrun, Hc.
    eexists. split; [reflexivity |]. repeat split.
  - intros Hp _ Hc.
    destruct (init_steps system lambda_val lambda_array l increment device
                has_space w ys Hl Hp 0 w) as (h & Hrun).
    { unfold bind, get. rewrite Hr. reflexivity. }
    unfold r. rewrite Hrun, Hc. reflexivity.
Qed.


(** X3.
    On a restart every construction subtracts the time of its system from
    the one [config.runtime] all sessions share: after two constructions it
    has been subtracted twice. *)
Theorem restart_runtime_accumulates system1 system2 lambda_val1 lambda_val2
    lambda_array lambda_energy1 lambda_energy2 increment device has_space
    w d1 w1 d2 w2 :
  restart (config w) = true ->
  Dynamics.__init__ system1 lambda_val1 lambda_array lambda_energy1 increment
    device has_space w = (Ok d1, w1) ->
  Dynamics.__init__ system2 lambda_val2 lambda_array lambda_energy2 increment
    device has_space w1 = (Ok d2, w2) ->
  runtime (config w2) =
    num_sub (num_sub (runtime (config w)) (time system1)) (time system2).
Proof.
  intros Hr H1 H2.
  apply init_resume in H1. rewrite Hr in H1. destruct H1 as [_ Hc1].
  apply init_resume in H2. rewrite Hc1 in H2. simpl in H2. rewrite Hr in H2.
  destruct H2 as [_ Hc2]. rewrite Hc2. reflexivity.
Qed.

End ConstructorChecks.

(** ** The stages of a run *)

Section Stages.
Context {T : Type} `{PyNum T}.
Implicit Types (w : world T) (e : event T) (evs : list (event T)).
Implicit Types (lm : option T) (lam_arr : list T) (b i : T).

(** X8.
    The gradient neighbours that are returned: at least one, each of them
    either [lambda_base - increment], and then not below [0.0], or
    [lambda_base + increment], and then not above [1.0] (by the comparisons
    of the code; the lower neighbour is not compared with [1.0], nor the
    upper one with [0.0]). *)
Theorem generate_lam_vals_in_range b i (l : list T) :
  Dynamics.generate_lam_vals b i = Ok l ->
  l <> [] /\
  Forall (fun v => v = num_sub b i /\ num_lt v num_zero = false \/
                   v = num_add b i /\ num_lt num_one v = false) l.
Proof.
  unfold Dynamics.generate_lam_vals.
  destruct (num_lt num_one (num_add b i)) eqn:Hhi,
           (num_lt (num_sub b i) num_zero) eqn:Hlo; simpl;
    intros [= <-]; (split; [discriminate |]);
    repeat (apply Forall_cons_2; [auto |]); apply Forall_nil_2.
Qed.

(** The production part and the end of a run are neither equilibration nor
    minimisation. *)
Lemma production_no_stage (Q : event T -> Prop) lam_arr :
  (forall e, is_equilibration e = false -> is_minimisation e = false -> Q e) ->
  respects (steps Q) (Dynamics.production lam_arr;;; Dynamics.finalise).
Proof.
  intros HQ.
  assert (Hev : forall e w, is_equilibration e = false ->
                  is_minimisation e = false ->
                  steps Q w (with_trace (trace w ++ [e]) w)).
  { intros e w H1 H2. apply steps_event, HQ; assumption. }
  assert (Hblocks : forall total r x,
             respects (steps Q) (Dynamics.blocks lam_arr total x r)).
  { intros total r. induction r as [| i r IH]; intros x; simpl.
    - apply respects_ret; apply _.
    - unfold Dynamics.block, Dynamics._save_energy_components,
        Dynamics.save_chunk, log.
      respects_auto ltac:(first
        [ apply IH | apply steps_self | apply steps_update_self; reflexivity
        | intros ?; apply Hev; reflexivity ]). }
  unfold Dynamics.production, Dynamics.finalise, Dynamics.remainder_block,
    Dynamics.save_chunk, log.
  respects_auto ltac:(first
    [ apply Hblocks | apply steps_self
    | intros ?; first [apply steps_config | apply Hev; reflexivity] ]).
Qed.

(** X10.
    Equilibration is skipped when [is_restart] is set or no equilibration
    time is configured: no event of a run is then part of an equilibration,
    and when minimisation is disabled as well, none is a minimisation. *)
Theorem skipped_stages lm (is_restart : bool) w :
  num_lt num_zero (equilibration_time (config w)) && negb is_restart = false ->
  exists evs,
    trace (Dynamics._run lm is_restart w).2 = trace w ++ evs /\
    Forall (fun e => is_equilibration e = false) evs /\
    (minimise (config w) = false ->
     Forall (fun e => is_minimisation e = false) evs).
Proof.
  intros Hskip.
  set (Q := fun e : event T =>
              is_equilibration e = false /\
              (minimise (config w) = false -> is_minimisation e = false)).
  assert (Hrun : steps Q w (Dynamics._run lm is_restart w).2).
  { unfold Dynamics._run.
    change (bind (emit (Enter_run lm)) ?k w)
      with (k tt (with_trace (trace w ++ [Enter_run lm]) w)).
    transitivity (with_trace (trace w ++ [Enter_run lm]) w).
    { apply steps_event. split; [reflexivity | intros _; reflexivity]. }
    unfold bind at 1, Dynamics.self. cbn [sim with_trace].
    destruct (sim w) as [d |]; [| reflexivity].
    unfold bind at 1, get. cbn [config with_trace]. rewrite Hskip.
    match goal with
    | |- steps Q ?w0 (?k ?w0).2 => assert (Hk : respects (steps Q) k)
    end.
    { apply respects_bind; [apply _ | |].
      { apply respects_call. intros ?. apply steps_event.
        split; [reflexivity | intros _; reflexivity]. }
      intros _. apply respects_bind; [apply _ | |].
      { destruct (minimise (config w)) eqn:Hm.
        - unfold Dynamics._minimisation, log.
          respects_auto ltac:(first
            [ apply steps_self
            | intros ?; apply steps_event;
              split; [reflexivity | intros ?; discriminate] ]).
        - apply respects_ret; apply _. }
      intros _. apply respects_bind; [apply _ | apply respects_ret; apply _ |].
      intros _. apply respects_bind; [apply _ | |].
      { unfold Dynamics._setup_dynamics. apply respects_call. intros ?.
        apply steps_event. split; [reflexivity | intros _; reflexivity]. }
      intros _. apply respects_bind; [apply _ | apply respects_lift; apply _ |].
      intros lambda_grad. apply respects_bind; [apply _ | |].
      { apply steps_update_self. reflexivity. }
      intros _. apply respects_bind;
        [apply _ | apply respects_list_read; apply _ |].
      intros lambda_energy. apply respects_bind; [apply _ | |].
      { unfold log. apply respects_emit. intros ?. apply steps_event.
        split; [reflexivity | intros _; reflexivity]. }
      intros _. apply production_no_stage.
      intros e H1 H2. split; [exact H1 | intros _; exact H2]. }
    apply Hk. }
  destruct Hrun as (_ & _ & evs & Ht & Hq).
  exists evs. split; [exact Ht |]. split.
  - eapply Forall_impl; [exact Hq |]. intros e [He _]. exact He.
  - intros Hm. eapply Forall_impl; [exact Hq |]. intros e [_ He]. auto.
Qed.

#[global] Instance both_preorder (R1 R2 : relation (world T))
    `{!PreOrder R1} `{!PreOrder R2} : PreOrder (both R1 R2).
Proof.
  split.
  - intros w. split; reflexivity.
  - intros w1 w2 w3 [H1 H2] [H3 H4]. split; etransitivity; eassumption.
Qed.

Lemma respects_both (R1 R2 : relation (world T)) {A} (m : M T A) :
  respects R1 m -> respects R2 m -> respects (both R1 R2) m.
Proof. intros H1 H2 w. split; [apply H1 | apply H2]. Qed.

(** Along the spine of a computation: what holds from [w0] to the world in
    which [m] starts holds from [w0] to the end of [bind m k], when [m]
    respects it and the continuation, started where [m] stopped, gets
    there. *)
Lemma from_bind (R : relation (world T)) `{!PreOrder R} w0 {A B}
    (m : M T A) (k : A -> M T B) w :
  R w0 w -> respects R m ->
  (forall a w1, R w0 w1 -> m w = (Ok a, w1) -> R w0 (k a w1).2) ->
  R w0 (bind m k w).2.
Proof.
  intros H0 Hm Hk. unfold bind. specialize (Hm w).
  destruct (m w) as [[a | e] w1] eqn:E; simpl in *.
  - apply Hk; [etransitivity; eassumption | reflexivity].
  - etransitivity; eassumption.
Qed.

Lemma from_respects (R : relation (world T)) `{!PreOrder R} w0 {A}
    (m : M T A) w :
  R w0 w -> respects R m -> R w0 (m w).2.
Proof. intros H0 Hm. etransitivity; [exact H0 | apply Hm]. Qed.

(** The stages before production start no engine run and leave the list
    objects alone. *)
Ltac quiet_leaf :=
  first
    [ apply respects_both;
      [ first [ apply steps_self | apply steps_update_self; reflexivity ]
      | first [ apply keeps_self | apply keeps_update_self ];
        intros; reflexivity ]
    | intros ?; split;
      [ first [ apply steps_config | apply steps_event; exact I ]
      | reflexivity ] ].

Ltac quiet := respects_auto quiet_leaf.

Lemma production_runs_with lam_arr :
  respects (steps (runs_with lam_arr))
    (Dynamics.production lam_arr;;; Dynamics.finalise).
Proof.
  assert (Hev : forall e w, runs_with lam_arr e ->
                  steps (runs_with lam_arr) w (with_trace (trace w ++ [e]) w)).
  { intros e w He. apply steps_event, He. }
  assert (Hblocks : forall total r x,
             respects (steps (runs_with lam_arr))
               (Dynamics.blocks lam_arr total x r)).
  { intros total r. induction r as [| i r IH]; intros x; simpl.
    - apply respects_ret; apply _.
    - unfold Dynamics.block, Dynamics._save_energy_components,
        Dynamics.save_chunk, log.
      respects_auto ltac:(first
        [ apply IH | apply steps_self | apply steps_update_self; reflexivity
        | intros ?; apply Hev; first [exact I | reflexivity] ]). }
  unfold Dynamics.production, Dynamics.finalise, Dynamics.remainder_block,
    Dynamics.save_chunk, log.
  respects_auto ltac:(first
    [ apply Hblocks | apply steps_self
    | intros ?; first [ apply steps_config
                      | apply Hev; first [exact I | reflexivity] ] ]).
Qed.

Lemma lambda_windows_runs_with lam_arr evs :
  Forall (runs_with lam_arr) evs ->
  Forall (fun la => la = lam_arr) (lambda_windows evs).
Proof.
  induction 1 as [| e evs He _ IH]; [constructor |].
  destruct e; simpl in *; try exact IH. constructor; assumption.
Qed.

(** X11.
    Every engine run of the production part is given the same lambda
    windows: the energy-sample list of the session followed by its gradient
    neighbours.  (The equilibration run is given none.) *)
Theorem production_lambda_windows lm (is_restart : bool) w (d : Dyn T)
    (xs g : list T) :
  sim w = Some d -> lists w !! _lambda_energy d = Some xs ->
  Dynamics.generate_lam_vals (_lambda_val d) (_increment d) = Ok g ->
  exists evs,
    trace (Dynamics._run lm is_restart w).2 = trace w ++ evs /\
    Forall (fun la => la = xs ++ g) (lambda_windows evs).
Proof.
  intros Hd Hl Hg.
  set (R := both (steps (runs_with (xs ++ g))) (keeps lists)).
  set (w0 := with_trace (trace w ++ [Enter_run lm]) w).
  assert (Hrun : R w0 (Dynamics._run lm is_restart w).2).
  { unfold Dynamics._run.
    change (bind (emit (Enter_run lm)) ?k w) with (k tt w0).
    unfold bind at 1, Dynamics.self. cbn [sim with_trace w0].
    rewrite Hd. unfold bind at 1, get. cbn [config with_trace w0].
    rewrite Hg. fold w0.
    apply from_bind; [apply _ | reflexivity | unfold R; quiet |].
    intros _ w1 H1 _.
    apply from_bind;
      [apply _ | exact H1
      | unfold R, Dynamics._minimisation, log; quiet |].
    intros _ w2 H2 _.
    apply from_bind;
      [apply _ | exact H2
      | unfold R, Dynamics._equilibration, Dynamics._minimisation,
          Dynamics._setup_dynamics, log; quiet |].
    intros _ w3 H3 _.
    apply from_bind;
      [apply _ | exact H3 | unfold R, Dynamics._setup_dynamics; quiet |].
    intros _ w4 H4 _.
    apply from_bind; [apply _ | exact H4 | unfold R; quiet |].
    intros lambda_grad w5 H5 [= <- _].
    apply from_bind; [apply _ | exact H5 | unfold R; quiet |].
    intros _ w6 H6 _.
    apply from_bind; [apply _ | exact H6 | unfold R; quiet |].
    intros lambda_energy w7 H7 Hread.
    apply list_read_spec in Hread as [-> Hread].
    destruct H6 as [_ H6]. unfold keeps in H6. simpl in H6.
    rewrite H6, Hl in Hread. injection Hread as <-.
    apply from_respects; [apply _ | exact H7 |].
    apply respects_bind; [apply _ | unfold R, log; quiet |].
    intros _. apply respects_both; [apply production_runs_with |].
    apply respects_bind; [apply _ | | intros _].
    - apply keeps_production; intros; reflexivity.
    - apply keeps_finalise; intros; reflexivity. }
  destruct Hrun as [(_ & _ & evs & Ht & Hq) _].
  exists (Enter_run lm :: evs). split.
  - rewrite Ht. unfold w0. simpl. rewrite <- app_assoc. reflexivity.
  - simpl. apply lambda_windows_runs_with, Hq.
Qed.

(** X9.
    The first minimisation of a run: at [lambda_minimisation] when it is
    given and at the lambda of the window otherwise; without constraints
    when an equilibration follows, with the configured ones otherwise. *)
Theorem first_minimisation lm (is_restart : bool) w (d : Dyn T) :
  sim w = Some d -> minimise (config w) = true ->
  engine w (trace w ++ [Enter_run lm]) SaveTopology = None ->
  let lam := default (_lambda_val d) lm in
  let equilibrate :=
    num_lt num_zero (equilibration_time (config w)) && negb is_restart in
  let cons := if equilibrate then "none" else constraint (config w) in
  let pert := if equilibrate then "none"
              else perturbable_constraint (config w) in
  exists evs,
    trace (Dynamics._run lm is_restart w).2 =
    trace w ++ [Enter_run lm; SaveTopology; Log Info (MsgMinimising lam);
                Minimise lam cons pert] ++ evs.
Proof.
  intros Hd Hm Hsave lam equilibrate cons pert.
  set (w0 := with_trace (trace w ++ [Enter_run lm]) w).
  set (w3 := with_trace (trace w ++ [Enter_run lm; SaveTopology;
                                     Log Info (MsgMinimising lam);
                                     Minimise lam cons pert]) w).
  assert (Hrun : steps (fun _ => True) w3 (Dynamics._run lm is_restart w).2).
  { unfold Dynamics._run.
    change (bind (emit (Enter_run lm)) ?k w) with (k tt w0).
    unfold bind at 1, Dynamics.self. cbn [sim with_trace w0].
    rewrite Hd. unfold bind at 1, get. cbn [config with_trace w0].
    rewrite Hm. fold equilibrate.
    unfold bind at 1, call at 1. cbn [engine trace with_trace w0].
    rewrite Hsave.
    assert (Hmin : exists r,
               (if equilibrate
                then Dynamics._minimisation lm "none" "none"
                else Dynamics._minimisation lm (constraint (config w))
                       (perturbable_constraint (config w)))
                 (with_trace ((trace w ++ [Enter_run lm]) ++ [SaveTopology])
                    w0) = (r, w3)).
    { unfold w3, w0, cons, pert, lam.
      destruct equilibrate, lm as [l |];
        unfold Dynamics._minimisation, Dynamics.self, bind, log, emit, modify,
          call; simpl; rewrite Hd; simpl; rewrite <- !app_assoc; simpl;
        match goal with
        | |- context [engine w ?t ?e] => destruct (engine w t e)
        end; eexists; reflexivity. }
    destruct Hmin as [r Hmin]. unfold bind at 1. rewrite Hmin.
    destruct r as [[] | e]; [| reflexivity].
    match goal with
    | |- steps _ w3 (?k w3).2 => assert (Hk : respects (steps (fun _ => True)) k)
    end.
    { unfold Dynamics._equilibration, Dynamics._minimisation,
        Dynamics._setup_dynamics, log.
      respects_auto ltac:(first
        [ apply respects_weaken with (@no_entry T);
          [intros; exact I | solve [eauto with steps]]
        | apply respects_weaken with (@plain T);
          [intros; exact I | solve [eauto with steps]]
        | apply steps_update_self; reflexivity
        | intros ?; apply steps_event; exact I ]). }
    apply Hk. }
  destruct Hrun as (_ & _ & evs & Ht & _).
  exists evs. rewrite Ht. unfold w3. simpl. rewrite <- app_assoc. reflexivity.
Qed.

End Stages.

(** ** The gradient neighbours a window returns *)

Section Neighbours.
Context {T : Type} `{PyNum T}.
Implicit Types (w : world T) (lm : option T) (d : Dyn T).

Lemma bind_ok_inv {A B} (m : M T A) (k : A -> M T B) w b w' :
  bind m k w = (Ok b, w') ->
  exists a w1, m w = (Ok a, w1) /\ k a w1 = (Ok b, w').
Proof.
  unfold bind. destruct (m w) as [[a | e] w1]; [eauto | discriminate].
Qed.

(** The stages before production leave the session as it is. *)
Lemma keeps_sim_self : respects (keeps (sim (T := T))) Dynamics.self.
Proof. intros w. unfold Dynamics.self. destruct (sim w); reflexivity. Qed.

(** [H : m w = (r, w')] for a stage [m] that does not write the session:
    the session is the same in [w']. *)
Ltac stage_keeps_sim H :=
  lazymatch type of H with
  | ?m ?w = (_, ?w') =>
      let K := fresh "K" in
      assert (K : respects (keeps (sim (T := _))) m)
        by (unfold Dynamics._minimisation, Dynamics._equilibration,
              Dynamics._setup_dynamics, log;
            respects_auto ltac:(first
              [apply keeps_sim_self | intros ?; reflexivity]));
      specialize (K w); rewrite H in K; unfold keeps in K; simpl in K
  end.

(** Production and the end of a run leave the gradient neighbours of the
    session as they are. *)
Lemma keeps_grad_production lam_arr :
  respects (keeps (fun w => _lambda_grad <$> sim w))
    (Dynamics.production lam_arr;;; Dynamics.finalise).
Proof.
  assert (Hself : respects (keeps (fun w : world T => _lambda_grad <$> sim w))
                    Dynamics.self).
  { intros w. unfold Dynamics.self, keeps.
    destruct (sim w) eqn:E; simpl; rewrite ?E; reflexivity. }
  assert (Hupd : forall n,
             respects (keeps (fun w : world T => _lambda_grad <$> sim w))
               (Dynamics.update_self (set_nrg_sample n))).
  { intros n w. unfold Dynamics.update_self, Dynamics.self, bind, modify, keeps.
    destruct (sim w) eqn:E; simpl; rewrite ?E; reflexivity. }
  assert (Hblocks : forall total r x,
             respects (keeps (fun w : world T => _lambda_grad <$> sim w))
               (Dynamics.blocks lam_arr total x r)).
  { intros total r. induction r as [| i r IH]; intros x; simpl.
    - apply respects_ret; apply _.
    - unfold Dynamics.block, Dynamics._save_energy_components,
        Dynamics.save_chunk, log.
      respects_auto ltac:(first
        [ apply IH | apply Hself | apply Hupd | intros ?; reflexivity ]). }
  unfold Dynamics.production, Dynamics.finalise, Dynamics.remainder_block,
    Dynamics.save_chunk, log.
  respects_auto ltac:(first
    [ apply Hblocks | apply Hself | intros ?; reflexivity ]).
Qed.

(** A run that returns has stored the gradient neighbours of the window in
    the session. *)
Lemma run_sets_neighbours lm (is_restart : bool) w d df w' :
  sim w = Some d ->
  Dynamics._run lm is_restart w = (Ok df, w') ->
  exists g d',
    Dynamics.generate_lam_vals (_lambda_val d) (_increment d) = Ok g /\
    sim w' = Some d' /\ _lambda_grad d' = Some g.
Proof.
  intros Hd Hrun. unfold Dynamics._run in Hrun.
  apply bind_ok_inv in Hrun as ([] & w0 & Hemit & Hrun).
  injection Hemit as <-.
  apply bind_ok_inv in Hrun as (d0 & w1 & Hself & Hrun).
  unfold Dynamics.self in Hself. cbn [sim with_trace] in Hself.
  rewrite Hd in Hself. injection Hself as <- <-.
  apply bind_ok_inv in Hrun as (cfg & w1 & Hget & Hrun).
  injection Hget as <- <-.
  apply bind_ok_inv in Hrun as ([] & w2 & H1 & Hrun). stage_keeps_sim H1.
  apply bind_ok_inv in Hrun as ([] & w3 & H2 & Hrun). stage_keeps_sim H2.
  apply bind_ok_inv in Hrun as ([] & w4 & H3 & Hrun). stage_keeps_sim H3.
  apply bind_ok_inv in Hrun as ([] & w5' & H4 & Hrun). stage_keeps_sim H4.
  assert (Hd4 : sim w5' = Some d) by congruence.
  apply bind_ok_inv in Hrun as (g & w5 & Hlift & Hrun).
  unfold lift in Hlift. injection Hlift as Hg <-.
  apply bind_ok_inv in Hrun as ([] & w6 & Hupd & Hrun).
  unfold Dynamics.update_self, Dynamics.self, bind, modify in Hupd.
  rewrite Hd4 in Hupd. injection Hupd as <-.
  apply bind_ok_inv in Hrun as (lambda_energy & w7 & Hread & Hrun).
  apply list_read_spec in Hread as [-> _].
  apply bind_ok_inv in Hrun as ([] & w8 & Hlog & Hrun).
  injection Hlog as <-.
  match type of Hrun with
  | _ ?w9 = _ =>
      pose proof (keeps_grad_production (lambda_energy ++ g) w9) as Hk
  end.
  rewrite Hrun in Hk. unfold keeps in Hk. simpl in Hk.
  destruct (sim w') as [d' |]; [| discriminate].
  injection Hk as Hk. exists g, d'. auto.
Qed.

(** X28.
    What a successful attempt returns as [lambda_grad] is what
    [generate_lam_vals] gives for the lambda and the increment of the
    session: the neighbours of the window, whatever [lambda_minimisation]
    was. *)
Theorem attempt_returns_neighbours lm w d df lambda_grad speed w' :
  sim w = Some d ->
  Runner.attempt lm w = (Ok (df, lambda_grad, speed), w') ->
  Dynamics.generate_lam_vals (_lambda_val d) (_increment d) = Ok lambda_grad.
Proof.
  intros Hd Hrun. unfold Runner.attempt in Hrun.
  apply bind_ok_inv in Hrun as (df0 & w1 & H1 & Hrun).
  destruct (run_sets_neighbours lm false w d df0 w1 Hd H1)
    as (g & d' & Hg & Hd' & Hgrad).
  apply bind_ok_inv in Hrun as (d1 & w2 & Hself & Hrun).
  unfold Dynamics.self in Hself. rewrite Hd' in Hself.
  injection Hself as <- <-.
  rewrite Hgrad in Hrun.
  apply bind_ok_inv in Hrun as (g1 & w3 & Hret & Hrun).
  injection Hret as <- <-.
  apply bind_ok_inv in Hrun as (sp & w4 & _ & Hrun).
  injection Hrun as _ <- _ _. exact Hg.
Qed.

End Neighbours.

(** ** The configuration object: what is written, and when *)

Section ConfigWrites.
Context {T : Type} `{PyNum T}.
Implicit Types (w : world T) (c : Config T) (lam_arr : list T).

Local Abbreviation same := (keeps (config (T := T))).
Local Abbreviation same_args :=
  (keeps (fun w : world T => extra_args (config w))).

Lemma keeps_config_self : respects same Dynamics.self.
Proof. intros w. unfold Dynamics.self. destruct (sim w); reflexivity. Qed.

Lemma keeps_args_self : respects same_args Dynamics.self.
Proof. intros w. unfold Dynamics.self. destruct (sim w); reflexivity. Qed.

Ltac field_leaf :=
  first [ apply keeps_config_self | apply keeps_args_self
        | intros ?; reflexivity ].

Lemma same_setup_dynamics b : respects same (Dynamics._setup_dynamics b).
Proof. unfold Dynamics._setup_dynamics. respects_auto field_leaf. Qed.

Lemma same_minimisation lm (cs pc : string) :
  respects same (Dynamics._minimisation lm cs pc).
Proof. unfold Dynamics._minimisation, log. respects_auto field_leaf. Qed.

Lemma same_update_self g : respects same (Dynamics.update_self g).
Proof. unfold Dynamics.update_self. respects_auto field_leaf. Qed.

Lemma same_equilibration : respects same Dynamics._equilibration.
Proof.
  unfold Dynamics._equilibration, log.
  respects_auto ltac:(first [apply same_setup_dynamics | field_leaf]).
Qed.

Ltac same_leaf :=
  first [ apply same_setup_dynamics | apply same_minimisation
        | apply same_update_self | apply same_equilibration | field_leaf ].

(** What a field is after [m], it is after [bind m k], when [k] leaves it
    alone. *)
Lemma keeps_after {A B F} (f : world T -> F) (m : M T A) (k : A -> M T B)
    w v :
  f (m w).2 = v -> (forall a, respects (keeps f) (k a)) ->
  f (bind m k w).2 = v.
Proof.
  intros Hm Hk. unfold bind. destruct (m w) as [[a | e] w1]; simpl in *.
  - rewrite (Hk a w1). exact Hm.
  - exact Hm.
Qed.

(** The constructor: [runtime], and only on a restart, once the system is
    known to have perturbable molecules. *)
Lemma init_config system lambda_val lambda_array lambda_energy increment
    device has_space w :
  config (Dynamics.__init__ system lambda_val lambda_array lambda_energy
            increment device has_space w).2 =
  if perturbable system && restart (config w)
  then set_runtime (num_sub (runtime (config w)) (time system)) (config w)
  else config w.
Proof.
  unfold Dynamics.__init__.
  destruct (perturbable system); [| reflexivity].
  change (bind (ret tt) ?k w) with (k tt w). cbv beta.
  change (bind (get config) ?k w) with (k (config w) w). cbv beta.
  cbn [andb].
  apply keeps_after.
  - destruct (restart (config w)); [| reflexivity].
    unfold bind, modify, lift. simpl.
    destruct (num_div _ _) as [q | e]; simpl; [| reflexivity].
    destruct (num_int (num_round q 12)); reflexivity.
  - intros current_block.
    unfold Dynamics.create_filenames, list_copy, list_append.
    respects_auto same_leaf.
Qed.

Lemma same_blocks lam_arr total r : forall x,
  respects same (Dynamics.blocks lam_arr total x r).
Proof.
  induction r as [| i r IH]; intros x; simpl.
  - apply respects_ret; apply _.
  - unfold Dynamics.block, Dynamics._save_energy_components,
      Dynamics.save_chunk, Dynamics.update_self, log.
    respects_auto ltac:(first [apply IH | same_leaf]).
Qed.

Lemma same_finalise : respects same Dynamics.finalise.
Proof. unfold Dynamics.finalise. respects_auto same_leaf. Qed.

Lemma shortens_raise {B} c (e : exn) w :
  config w = c -> shortens (B := B) c (Raise e, w).
Proof. intros Hc. split; [left; exact Hc | discriminate]. Qed.

Lemma shortens_written {B} c (r : outcome B * world T) :
  runtime_is_short c = true ->
  config r.2 = set_checkpoint_frequency (runtime c) c -> shortens c r.
Proof.
  intros Hs Hc. split; [right; split; assumption |].
  intros _. rewrite Hs. exact Hc.
Qed.

Lemma shortens_unwritten {B} c (r : outcome B * world T) :
  config r.2 = c -> runtime_is_short c = false -> shortens c r.
Proof.
  intros Hc Hs. split; [left; exact Hc |]. intros _. rewrite Hs. exact Hc.
Qed.

Lemma shortens_after {A B} c (m : M T A) (k : A -> M T B) w :
  config w = c -> respects same m ->
  (forall a w1, config w1 = c -> shortens c (k a w1)) ->
  shortens c (bind m k w).
Proof.
  intros Hc Hm Hk. unfold bind. specialize (Hm w). unfold keeps in Hm.
  destruct (m w) as [[a | e] w1]; simpl in Hm.
  - apply Hk. congruence.
  - apply shortens_raise. congruence.
Qed.

Lemma production_config lam_arr w :
  shortens (config w) (Dynamics.production lam_arr w).
Proof.
  assert (Hrest : forall (d : Dyn T) (frac : T),
    respects same
      (num_blocks <- lift (num_int frac);;
       let rem := num_sub frac (num_of_int num_blocks) in
       let total := _current_block d + num_blocks
                    + (if num_lt num_zero rem then 1 else 0) in
       x <- Dynamics.blocks lam_arr total None (range num_blocks);;
       if num_lt num_zero rem
       then Dynamics.remainder_block lam_arr total x rem
       else ret tt)).
  { intros d frac. unfold Dynamics.remainder_block, Dynamics.save_chunk, log.
    respects_auto ltac:(first [apply same_blocks | same_leaf]). }
  unfold Dynamics.production.
  unfold bind at 1, Dynamics.self.
  destruct (sim w) as [d |]; [| exact (shortens_raise _ _ _ eq_refl)].
  change (bind (get config) ?k w) with (k (config w) w). cbv beta.
  destruct (num_lt num_zero (checkpoint_frequency (config w))) eqn:Hpos.
  - unfold bind at 1, lift.
    destruct (num_div (runtime (config w)) (checkpoint_frequency (config w)))
      as [q | e] eqn:Hq; [| exact (shortens_raise _ _ _ eq_refl)].
    cbv beta iota zeta.
    destruct (num_lt q num_one) eqn:Hlt.
    + apply shortens_written.
      * unfold runtime_is_short. rewrite Hpos, Hq, Hlt. reflexivity.
      * apply keeps_after; [reflexivity | intros; apply Hrest].
    + apply shortens_unwritten.
      * apply keeps_after; [reflexivity | intros; apply Hrest].
      * unfold runtime_is_short. rewrite Hpos, Hq, Hlt. reflexivity.
  - apply shortens_unwritten.
    + match goal with
      | |- config (?m w).2 = _ =>
          assert (E : respects same m) by (respects_auto same_leaf);
          exact (E w)
      end.
    + unfold runtime_is_short. rewrite Hpos. reflexivity.
Qed.

(** [Dynamics._run]: [checkpoint_frequency], and only when the runtime is
    short; it is then set to the runtime. *)
Lemma run_config lm (is_restart : bool) w :
  shortens (config w) (Dynamics._run lm is_restart w).
Proof.
  unfold Dynamics._run.
  apply shortens_after; [reflexivity | respects_auto same_leaf |].
  intros _ w1 H1.
  apply shortens_after; [exact H1 | apply keeps_config_self |].
  intros d w2 H2.
  apply shortens_after; [exact H2 | respects_auto same_leaf |].
  intros cfg w3 H3.
  apply shortens_after; [exact H3 | respects_auto same_leaf |].
  intros _ w4 H4.
  apply shortens_after; [exact H4 | respects_auto same_leaf |].
  intros _ w5 H5.
  apply shortens_after; [exact H5 | respects_auto same_leaf |].
  intros _ w6 H6.
  apply shortens_after; [exact H6 | respects_auto same_leaf |].
  intros _ w7 H7.
  apply shortens_after; [exact H7 | respects_auto same_leaf |].
  intros g w8 H8.
  apply shortens_after; [exact H8 | respects_auto same_leaf |].
  intros _ w9 H9.
  apply shortens_after; [exact H9 | respects_auto same_leaf |].
  intros lambda_energy w10 H10.
  apply shortens_after; [exact H10 | unfold log; respects_auto same_leaf |].
  intros _ w11 H11.
  pose proof (production_config (lambda_energy ++ g) w11) as Hp.
  rewrite H11 in Hp. unfold bind.
  destruct (Dynamics.production (lambda_energy ++ g) w11) as [[[] | e] w12];
    [| exact Hp].
  destruct Hp as [Hany Hok]. unfold shortens.
  rewrite (same_finalise w12). split; [exact Hany |].
  intros _. apply Hok. reflexivity.
Qed.

(** *** [extra_args] across a window *)

Lemma same_args_of {A} (m : M T A) : respects same m -> respects same_args m.
Proof. intros Hm w. unfold keeps. rewrite (Hm w). reflexivity. Qed.

Ltac args_leaf :=
  first
    [ apply same_args_of;
      first [ apply same_setup_dynamics | apply same_minimisation
            | apply same_update_self | apply same_equilibration
            | apply same_finalise | apply same_blocks ]
    | field_leaf ].

Lemma args_new system lambda_val lambda_array lambda_energy increment device
    has_space :
  respects same_args
    (Dynamics.new system lambda_val lambda_array lambda_energy increment
       device has_space).
Proof.
  unfold Dynamics.new, Dynamics.__init__, Dynamics.create_filenames,
    list_copy, list_append.
  respects_auto args_leaf.
Qed.

Lemma args_run lm (is_restart : bool) :
  respects same_args (Dynamics._run lm is_restart).
Proof.
  unfold Dynamics._run, Dynamics.production, Dynamics.remainder_block,
    Dynamics.save_chunk, log.
  respects_auto args_leaf.
Qed.

(** A window writes [runtime] and [checkpoint_frequency] at most. *)
Lemma args_run_window lambda_value :
  respects same_args (Runner.run_window lambda_value).
Proof.
  unfold Runner.run_window, Runner.run_window_with,
    Runner._initialise_simulation, Runner.unpack_run, Runner._run,
    Runner.attempt, Dynamics.get_timing, Dynamics._cleanup,
    Runner.acquire_gpu, Runner.release_gpu, Runner._remove_gpu_from_pool,
    Runner._update_gpu_pool, Runner.the_gpu_pool, log.
  respects_auto ltac:(first [apply args_new | apply args_run | args_leaf]).
Qed.

Lemma run_window_config lambda_value w :
  exists r f,
    config (Runner.run_window lambda_value w).2 =
    set_runtime r (set_checkpoint_frequency f (config w)).
Proof.
  destruct (frame_run_window lambda_value w) as (r & f & x & Hc).
  pose proof (args_run_window lambda_value w) as Hx. unfold keeps in Hx.
  exists r, f. rewrite Hc in Hx |- *. simpl in Hx. rewrite Hx.
  destruct (config w); reflexivity.
Qed.

(** *** [extra_args] across a run *)

Lemma same_submit {A} (job : M T A) : respects same (Runner.submit job).
Proof. intros w. unfold Runner.submit. destruct (job w). reflexivity. Qed.

Lemma same_create_shared_resources :
  respects same Runner._create_shared_resources.
Proof. intros w. apply (keeps_workers_create w). Qed.

(** The choice of the workers stores the threads of each. *)
Lemma configure_workers_config n w :
  let r := Runner.configure_workers n w in
  (config r.2 = config w \/
   config r.2 = set_extra_args (worker_args (config w) n) (config w)) /\
  (is_ok r.1 = true ->
   config r.2 = set_extra_args (worker_args (config w) n) (config w)).
Proof.
  unfold Runner.configure_workers, worker_args.
  change (bind (get config) ?k w) with (k (config w) w). cbv beta.
  destruct (String.eqb (platform (config w)) "cpu").
  - destruct (max_threads (config w) <? n).
    + split; [right |]; reflexivity.
    + unfold bind at 1 2, modify. simpl.
      destruct (n =? 0); simpl; [split; [left; reflexivity | discriminate] |].
      split; [right |]; reflexivity.
  - unfold Runner.the_gpu_pool, bind, get, modify. simpl.
    destruct (gpu_pool w); simpl; [split; [right |]; reflexivity |].
    split; [left; reflexivity | discriminate].
Qed.

Lemma run_config_parallel w n :
  num_lambda (config w) = Some n -> run_parallel (config w) = true ->
  config (Runner.run w).2 = config w \/
  config (Runner.run w).2 =
    set_extra_args (worker_args (config w) n) (config w).
Proof.
  intros Hn Hp. remember (config (Runner.run w).2) as c' eqn:Ec.
  unfold Runner.run, Runner.run_with in Ec.
  change (bind (get config) ?k w) with (k (config w) w) in Ec.
  cbv beta in Ec. rewrite Hn, Hp in Ec. unfold bind at 1 in Ec.
  pose proof (same_create_shared_resources w) as H1. unfold keeps in H1.
  destruct (Runner._create_shared_resources w) as [[[] | e] w1];
    simpl in H1; [| left; subst c'; exact H1].
  unfold bind at 1 in Ec.
  destruct (configure_workers_config n w1) as [H2 _]. rewrite H1 in H2.
  destruct (Runner.configure_workers n w1) as [[[] | e] w2];
    simpl in H2; [| subst c'; exact H2].
  match type of Ec with
  | _ = config (?m w2).2 =>
      assert (Hm : respects same m)
        by (respects_auto ltac:(first [apply same_submit | field_leaf]));
      rewrite (Hm w2) in Ec
  end.
  subst c'. exact H2.
Qed.

Lemma run_config_sequential w n :
  num_lambda (config w) = Some n -> run_parallel (config w) = false ->
  extra_args (config (Runner.run w).2) =
    if String.eqb (platform (config w)) "cpu"
    then {[ "threads" := max_threads (config w) ]}
    else extra_args (config w).
Proof.
  intros Hn Hp. unfold Runner.run, Runner.run_with.
  change (bind (get config) ?k w) with (k (config w) w). cbv beta.
  rewrite Hn, Hp.
  apply (keeps_after (fun w : world T => extra_args (config w))).
  - destruct (String.eqb (platform (config w)) "cpu"); reflexivity.
  - intros _. unfold Runner.lambda_grid.
    respects_auto ltac:(first [apply args_run_window | field_leaf]).
Qed.

(** C9 (amended): the scheduler and the sessions write four fields of the
    shared configuration object, and no other.  The constructor sets
    [runtime] to [runtime - system.time()], on a restart of a system with
    perturbable molecules and not otherwise.  [Dynamics._run] sets
    [checkpoint_frequency] to [runtime] when the checkpoint frequency is
    positive and the quotient of the runtime by it is below [1.0], and not
    otherwise.  A window ([run_window]) writes these two fields at most.
    [Runner.run] sets [extra_args]: in a parallel run to the threads of a
    worker on the CPU platform and to the empty dictionary on another, and
    to nothing else; in a sequential run, where its windows write [runtime]
    and [checkpoint_frequency] as above, to [max_threads] on the CPU
    platform and not at all on another.  [_set_lambda_schedule] sets
    [lambda_schedule]. *)
Theorem configuration_writes :
  (forall system lambda_val lambda_array lambda_energy increment device
          has_space w,
      config (Dynamics.__init__ system lambda_val lambda_array lambda_energy
                increment device has_space w).2 =
      if perturbable system && restart (config w)
      then set_runtime (num_sub (runtime (config w)) (time system)) (config w)
      else config w) /\
  (forall lambda_minimisation is_restart w,
      let c := config w in
      let r := Dynamics._run lambda_minimisation is_restart w in
      (config r.2 = c \/
       runtime_is_short c = true /\
       config r.2 = set_checkpoint_frequency (runtime c) c) /\
      (is_ok r.1 = true ->
       config r.2 = if runtime_is_short c
                    then set_checkpoint_frequency (runtime c) c else c)) /\
  (forall lambda_value w,
      exists r f,
        config (Runner.run_window lambda_value w).2 =
        set_runtime r (set_checkpoint_frequency f (config w))) /\
  (forall w,
      let c := config w in
      let c' := config (Runner.run w).2 in
      config_frame c c' /\
      match num_lambda c with
      | None => c' = c
      | Some n =>
          if run_parallel c
          then c' = c \/ c' = set_extra_args (worker_args c n) c
          else extra_args c' =
                 if String.eqb (platform c) "cpu"
                 then {[ "threads" := max_threads c ]}
                 else extra_args c
      end) /\
  (forall schedule w,
      Runner._set_lambda_schedule schedule w =
        (Ok tt, with_config (set_lambda_schedule schedule (config w)) w)).
Proof.
  split; [intros; apply init_config |].
  split; [intros lm ir w; exact (run_config lm ir w) |].
  split; [intros; apply run_window_config |].
  split; [| reflexivity].
  intros w c c'. split; [exact (frame_runner w) |].
  destruct (num_lambda c) as [n |] eqn:Hn; [| subst c c'].
  - destruct (run_parallel c) eqn:Hp.
    + exact (run_config_parallel w n Hn Hp).
    + exact (run_config_sequential w n Hn Hp).
  - unfold Runner.run, Runner.run_with.
    change (bind (get config) ?k w) with (k (config w) w). cbv beta.
    rewrite Hn. reflexivity.
Qed.

End ConfigWrites.

(** ** The blocks of a resumed run *)

Section ResumedBlocks.
Context {T : Type} `{PyNum T}.
Implicit Types (w : world T) (evs : list (event T)) (lam_arr : list T).
Implicit Types (d : Dyn T).

Lemma saved_chunks_app evs1 evs2 :
  saved_chunks (evs1 ++ evs2) = saved_chunks evs1 ++ saved_chunks evs2.
Proof. unfold saved_chunks. apply omap_app. Qed.

Lemma saved_chunks_plain evs : Forall plain evs -> saved_chunks evs = [].
Proof.
  induction 1 as [| e evs [_ He] _ IH]; [reflexivity |].
  destruct e; simpl in *; try exact IH; discriminate.
Qed.

Ltac split_trace :=
  simpl; rewrite <- ?app_assoc; simpl;
  first [ eexists; split; [reflexivity |]
        | exists []; split; [rewrite app_nil_r; reflexivity |] ].

(** A pass of the loop that ends: its number, and what it leaves in the
    trace. *)
Lemma block_ok_events cb lam_arr total i w x w' :
  current_block_of w = Some cb ->
  Dynamics.block lam_arr total i w = (Ok x, w') ->
  x = block_number cb i /\ config w' = config w /\
  current_block_of w' = Some cb /\
  exists evs, trace w' = trace w ++ evs /\
    finished_blocks evs = [x] /\
    saved_chunks evs = if save_trajectories (config w) then [x] else [].
Proof.
  intros Hcb Hrun.
  destruct (current_block_sim _ _ Hcb) as (d & Hd & <-).
  unfold Dynamics.block, Dynamics._save_energy_components,
    Dynamics.save_chunk, Dynamics.update_self, Dynamics.self in Hrun.
  unfold block_number in *.
  exec_in Hrun; simplify_eq.
  all: split; [reflexivity |].
  all: split; [reflexivity |].
  all: split; [unfold current_block_of; simpl;
               repeat match goal with E : sim _ = _ |- _ => rewrite E end;
               reflexivity |].
  all: split_trace.
  all: simpl; rewrite ?Z.add_simpl_r; auto.
Qed.

Lemma blocks_ok_events cb lam_arr total l : forall x0 w x w',
  current_block_of w = Some cb ->
  Dynamics.blocks lam_arr total x0 l w = (Ok x, w') ->
  x = loop_variable cb x0 l /\ config w' = config w /\
  current_block_of w' = Some cb /\
  exists evs, trace w' = trace w ++ evs /\
    finished_blocks evs = map (block_number cb) l /\
    saved_chunks evs =
      if save_trajectories (config w) then map (block_number cb) l else [].
Proof.
  induction l as [| i l IH]; intros x0 w x w' Hcb Hrun; simpl in Hrun.
  - injection Hrun as <- <-. repeat split; auto.
    exists []. rewrite app_nil_r. repeat split; auto.
    destruct (save_trajectories (config w)); reflexivity.
  - apply bind_ok_inv in Hrun as (x1 & w1 & Hb & Hrun).
    apply (block_ok_events cb) in Hb
      as (-> & Hc1 & Hcb1 & evs1 & Ht1 & Hf1 & Hs1); [| exact Hcb].
    apply IH in Hrun as (-> & Hc2 & Hcb2 & evs2 & Ht2 & Hf2 & Hs2);
      [| exact Hcb1].
    split; [reflexivity |]. split; [congruence |]. split; [exact Hcb2 |].
    exists (evs1 ++ evs2). rewrite Ht2, Ht1, app_assoc.
    split; [reflexivity |].
    rewrite finished_blocks_app, saved_chunks_app, Hf1, Hf2, Hs1, Hs2, Hc1.
    split; [reflexivity |].
    destruct (save_trajectories (config w)); reflexivity.
Qed.

Lemma remainder_ok_events cb lam_arr total x rem w w' :
  current_block_of w = Some cb ->
  Dynamics.remainder_block lam_arr total x rem w = (Ok tt, w') ->
  config w' = config w /\ current_block_of w' = Some cb /\
  exists xv evs, x = Some xv /\ trace w' = trace w ++ evs /\
    finished_blocks evs = [xv + 1] /\
    saved_chunks evs =
      if save_trajectories (config w) then [xv + 1] else [].
Proof.
  intros Hcb Hrun.
  destruct (current_block_sim _ _ Hcb) as (d & Hd & <-).
  unfold Dynamics.remainder_block, Dynamics.save_chunk, Dynamics.self in Hrun.
  exec_in Hrun; simplify_eq.
  all: split; [reflexivity |].
  all: split; [unfold current_block_of; simpl;
               repeat match goal with E : sim _ = _ |- _ => rewrite E end;
               reflexivity |].
  all: eexists _, _; split; [reflexivity |].
  all: simpl; rewrite <- ?app_assoc; simpl; split; [reflexivity |].
  all: simpl; rewrite ?Z.add_simpl_r; auto.
Qed.

(** The blocks of a production part that ends: as many as planned, numbered
    from the current block on, each trajectory chunk under the number of
    its block. *)
Lemma production_ok_blocks cb lam_arr w w' :
  current_block_of w = Some cb -> 0 <= cb ->
  Dynamics.production lam_arr w = (Ok tt, w') ->
  current_block_of w' = Some cb /\
  exists evs k, trace w' = trace w ++ evs /\
    planned_blocks (config w) = Ok k /\
    finished_blocks evs = map (Z.add cb) (range k) /\
    saved_chunks evs =
      if save_trajectories (config w) then map (Z.add cb) (range k) else [].
Proof.
  intros Hcb H0 Hrun.
  destruct (current_block_sim _ _ Hcb) as (d & Hd & Hdcb).
  unfold Dynamics.production in Hrun.
  apply bind_ok_inv in Hrun as (d0 & w0 & Hself & Hrun).
  unfold Dynamics.self in Hself. rewrite Hd in Hself.
  injection Hself as <- <-.
  apply bind_ok_inv in Hrun as (cfg & w0 & Hget & Hrun).
  injection Hget as <- <-.
  unfold planned_blocks.
  destruct (num_lt num_zero (checkpoint_frequency (config w))) eqn:Hpos.
  - apply bind_ok_inv in Hrun as (q & w0 & Hq & Hrun).
    unfold lift in Hq. injection Hq as Hq <-. rewrite Hq.
    apply bind_ok_inv in Hrun as (frac & w1 & Hfrac & Hrun).
    assert (Hw1 : frac = (if num_lt q num_one then num_one else q) /\
                  current_block_of w1 = Some cb /\ trace w1 = trace w /\
                  save_trajectories (config w1) = save_trajectories (config w)).
    { destruct (num_lt q num_one).
      - injection Hfrac as <- <-. repeat split. exact Hcb.
      - injection Hfrac as <- <-. repeat split. exact Hcb. }
    clear Hfrac. destruct Hw1 as (-> & Hcb1 & Ht1 & Hs1).
    set (frac := if num_lt q num_one then num_one else q) in *.
    apply bind_ok_inv in Hrun as (n & w0 & Hn & Hrun).
    unfold lift in Hn. injection Hn as Hn <-. rewrite Hn.
    set (rem := num_sub frac (num_of_int n)) in *.
    apply bind_ok_inv in Hrun as (x & w2 & Hb & Hrun).
    apply (blocks_ok_events cb) in Hb
      as (-> & Hc2 & Hcb2 & evs & Ht2 & Hf2 & Hs2); [| exact Hcb1].
    rewrite map_block_number in Hf2, Hs2 by (auto using range_nonneg).
    rewrite Hs1 in Hs2.
    destruct (num_lt num_zero rem).
    + apply (remainder_ok_events cb) in Hrun
        as (Hc3 & Hcb3 & xv & evs' & Hx & Ht3 & Hf3 & Hs3); [| exact Hcb2].
      apply loop_variable_range in Hx as [Hn0 ->].
      rewrite block_number_offset in Hf3, Hs3 by lia.
      replace (cb + (n - 1) + 1) with (cb + n) in Hf3, Hs3 by lia.
      split; [exact Hcb3 |].
      exists (evs ++ evs'), (n + 1). rewrite Ht3, Ht2, Ht1, app_assoc.
      split; [reflexivity |]. split; [reflexivity |].
      rewrite finished_blocks_app, saved_chunks_app, Hf2, Hf3, Hs2, Hs3.
      rewrite range_succ, map_app by lia. simpl.
      rewrite Hc2, Hs1.
      split; [reflexivity |].
      destruct (save_trajectories (config w)); reflexivity.
    + injection Hrun as <-. split; [exact Hcb2 |].
      exists evs, (n + 0). rewrite Ht2, Ht1, Z.add_0_r.
      split; [reflexivity |]. split; [reflexivity |]. split; assumption.
  - unfold bind, call, emit, modify in Hrun. simpl in Hrun.
    destruct (engine w _ _); [discriminate |]. simpl in Hrun.
    destruct (engine w _ _); [discriminate |].
    injection Hrun as <-. split; [exact Hcb |].
    exists [Run (checkpoint_frequency (config w)) lam_arr; Commit], 0.
    simpl. rewrite <- app_assoc. repeat split.
    destruct (save_trajectories (config w)); reflexivity.
Qed.

(** [Hm : m w = (r, w')] for a stage [m] before production: the
    configuration and the current block are the same in [w'], and the trace
    has grown by plain events. *)
Ltac stage_quiet Hm K S :=
  lazymatch type of Hm with
  | ?m ?w = (_, ?w') =>
      assert (K : respects (keeps (config (T := _))) m)
        by (unfold Dynamics._minimisation, Dynamics._equilibration,
              Dynamics._setup_dynamics, Dynamics.update_self, log;
            respects_auto ltac:(first
              [apply keeps_config_self | intros ?; reflexivity]));
      assert (S : respects (steps plain) m)
        by (first [ apply steps_update_self; reflexivity
                  | unfold log; steps_auto ]);
      specialize (K w); specialize (S w); rewrite Hm in K, S;
      unfold keeps in K; simpl in K, S
  end.

Lemma steps_plain_trans w1 w2 w3 :
  steps plain w1 w2 -> steps plain w2 w3 -> steps (T := T) plain w1 w3.
Proof. intros H12 H23. etransitivity; eassumption. Qed.

(** A run that returns has gone through the blocks planned from the
    configuration it started with, numbered from the current block of the
    session on. *)
Lemma run_ok_blocks lm (is_restart : bool) w d df w' :
  sim w = Some d -> 0 <= _current_block d ->
  Dynamics._run lm is_restart w = (Ok df, w') ->
  exists evs k,
    trace w' = trace w ++ Enter_run lm :: evs /\
    planned_blocks (config w) = Ok k /\
    finished_blocks evs = map (Z.add (_current_block d)) (range k) /\
    saved_chunks evs =
      if save_trajectories (config w)
      then map (Z.add (_current_block d)) (range k) else [].
Proof.
  intros Hd H0 Hrun. unfold Dynamics._run in Hrun.
  apply bind_ok_inv in Hrun as ([] & w0 & Hemit & Hrun).
  injection Hemit as <-.
  apply bind_ok_inv in Hrun as (d0 & w1 & Hself & Hrun).
  unfold Dynamics.self in Hself. cbn [sim with_trace] in Hself.
  rewrite Hd in Hself. injection Hself as <- <-.
  apply bind_ok_inv in Hrun as (cfg & w1 & Hget & Hrun).
  injection Hget as <- <-. cbn [config with_trace] in Hrun.
  set (w0 := with_trace (trace w ++ [Enter_run lm]) w) in *.
  apply bind_ok_inv in Hrun as ([] & w2 & H1 & Hrun). stage_quiet H1 K1 S1.
  apply bind_ok_inv in Hrun as ([] & w3 & H2 & Hrun). stage_quiet H2 K2 S2.
  apply bind_ok_inv in Hrun as ([] & w4 & H3 & Hrun). stage_quiet H3 K3 S3.
  apply bind_ok_inv in Hrun as ([] & w5 & H4 & Hrun). stage_quiet H4 K4 S4.
  apply bind_ok_inv in Hrun as (g & w5' & Hlift & Hrun).
  unfold lift in Hlift. injection Hlift as Hg <-.
  apply bind_ok_inv in Hrun as ([] & w6 & H5 & Hrun). stage_quiet H5 K5 S5.
  apply bind_ok_inv in Hrun as (lambda_energy & w7 & Hread & Hrun).
  apply list_read_spec in Hread as [-> _].
  apply bind_ok_inv in Hrun as ([] & w8 & H6 & Hrun). stage_quiet H6 K6 S6.
  apply bind_ok_inv in Hrun as ([] & w9 & Hprod & Hfin).
  assert (Hpre : steps plain w0 w8).
  { apply (steps_plain_trans _ _ _ S1), (steps_plain_trans _ _ _ S2),
      (steps_plain_trans _ _ _ S3), (steps_plain_trans _ _ _ S4),
      (steps_plain_trans _ _ _ S5), S6. }
  assert (Hcfg : config w8 = config w) by (subst w0; simpl in *; congruence).
  destruct Hpre as (_ & Hcb8 & pre & Ht8 & Hplain).
  assert (Hcb : current_block_of w8 = Some (_current_block d)).
  { rewrite Hcb8. unfold current_block_of, w0. simpl. rewrite Hd.
    reflexivity. }
  apply (production_ok_blocks (_current_block d)) in Hprod
    as (Hcb9 & evs & k & Ht9 & Hk & Hf & Hs); [| exact Hcb | exact H0].
  pose proof (steps_finalise w9) as Hpost. rewrite Hfin in Hpost.
  destruct Hpost as (_ & _ & post & Ht & Hplain'). simpl in Ht.
  rewrite Hcfg in Hk, Hs.
  exists (pre ++ evs ++ post), k.
  split.
  { rewrite Ht, Ht9, Ht8. unfold w0. simpl.
    rewrite <- !app_assoc. reflexivity. }
  split; [exact Hk |].
  rewrite !finished_blocks_app, !saved_chunks_app.
  rewrite (finished_blocks_plain pre), (finished_blocks_plain post),
    (saved_chunks_plain pre), (saved_chunks_plain post) by assumption.
  rewrite !app_nil_r. simpl. split; assumption.
Qed.

(** C5 (amended): on a restart the constructor sets the current block to
    [int(round(time / checkpoint_frequency, 12))] and the runtime of the
    shared configuration to what is left of it.  Every block number a later
    [_run] of the session uses (chunk file, energy trajectory write,
    [Finished block] line) is at least the current block, and the blocks it
    reports finished are numbered [current], [current + 1], ... in order.
    A run that returns has finished exactly the blocks planned from the
    configuration it started with: [int(frac)] checkpointed blocks and, when
    a fraction is left, one more, numbered from the current block on without
    a gap, each trajectory chunk written under the number of its block. *)
Theorem restart_resumes system lambda_val lambda_array lambda_energy increment
    device has_space w d w' :
  restart (config w) = true ->
  Dynamics.__init__ system lambda_val lambda_array lambda_energy increment
    device has_space w = (Ok d, w') ->
  (exists q,
      num_div (time system) (checkpoint_frequency (config w)) = Ok q /\
      num_int (num_round q 12) = Ok (_current_block d)) /\
  runtime (config w') = num_sub (runtime (config w)) (time system) /\
  forall w2 lambda_minimisation is_restart,
    sim w2 = Some d ->
    let r := Dynamics._run lambda_minimisation is_restart w2 in
    exists evs,
      trace r.2 = trace w2 ++ Enter_run lambda_minimisation :: evs /\
      Forall (fun e => forall x, event_block e = Some x ->
                                 _current_block d <= x) evs /\
      (0 <= _current_block d ->
       (exists k : nat,
          finished_blocks evs =
          map (Z.add (_current_block d)) (range (Z.of_nat k))) /\
       (is_ok r.1 = true ->
        exists k,
          planned_blocks (config w2) = Ok k /\
          finished_blocks evs = map (Z.add (_current_block d)) (range k) /\
          saved_chunks evs =
            if save_trajectories (config w2)
            then map (Z.add (_current_block d)) (range k) else [])).
Proof.
  intros Hrestart Hinit. apply init_resume in Hinit. rewrite Hrestart in Hinit.
  destruct Hinit as [Hblock Hcfg]. split; [exact Hblock |].
  split; [rewrite Hcfg; reflexivity |].
  intros w2 lm ir Hsim r.
  destruct (run_numbered (_current_block d) lm ir w2)
    as (evs & Ht & Hq & Hf).
  { unfold current_block_of. rewrite Hsim. reflexivity. }
  exists evs. split; [exact Ht |]. split.
  { eapply Forall_impl; [exact Hq |]. intros e [_ He]. exact He. }
  intros H0. split; [exact (Hf H0) |].
  intros Hok. subst r.
  destruct (Dynamics._run lm ir w2) as [[df | e] w3] eqn:Hrun;
    [| discriminate].
  destruct (run_ok_blocks lm ir w2 d df w3 Hsim H0 Hrun)
    as (evs' & k & Ht' & Hk & Hf' & Hs').
  simpl in Ht. rewrite Ht' in Ht. apply app_inv_head in Ht.
  injection Ht as ->. exists k. auto.
Qed.

End ResumedBlocks.

Section ResumedBlocksExamples.
Import Example Example3.
Local Open Scope Q_scope.

Lemma restart_resumes_witness :
  exists d w',
    Dynamics.__init__ (runner_system restarted) (1 # 2)
      (lambda_values restarted) (Some 0%nat) (1 # 1000) None true restarted
      = (Ok d, w') /\
    _current_block d = 2%Z /\
    runtime (config w') = 4 /\
    forall w2 lambda_minimisation is_restart,
      sim w2 = Some d ->
      let r := Dynamics._run lambda_minimisation is_restart w2 in
      exists evs,
        trace r.2 = trace w2 ++ Enter_run lambda_minimisation :: evs /\
        Forall (fun e => forall x, event_block e = Some x ->
                                   (_current_block d <= x)%Z) evs /\
        ((0 <= _current_block d)%Z ->
         (exists k : nat,
            finished_blocks evs =
            map (Z.add (_current_block d)) (range (Z.of_nat k))) /\
         (is_ok r.1 = true ->
          exists k,
            planned_blocks (config w2) = Ok k /\
            finished_blocks evs =
              map (Z.add (_current_block d)) (range k) /\
            saved_chunks evs =
              if save_trajectories (config w2)
              then map (Z.add (_current_block d)) (range k) else [])).
Proof.
  eexists _, _. split; [vm_compute; reflexivity |].
  split; [reflexivity |]. split; [reflexivity |].
  refine (proj2 (proj2
    (restart_resumes (runner_system restarted) (1 # 2)
       (lambda_values restarted) (Some 0%nat) (1 # 1000) None true restarted
       _ _ _ _))).
  - vm_compute. reflexivity.
  - vm_compute. reflexivity.
Defined.

(** The restart after 6 of 10 time units, with a checkpoint every 3: the
    session resumes at block 2 with 4 time units left, and its run finishes
    the blocks 2 and 3, one checkpointed block and the fraction left. *)
Example restart_blocks :
  current_block_of (with_window restarted) = Some 2%Z /\
  planned_blocks (config (with_window restarted)) = Ok 2%Z /\
  finished_blocks (trace (Dynamics._run None true (with_window restarted)).2)
    = [2%Z; 3%Z] /\
  saved_chunks (trace (Dynamics._run None true (with_window restarted)).2)
    = [2%Z; 3%Z].
Proof. repeat split; vm_compute; reflexivity. Qed.

(** C5, as stated, fails: a block number of the earlier run is used again.
    A run of 10 time units with a checkpoint every 3 finishes the blocks 0,
    1 and 2 and, for the fraction left, block 3.  Its restart (with a
    runtime of 20), whether the system reports 10 time units or, the last
    run having been given the fraction [1/3] as its length, [28/3], resumes
    at block [int(round(time / 3, 12)) = 3] and finishes block 3 a second
    time, writing its trajectory chunk again. *)
Lemma restart_repeats_remainder_block :
  finished_blocks (trace (Dynamics._run None false window).2)
    = [0%Z; 1%Z; 2%Z; 3%Z] /\
  saved_chunks (trace (Dynamics._run None false window).2)
    = [0%Z; 1%Z; 2%Z; 3%Z] /\
  (current_block_of (resumed 20 10) = Some 3%Z /\
   finished_blocks (trace (Dynamics._run None true (resumed 20 10)).2)
     = [3%Z; 4%Z; 5%Z; 6%Z] /\
   saved_chunks (trace (Dynamics._run None true (resumed 20 10)).2)
     = [3%Z; 4%Z; 5%Z; 6%Z]) /\
  (current_block_of (resumed 20 (28 # 3)) = Some 3%Z /\
   finished_blocks (trace (Dynamics._run None true (resumed 20 (28 # 3))).2)
     = [3%Z; 4%Z; 5%Z; 6%Z] /\
   saved_chunks (trace (Dynamics._run None true (resumed 20 (28 # 3))).2)
     = [3%Z; 4%Z; 5%Z; 6%Z]).
Proof. repeat split; vm_compute; reflexivity. Qed.

End ResumedBlocksExamples.

Section ProductionExamples.
Import Example Example3.

Lemma production_partition_witness :
  exists w' evs,
    Dynamics.production [0%float; 0.5%float; 1%float]
      (binary64_window 0.3 0.1) = (Ok tt, w') /\
    trace w' = trace (binary64_window 0.3 0.1) ++ evs /\
    config w' = config (binary64_window 0.3 0.1) /\
    runs_and_checkpoints evs =
      [Run 0.1%float [0%float; 0.5%float; 1%float]; Checkpoint;
       Run 0.1%float [0%float; 0.5%float; 1%float]; Checkpoint;
       Run 0.99999999999999956%float [0%float; 0.5%float; 1%float]].
Proof.
  assert (H1 : current_block_of (binary64_window 0.3 0.1) = Some 0%Z)
    by (vm_compute; reflexivity).
  assert (H2 : never_fails (binary64_window 0.3 0.1))
    by (intros h e; reflexivity).
  assert (H3 : num_lt num_zero
                 (checkpoint_frequency (config (binary64_window 0.3 0.1)))
               = true) by (vm_compute; reflexivity).
  assert (H4 : num_div (runtime (config (binary64_window 0.3 0.1)))
                 (checkpoint_frequency (config (binary64_window 0.3 0.1)))
               = Ok 2.9999999999999996%float) by (vm_compute; reflexivity).
  assert (H5 : num_int (if num_lt 2.9999999999999996%float num_one
                        then num_one else 2.9999999999999996%float)
               = Ok 2%Z) by (vm_compute; reflexivity).
  assert (H6 : (0 < 2)%Z) by reflexivity.
  exact (production_partition (binary64_window 0.3 0.1) 0%Z
           [0%float; 0.5%float; 1%float] 2.9999999999999996%float 2%Z
           H1 H2 H3 H4 H5 H6).
Defined.

(** C6, as stated, fails in binary64: with [runtime = 0.5] and
    [checkpoint_frequency = 0.1] the quotient of the two numbers is below
    [5], so that [floor(r / c)] is [4] and a remainder is left; the program
    computes [0.5 / 0.1 = 5.0] and runs five blocks and no remainder. *)
Lemma production_blocks_follow_rounded_quotient :
  Qfloor (exact_value 0.5 / exact_value 0.1) = 4%Z /\
  (0 < exact_value 0.5 / exact_value 0.1 - 4)%Q /\
  exists w' evs,
    Dynamics.production [0%float; 0.5%float; 1%float]
      (binary64_window 0.5 0.1) = (Ok tt, w') /\
    trace w' = trace (binary64_window 0.5 0.1) ++ evs /\
    runs_and_checkpoints evs =
      concat (repeat [Run 0.1%float [0%float; 0.5%float; 1%float];
                      Checkpoint] 5).
Proof.
  split; [vm_compute; reflexivity |]. split; [vm_compute; reflexivity |].
  eexists _, _. split; [vm_compute; reflexivity |].
  split; [vm_compute; reflexivity |].
  vm_compute. reflexivity.
Qed.

End ProductionExamples.


(** ** File names *)

Section Strings.

Lemma string_length_app (a b : string) :
  String.length (a ++ b) = (String.length a + String.length b)%nat.
Proof.
  induction a as [| x a IH]; [reflexivity |].
  rewrite string_app_cons. simpl. rewrite IH. reflexivity.
Qed.

Lemma string_app_inv (s1 s2 t1 t2 : string) :
  String.length s1 = String.length s2 ->
  (s1 ++ t1 = s2 ++ t2)%string -> s1 = s2 /\ t1 = t2.
Proof.
  revert s2. induction s1 as [| x s1 IH]; intros [| y s2] Hlen Heq;
    try discriminate.
  - split; [reflexivity | exact Heq].
  - rewrite !string_app_cons in Heq. injection Heq as -> Heq.
    simpl in Hlen. destruct (IH s2 ltac:(lia) Heq) as [-> ->].
    split; reflexivity.
Qed.

Lemma string_app_inv_tail (s1 s2 t1 t2 : string) :
  String.length t1 = String.length t2 ->
  (s1 ++ t1 = s2 ++ t2)%string -> s1 = s2 /\ t1 = t2.
Proof.
  intros Hlen Heq. apply string_app_inv; [| exact Heq].
  apply (f_equal String.length) in Heq. rewrite !string_length_app in Heq.
  lia.
Qed.

Lemma to_uint_nonnil (n : nat) : Nat.to_uint n <> Decimal.Nil.
Proof.
  rewrite <- (DecimalNat.Unsigned.of_to n) at 1.
  rewrite DecimalNat.Unsigned.to_of. apply DecimalFacts.unorm_nonnil.
Qed.

Lemma str_of_nat_inj (n m : nat) : str_of_nat n = str_of_nat m -> n = m.
Proof.
  unfold str_of_nat. intros Heq.
  apply DecimalNat.Unsigned.to_uint_inj.
  assert (Hs : Some (Nat.to_uint n) = Some (Nat.to_uint m)).
  { rewrite <- (NilZero.usu (Nat.to_uint n)) by apply to_uint_nonnil.
    rewrite <- (NilZero.usu (Nat.to_uint m)) by apply to_uint_nonnil.
    rewrite Heq. reflexivity. }
  injection Hs as Hs. exact Hs.
Qed.

Lemma numbered_name_inj base suffix n m :
  Files.numbered_name base suffix n = Files.numbered_name base suffix m ->
  n = m.
Proof.
  unfold Files.numbered_name. intros Heq.
  destruct n as [| n], m as [| m]; [reflexivity | | |];
    apply String.app_inj in Heq.
  - discriminate.
  - discriminate.
  - injection Heq as Heq.
    apply string_app_inv_tail in Heq as [Heq _]; [| reflexivity].
    apply str_of_nat_inj, Heq.
Qed.

End Strings.

Section IncrementFilename.
Implicit Types (dir : gset string) (base suffix : string).

Lemma increment_filename_from_spec dir base suffix fuel start k :
  (k < fuel)%nat -> Files.numbered_name base suffix (start + k) ∉ dir ->
  exists n,
    (start <= n <= start + k)%nat /\
    Files.increment_filename_from dir base suffix fuel start =
      Some (Files.numbered_name base suffix n) /\
    (Files.numbered_name base suffix n ∉ dir) /\
    forall m, (start <= m < n)%nat -> Files.numbered_name base suffix m ∈ dir.
Proof.
  revert start k. induction fuel as [| fuel IH]; intros start k Hk Hfree;
    [lia |].
  simpl. destruct (decide (Files.numbered_name base suffix start ∈ dir))
    as [Hin | Hout].
  - destruct k as [| k].
    { rewrite Nat.add_0_r in Hfree. contradiction. }
    destruct (IH (S start) k ltac:(lia)) as (n & Hn & Hrun & Hnew & Hold).
    { replace (S start + k)%nat with (start + S k)%nat by lia. exact Hfree. }
    exists n. split; [lia |]. split; [exact Hrun |]. split; [exact Hnew |].
    intros m Hm. destruct (Nat.eq_dec m start) as [-> | Hne]; [exact Hin |].
    apply Hold. lia.
  - exists start. split; [lia |]. split; [reflexivity |].
    split; [exact Hout |]. intros m Hm. lia.
Qed.

(** Among the first [size dir + 1] candidates one is free. *)
Lemma free_name_exists dir base suffix :
  exists k, (k <= size dir)%nat /\ Files.numbered_name base suffix k ∉ dir.
Proof.
  set (l := seq 0 (S (size dir))).
  destruct (decide (Forall (fun k => Files.numbered_name base suffix k ∈ dir) l))
    as [Hall | Hsome].
  - exfalso.
    assert (Hnd : NoDup (Files.numbered_name base suffix <$> l)).
    { apply NoDup_fmap_2_strong; [| apply NoDup_seq].
      intros x y _ _. apply numbered_name_inj. }
    assert (Hsub : list_to_set (C := gset string)
                     (Files.numbered_name base suffix <$> l) ⊆ dir).
    { intros s Hs. apply elem_of_list_to_set in Hs.
      apply list_elem_of_fmap in Hs as (k & -> & Hk).
      rewrite Forall_forall in Hall. apply Hall, Hk. }
    apply subseteq_size in Hsub.
    rewrite size_list_to_set in Hsub by exact Hnd.
    rewrite length_fmap in Hsub. unfold l in Hsub.
    rewrite length_seq in Hsub. lia.
  - apply not_Forall_Exists in Hsome; [| apply _].
    apply Exists_exists in Hsome as (k & Hk & Hfree).
    exists k. split; [| exact Hfree].
    apply elem_of_seq in Hk. lia.
Qed.

Lemma increment_filename_spec dir base suffix :
  exists n,
    Files.increment_filename dir base suffix =
      Some (Files.numbered_name base suffix n) /\
    (Files.numbered_name base suffix n ∉ dir) /\
    forall m, (m < n)%nat -> Files.numbered_name base suffix m ∈ dir.
Proof.
  destruct (free_name_exists dir base suffix) as (k & Hk & Hfree).
  destruct (increment_filename_from_spec dir base suffix (S (size dir)) 0 k
              ltac:(lia) Hfree) as (n & _ & Hrun & Hnew & Hold).
  exists n. split; [exact Hrun |]. split; [exact Hnew |].
  intros m Hm. apply Hold. lia.
Qed.

(** X5.
    [increment_filename] ends, whatever the directory holds, and returns
    the first of the names [base.suffix], [base_1.suffix], [base_2.suffix],
    ... that does not exist there: a name that exists is never returned,
    and [base.suffix] itself is returned exactly when it is free. *)
Theorem increment_filename_first_free dir base suffix :
  exists n,
    Files.increment_filename dir base suffix =
      Some (Files.numbered_name base suffix n) /\
    (Files.numbered_name base suffix n ∉ dir) /\
    (forall m, (m < n)%nat -> Files.numbered_name base suffix m ∈ dir) /\
    (n = 0%nat <-> (base ++ String "." suffix)%string ∉ dir).
Proof.
  destruct (increment_filename_spec dir base suffix) as (n & Hrun & Hnew & Hold).
  exists n. repeat split; try assumption.
  - intros ->. exact Hnew.
  - intros Hfree. destruct n as [| n]; [reflexivity |].
    destruct Hfree. apply (Hold 0%nat). lia.
Qed.

End IncrementFilename.

Section Fixed5.

Lemma digit_inj (d1 d2 : Z) :
  0 <= d1 < 10 -> 0 <= d2 < 10 -> Files.digit d1 = Files.digit d2 -> d1 = d2.
Proof.
  intros H1 H2 Heq. unfold Files.digit in Heq.
  apply (f_equal nat_of_ascii) in Heq.
  rewrite !nat_ascii_embedding in Heq by lia. lia.
Qed.

Lemma fixed5_inj (n1 n2 : Z) :
  0 <= n1 -> 0 <= n2 ->
  Files.fixed5 false n1 = Files.fixed5 false n2 -> n1 = n2.
Proof.
  intros H1 H2 Heq. unfold Files.fixed5 in Heq.
  change (("" ++ ?s)%string) with s in Heq.
  apply string_app_inv_tail in Heq as [Hint Hfrac]; [| reflexivity].
  apply str_of_nat_inj in Hint.
  assert (Hq : n1 / 100000 = n2 / 100000).
  { pose proof (Z.div_pos n1 100000 H1 ltac:(lia)).
    pose proof (Z.div_pos n2 100000 H2 ltac:(lia)). lia. }
  injection Hfrac as D4 D3 D2 D1 D0.
  pose proof (Z.mod_pos_bound n1 100000 ltac:(lia)) as B1.
  pose proof (Z.mod_pos_bound n2 100000 ltac:(lia)) as B2.
  set (m1 := n1 mod 100000) in *. set (m2 := n2 mod 100000) in *.
  apply digit_inj in D4, D3, D2, D1, D0;
    try (apply Z.mod_pos_bound; lia).
  assert (Hm : m1 = m2) by (Z.div_mod_to_equations; lia).
  rewrite (Z.div_mod n1 100000), (Z.div_mod n2 100000) by lia.
  fold m1 m2. rewrite Hq, Hm. reflexivity.
Qed.

Local Open Scope Q_scope.

Lemma round_half_even_nonneg n d :
  (0 <= n)%Z -> (0 < d)%Z -> (0 <= round_half_even n d)%Z.
Proof.
  intros Hn Hd.
  destruct (round_half_even_near n d Hd) as ([_ Hhi] & _ & _). nia.
Qed.

Lemma rat_round_unit (x : Q) :
  (0 <= Qnum x)%Z ->
  Rat.round x 5 =
  Qred (round_half_even (Qnum x * 100000) (Zpos (Qden x)) # 100000).
Proof.
  intros Hx. unfold Rat.round.
  destruct (Z.ltb_spec (Qnum x) 0) as [Hneg | _]; [lia |].
  rewrite Z.abs_eq by exact Hx. reflexivity.
Qed.

Lemma fixed5_Q_unit (x : Q) :
  (0 <= Qnum x)%Z ->
  num_fixed5 x =
  Files.fixed5 false (round_half_even (Qnum x * 100000) (Zpos (Qden x))).
Proof.
  intros Hx. simpl. unfold Files.fixed5_Q.
  destruct (Z.ltb_spec (Qnum x) 0) as [Hneg | _]; [lia |].
  rewrite Z.abs_eq by exact Hx. reflexivity.
Qed.

Lemma Qred_units (n1 n2 : Z) :
  Qred (n1 # 100000) = Qred (n2 # 100000) <-> n1 = n2.
Proof.
  split; [| intros ->; reflexivity].
  intros Heq.
  assert (Hq : n1 # 100000 == n2 # 100000).
  { rewrite <- (Qred_correct (n1 # 100000)), <- (Qred_correct (n2 # 100000)).
    rewrite Heq. reflexivity. }
  unfold Qeq in Hq. simpl in Hq. lia.
Qed.

(** Two lambdas that are not negative print the same to five decimals
    exactly when they round to the same value. *)
Lemma fixed5_same_iff (a b : Q) :
  0 <= a -> 0 <= b ->
  num_fixed5 a = num_fixed5 b <-> num_round a 5 = num_round b 5.
Proof.
  intros Ha Hb.
  assert (Hna : (0 <= Qnum a)%Z) by (unfold Qle in Ha; simpl in Ha; lia).
  assert (Hnb : (0 <= Qnum b)%Z) by (unfold Qle in Hb; simpl in Hb; lia).
  rewrite (fixed5_Q_unit a Hna), (fixed5_Q_unit b Hnb).
  simpl num_round. rewrite (rat_round_unit a Hna), (rat_round_unit b Hnb).
  rewrite Qred_units. split.
  - apply fixed5_inj; apply round_half_even_nonneg; lia.
  - intros ->. reflexivity.
Qed.

End Fixed5.

Section CreateFilenames.
Context {T : Type} `{PyNum T} `{PyFormat T}.
Implicit Types (dir : gset string) (lambda_array : list T) (lambda_value : T).
Implicit Types (w : world T).

(** X6.
    [create_filenames] always ends.  When an element of [lambda_array] is
    [==] to [lambda_value] it returns the eight names: two fixed topology
    names, five names built from [lambda_value] printed with five decimals,
    and the name of the configuration file, which is [config.yaml] unless
    the run is a restart, and then the first of [config.yaml],
    [config_1.yaml], ... that does not exist.  When no element is, and
    [lambda_value] is [==] to itself (is not a NaN, for which the check
    follows the identity of objects), it raises a [ValueError]: the check
    the constructor's outcome depends on. *)
Theorem create_filenames_names dir lambda_array lambda_value (restart : bool) w :
  let lam := num_fixed5 lambda_value in
  (Dynamics.contains lambda_value lambda_array = true ->
    exists names config_name,
      Files.create_filenames dir lambda_array lambda_value restart =
        Some (Ok names) /\
      (Dynamics.create_filenames lambda_array lambda_value w).1 = Ok tt /\
      dom names =
        {[ "topology0"; "topology1"; "checkpoint"; "energy_traj";
           "trajectory"; "trajectory_chunk"; "energy_components";
           "config" ]} /\
      names !! "topology0" = Some "system0.prm7"%string /\
      names !! "topology1" = Some "system1.prm7"%string /\
      names !! "checkpoint" = Some ("checkpoint_" ++ lam ++ ".s3")%string /\
      names !! "energy_traj" =
        Some ("energy_traj_" ++ lam ++ ".parquet")%string /\
      names !! "trajectory" = Some ("traj_" ++ lam ++ ".dcd")%string /\
      names !! "trajectory_chunk" = Some ("traj_" ++ lam ++ "_")%string /\
      names !! "energy_components" =
        Some ("energy_components_" ++ lam ++ ".txt")%string /\
      names !! "config" = Some config_name /\
      (if restart
       then (config_name ∉ dir) /\
            exists n, config_name = Files.numbered_name "config" "yaml" n /\
              forall m, (m < n)%nat ->
                        Files.numbered_name "config" "yaml" m ∈ dir
       else config_name = "config.yaml"%string)) /\
  (self_equal lambda_value ->
   Dynamics.contains lambda_value lambda_array = false ->
    Files.create_filenames dir lambda_array lambda_value restart =
      Some (Raise (ValueError "lambda_value not in lambda_array")) /\
    (Dynamics.create_filenames lambda_array lambda_value w).1 =
      Raise (ValueError "lambda_value not in lambda_array")).
Proof.
  intros lam. unfold Files.create_filenames, Dynamics.create_filenames.
  split; [intros -> | intros _ ->; split; reflexivity].
  destruct restart.
  - destruct (increment_filename_spec dir "config" "yaml")
      as (n & Hrun & Hnew & Hold).
    rewrite Hrun. simpl.
    eexists _, _. split; [reflexivity |]. split; [reflexivity |].
    split; [rewrite !dom_insert_L, dom_empty_L; set_solver |].
    repeat (split; [reflexivity |]). split; [exact Hnew |].
    exists n. split; [reflexivity | exact Hold].
  - simpl. eexists _, _. split; [reflexivity |]. split; [reflexivity |].
    split; [rewrite !dom_insert_L, dom_empty_L; set_solver |].
    repeat (split; [reflexivity |]). reflexivity.
Qed.

End CreateFilenames.

Section SharedFiles.
Local Open Scope Q_scope.
Implicit Types (dir : gset string) (w : world Q).

Lemma checkpoint_name dir lambda_array (a : Q) restart names :
  Files.create_filenames dir lambda_array a restart = Some (Ok names) ->
  names !! "checkpoint" = Some ("checkpoint_" ++ num_fixed5 a ++ ".s3")%string.
Proof.
  unfold Files.create_filenames.
  destruct (Dynamics.contains a lambda_array); [| discriminate].
  destruct (if restart then _ else _); simpl; [| discriminate].
  intros [= <-]. reflexivity.
Qed.

Lemma create_filenames_ok dir lambda_array (a : Q) :
  Dynamics.contains a lambda_array = true ->
  exists names,
    Files.create_filenames dir lambda_array a false = Some (Ok names).
Proof.
  intros Hc. unfold Files.create_filenames. rewrite Hc. simpl.
  eexists. reflexivity.
Qed.

Lemma checkpoint_name_inj (s t : string) :
  Some ("checkpoint_" ++ s ++ ".s3")%string =
  Some ("checkpoint_" ++ t ++ ".s3")%string -> s = t.
Proof.
  intros Hsome.
  assert (Heq : ("checkpoint_" ++ s ++ ".s3" = "checkpoint_" ++ t ++ ".s3")%string)
    by congruence.
  apply String.app_inj in Heq.
  apply string_app_inv_tail in Heq as [Heq _]; [exact Heq | reflexivity].
Qed.

(** X7.
    Two windows write to the same checkpoint file exactly when their
    lambdas (not negative) round to the same value at five decimals; all
    their file names are then the same. *)
Theorem windows_share_files dir lambda_array (a b : Q) restart names_a names_b :
  0 <= a -> 0 <= b ->
  Files.create_filenames dir lambda_array a restart = Some (Ok names_a) ->
  Files.create_filenames dir lambda_array b restart = Some (Ok names_b) ->
  (names_a !! "checkpoint" = names_b !! "checkpoint" <->
   num_round a 5 = num_round b 5) /\
  (num_round a 5 = num_round b 5 -> names_a = names_b).
Proof.
  intros Ha Hb Hna Hnb.
  rewrite (checkpoint_name _ _ _ _ _ Hna), (checkpoint_name _ _ _ _ _ Hnb).
  rewrite <- (fixed5_same_iff a b Ha Hb). split; [split |].
  - apply checkpoint_name_inj.
  - intros ->. reflexivity.
  - intros Heq. unfold Files.create_filenames in Hna, Hnb.
    destruct (Dynamics.contains a lambda_array); [| discriminate].
    destruct (Dynamics.contains b lambda_array); [| discriminate].
    destruct (if restart then _ else _); simpl in *; [| discriminate].
    rewrite Heq in Hna. congruence.
Qed.




End SharedFiles.

(** ** Degenerate grids *)

Section DegenerateGrids.

Lemma lambda_grid_empty {T : Type} `{PyNum T} n (w : world T) :
  n <= 0 -> Runner.lambda_grid n w = (Ok [], w).
Proof.
  intros Hn. unfold Runner.lambda_grid, range.
  replace (Z.to_nat n) with 0%nat by lia. reflexivity.
Qed.

(** X15.
    A sequential run with [num_lambda <= 0] runs no window and returns the
    empty list; with [num_lambda = 1] the grid divides by
    [num_lambda - 1 = 0]: the run ends with a [ZeroDivisionError] before any
    window, on rationals and in binary64 alike. *)
Theorem degenerate_grid_runs :
  (forall (T : Type) `(PyNum T) run_window (w : world T) n,
      num_lambda (config w) = Some n -> run_parallel (config w) = false ->
      n <= 0 ->
      exists w', Runner.run_with run_window w = (Ok [], w') /\
                 trace w' = trace w) /\
  (forall run_window (w : world Q),
      num_lambda (config w) = Some 1 -> run_parallel (config w) = false ->
      exists w', Runner.run_with run_window w = (Raise ZeroDivisionError, w') /\
                 trace w' = trace w) /\
  (forall run_window (w : world float),
      num_lambda (config w) = Some 1 -> run_parallel (config w) = false ->
      exists w', Runner.run_with run_window w = (Raise ZeroDivisionError, w') /\
                 trace w' = trace w).
Proof.
  split; [| split].
  - intros T HT run_window w n Hn Hp Hle.
    rewrite (run_with_sequential _ _ _ Hn Hp), lambda_grid_empty by exact Hle.
    simpl. eexists. split; [reflexivity |].
    unfold sequential_start. destruct (String.eqb _ _); reflexivity.
  - intros run_window w Hn Hp.
    rewrite (run_with_sequential _ _ _ Hn Hp).
    change (Runner.lambda_grid 1 w).1 with (Raise (A := list Q) ZeroDivisionError).
    eexists. split; [reflexivity |].
    destruct (String.eqb _ _); reflexivity.
  - intros run_window w Hn Hp.
    rewrite (run_with_sequential _ _ _ Hn Hp).
    change (Runner.lambda_grid 1 w).1
      with (Raise (A := list float) ZeroDivisionError).
    eexists. split; [reflexivity |].
    destruct (String.eqb _ _); reflexivity.
Qed.

End DegenerateGrids.

(** ** The elements of the energy-sample list *)

Section SameElements.
Context {T : Type} `{PyNum T}.
Implicit Types (w : world T) (l : list T) (x : T).

Lemma insert_perm x l : Dynamics.insert x l ≡ₚ x :: l.
Proof.
  induction l as [| y l IH]; simpl; [reflexivity |].
  destruct (num_lt y x); [| reflexivity].
  rewrite IH. apply Permutation_swap.
Qed.

Lemma sorted_perm l : Dynamics.sorted l ≡ₚ l.
Proof.
  induction l as [| x l IH]; simpl; [reflexivity |].
  rewrite insert_perm, IH. reflexivity.
Qed.

(** X4.
    The energy-sample list the constructor stores holds the values of the
    caller's list, each as often as there, and [lambda_val] once more when
    it was not among them: sorting loses and adds nothing. *)
Theorem lambda_energy_same_elements system (lambda_val : T) lambda_array
    (lambda_energy : loc) increment device has_space w d w' ys :
  lists w !! lambda_energy = Some ys ->
  Dynamics.__init__ system lambda_val lambda_array (Some lambda_energy)
    increment device has_space w = (Ok d, w') ->
  exists xs,
    lists w' !! _lambda_energy d = Some xs /\
    xs ≡ₚ (if Dynamics.contains lambda_val ys then ys else lambda_val :: ys).
Proof.
  intros Hys Hrun. apply init_lists in Hrun as [_ (ys' & Hys' & Hxs)].
  assert (ys' = ys) as -> by congruence.
  eexists. split; [exact Hxs |]. rewrite sorted_perm.
  destruct (Dynamics.contains lambda_val ys); [reflexivity |].
  symmetry. apply Permutation_cons_append.
Qed.

End SameElements.

(** ** The further properties at the example worlds *)

Section Examples2.
Import Example Example2.
Local Open Scope Q_scope.

Lemma get_cuda_devices_of_join_witness :
  (Runner.get_cuda_devices parallel_cuda).1 =
  Ok ["0"%string; "1"%string; "2"%string; "3"%string].
Proof.
  assert (Hne : ["0"%string; "1"%string; "2"%string; "3"%string] <> [])
    by discriminate.
  assert (Hfree : Forall (fun p => comma_free p = true)
                    ["0"%string; "1"%string; "2"%string; "3"%string])
    by (repeat constructor).
  assert (Hs : cuda_visible_devices parallel_cuda =
               Some (join_comma ["0"%string; "1"%string; "2"%string; "3"%string]))
    by reflexivity.
  exact (get_cuda_devices_of_join parallel_cuda _ Hne Hfree Hs).
Defined.

Lemma device_pool_ids_witness :
  exists w1,
    Runner._create_shared_resources parallel_cuda = (Ok tt, w1) /\
    gpu_pool w1 = Some (map str_of_nat (seq 0 4)).
Proof.
  assert (Hp : platform (config parallel_cuda) = "cuda"%string) by reflexivity.
  assert (Hs : cuda_visible_devices parallel_cuda = Some "0,1,2,3"%string)
    by reflexivity.
  assert (Hnd : NoDup (split_comma "0,1,2,3")).
  { apply (bool_decide_unpack _). vm_compute. reflexivity. }
  exact (device_pool_ids parallel_cuda "0,1,2,3" Hp Hs Hnd).
Defined.

Lemma pool_remove_then_update_witness :
  exists l',
    (Runner._remove_gpu_from_pool "0";;; Runner._update_gpu_pool "0")
      one_device = (Ok tt, with_gpu_pool (l' ++ ["0"%string]) one_device) /\
    Runner.remove_first "0" ["0"%string] = Some l' /\
    l' ++ ["0"%string] ≡ₚ ["0"%string].
Proof.
  assert (Hl : gpu_pool one_device = Some ["0"%string]) by reflexivity.
  assert (Hg : "0"%string ∈ ["0"%string]) by (apply list_elem_of_here).
  exact (proj1 (pool_remove_then_update "0" ["0"%string] one_device Hl) Hg).
Defined.

Lemma device_returned_after_construction_witness :
  gpu_pool (Runner.run_window_with (initialise_with_energy 0%nat) (1 # 2)
              one_device).2 = Some ([] ++ ["0"%string]).
Proof.
  assert (Hp : platform (config one_device) = "cuda"%string) by reflexivity.
  assert (Hpar : run_parallel (config one_device) = true) by reflexivity.
  assert (Hpool : gpu_pool one_device = Some ["0"%string]) by reflexivity.
  assert (Hinit : initialise_with_energy 0%nat (runner_system one_device)
                    (1 # 2) (Some (DevStr "0"))
                    (acquired (1 # 2) "0"%string [] one_device) =
                  (Ok tt, constructed_on_device))
    by (vm_compute; reflexivity).
  assert (Hpar1 : run_parallel (config constructed_on_device) = true)
    by (vm_compute; reflexivity).
  assert (Hpool1 : gpu_pool constructed_on_device = Some [])
    by (vm_compute; reflexivity).
  exact (device_returned_after_construction (initialise_with_energy 0%nat)
           (1 # 2) one_device "0"%string [] constructed_on_device
           Hp Hpar Hpool Hinit Hpar1 Hpool1).
Defined.

Lemma unminimised_failure_is_type_error_witness :
  Runner.unpack_run (1 # 2) failing_window =
    (Raise (TypeError "cannot unpack non-iterable NoneType object"),
     with_trace
       (trace (Runner.attempt None failing_window).2 ++
        [Log Error (MsgDynamicsFailed (1 # 2) (EngineError 1))])
       (Runner.attempt None failing_window).2).
Proof.
  assert (Hm : minimise (config failing_window) = false) by reflexivity.
  assert (Ha : Runner.attempt None failing_window =
               (Raise (EngineError 1), (Runner.attempt None failing_window).2))
    by (vm_compute; reflexivity).
  exact (unminimised_failure_is_type_error (1 # 2) failing_window
           (EngineError 1) _ Hm Ha).
Defined.

Lemma sequential_run_collects_witness :
  (Runner.run_with completes sequential).1 =
  Ok (map Runner.Complete [0; 1 # 2; 1]).
Proof.
  assert (Hn : num_lambda (config sequential) = Some 3%Z) by reflexivity.
  assert (Hp : run_parallel (config sequential) = false) by reflexivity.
  assert (Hg : (Runner.lambda_grid 3 sequential).1 = Ok [0; 1 # 2; 1])
    by (vm_compute; reflexivity).
  assert (Hw : forall lambda_value w0,
             exists w1, completes lambda_value w0 =
                        (Ok (Runner.Complete lambda_value), w1))
    by (intros lambda_value w0; exists w0; reflexivity).
  exact (sequential_run_collects completes sequential 3 [0; 1 # 2; 1]
           Hn Hp Hg Hw).
Defined.

Lemma parallel_run_catches_witness :
  exists rs w',
    Runner.run_with Runner.run_window parallel_cpu = (Ok rs, w') /\
    (length rs <= 1)%nat.
Proof.
  assert (Hn : num_lambda (config parallel_cpu) = Some 3%Z) by reflexivity.
  assert (Hp : run_parallel (config parallel_cpu) = true) by reflexivity.
  assert (Hs : (Runner._create_shared_resources;;;
                Runner.configure_workers 3) parallel_cpu =
               (Ok tt, workers_chosen)) by (vm_compute; reflexivity).
  assert (Hpos : (0 < default 0 (max_workers workers_chosen))%Z)
    by (vm_compute; reflexivity).
  assert (Hne : lambda_values parallel_cpu <> []) by discriminate.
  exact (parallel_run_catches Runner.run_window parallel_cpu 3 workers_chosen
           Hn Hp Hs Hpos Hne).
Defined.

Lemma threads_not_oversubscribed_witness :
  exists workers threads,
    max_workers (Runner.run_with Runner.run_window parallel_cpu).2 =
      Some workers /\
    extra_args (config (Runner.run_with Runner.run_window parallel_cpu).2)
      !! "threads" = Some threads /\
    (1 <= workers <= 3)%Z /\ (1 <= threads)%Z /\
    (workers * threads <= max_threads (config parallel_cpu))%Z /\
    (max_threads (config parallel_cpu) < workers * (threads + 1))%Z.
Proof.
  assert (Hn : num_lambda (config parallel_cpu) = Some 3%Z) by reflexivity.
  assert (Hp : run_parallel (config parallel_cpu) = true) by reflexivity.
  assert (Hc : platform (config parallel_cpu) = "cpu"%string) by reflexivity.
  assert (Ht : (0 < max_threads (config parallel_cpu))%Z) by reflexivity.
  assert (H3 : (0 < 3)%Z) by reflexivity.
  exact (threads_not_oversubscribed Runner.run_window parallel_cpu 3
           Hn Hp Hc Ht H3).
Defined.

Lemma run_returns_no_result_witness :
  exists rs, (Runner.run parallel_cpu).1 = Ok rs /\ rs = [].
Proof.
  exists []. split; [vm_compute; reflexivity |].
  assert (Hrun : Runner.run parallel_cpu = (Ok [], (Runner.run parallel_cpu).2))
    by (vm_compute; reflexivity).
  exact (run_returns_no_result parallel_cpu [] _ Hrun).
Defined.



Lemma constructor_checks_witness :
  let r := Dynamics.__init__ (runner_system rational_input) (1 # 2)
             (lambda_values rational_input) (Some 0%nat) (1 # 1000) None
             true rational_input in
  (perturbable (runner_system rational_input) = false ->
   r = (Raise (KeyError "No perturbable molecules in the system"),
        rational_input)) /\
  (perturbable (runner_system rational_input) = true ->
   Dynamics.contains (1 # 2) (lambda_values rational_input) = true ->
   exists d, r.1 = Ok d /\
     _current_block d = 0%Z /\ _lambda_val d = 1 # 2 /\
     _lambda_array d = lambda_values rational_input /\
     _increment d = 1 # 1000 /\
     _device d = None /\ _has_space d = true /\
     _lambda_grad d = None /\ _nrg_sample d = 0%Z) /\
  (perturbable (runner_system rational_input) = true ->
   self_equal (1 # 2) ->
   Dynamics.contains (1 # 2) (lambda_values rational_input) = false ->
   r.1 = Raise (ValueError "lambda_value not in lambda_array")).
Proof.
  assert (Hr : restart (config rational_input) = false) by reflexivity.
  assert (Hl : lists rational_input !! 0%nat = Some [0; 1])
    by (vm_compute; reflexivity).
  exact (constructor_checks (runner_system rational_input) (1 # 2)
           (lambda_values rational_input) 0%nat (1 # 1000) None true
           rational_input [0; 1] Hr Hl).
Defined.


Lemma restart_runtime_accumulates_witness :
  runtime (config
    (Dynamics.__init__ (runner_system restarted) 1 (lambda_values restarted)
       (Some 0%nat) (1 # 1000) None true restarted_once).2) =
  num_sub (num_sub (runtime (config restarted))
                   (time (runner_system restarted)))
          (time (runner_system restarted)).
Proof.
  assert (Hr : restart (config restarted) = true) by reflexivity.
  assert (H1 : exists d1,
             Dynamics.__init__ (runner_system restarted) (1 # 2)
               (lambda_values restarted) (Some 0%nat) (1 # 1000) None true
               restarted = (Ok d1, restarted_once))
    by (eexists; vm_compute; reflexivity).
  destruct H1 as [d1 H1].
  assert (H2 : exists d2,
             Dynamics.__init__ (runner_system restarted) 1
               (lambda_values restarted) (Some 0%nat) (1 # 1000) None true
               restarted_once =
             (Ok d2,
              (Dynamics.__init__ (runner_system restarted) 1
                 (lambda_values restarted) (Some 0%nat) (1 # 1000) None true
                 restarted_once).2))
    by (eexists; vm_compute; reflexivity).
  destruct H2 as [d2 H2].
  exact (restart_runtime_accumulates (runner_system restarted)
           (runner_system restarted) (1 # 2) 1 (lambda_values restarted)
           (Some 0%nat) (Some 0%nat) (1 # 1000) None true restarted d1
           restarted_once d2 _ Hr H1 H2).
Defined.

(** On that example: 10 time units configured and 6 simulated leave 4 after
    the first construction and [-2] after the second. *)
Example restart_runtime_twice :
  runtime (config restarted_once) = 4 /\
  runtime (config
    (Dynamics.__init__ (runner_system restarted) 1 (lambda_values restarted)
       (Some 0%nat) (1 # 1000) None true restarted_once).2) = (-2 # 1).
Proof. split; vm_compute; reflexivity. Qed.

Lemma generate_lam_vals_in_range_witness :
  [0.0015%float] <> [] /\
  Forall (fun v => v = num_sub 0.0005%float 0.001%float /\
                     num_lt v num_zero = false \/
                   v = num_add 0.0005%float 0.001%float /\
                     num_lt num_one v = false)
    [0.0015%float].
Proof.
  assert (Hg : Dynamics.generate_lam_vals 0.0005%float 0.001%float =
               Ok [0.0015%float]) by (vm_compute; reflexivity).
  exact (generate_lam_vals_in_range 0.0005%float 0.001%float _ Hg).
Defined.

Lemma skipped_stages_witness :
  exists evs,
    trace (Dynamics._run None false window).2 = trace window ++ evs /\
    Forall (fun e => is_equilibration e = false) evs /\
    (minimise (config window) = false ->
     Forall (fun e => is_minimisation e = false) evs).
Proof.
  assert (Hskip : num_lt num_zero (equilibration_time (config window))
                  && negb false = false) by (vm_compute; reflexivity).
  exact (skipped_stages None false window Hskip).
Defined.

Lemma production_lambda_windows_witness :
  exists evs,
    trace (Dynamics._run None false window).2 = trace window ++ evs /\
    Forall (fun la => la = [0; 1 # 2; 1] ++ [499 # 1000; 501 # 1000])
      (lambda_windows evs).
Proof.
  assert (Hd : exists d, sim window = Some d /\
             lists window !! _lambda_energy d = Some [0; 1 # 2; 1] /\
             Dynamics.generate_lam_vals (_lambda_val d) (_increment d) =
               Ok [499 # 1000; 501 # 1000]).
  { eexists. split; [vm_compute; reflexivity |].
    split; vm_compute; reflexivity. }
  destruct Hd as (d & Hd & Hl & Hg).
  exact (production_lambda_windows None false window d _ _ Hd Hl Hg).
Defined.

(** On that example the four engine runs of the window (three blocks of 3
    and the remainder) are given the energy lambdas and the two
    neighbours. *)
Example production_lambda_windows_example :
  lambda_windows (trace (Dynamics._run None false window).2) =
  repeat [0; 1 # 2; 1; 499 # 1000; 501 # 1000] 4.
Proof. vm_compute. reflexivity. Qed.

Lemma first_minimisation_witness :
  exists evs,
    trace (Dynamics._run (Some 0) false window).2 =
    trace window ++
    [Enter_run (Some 0); SaveTopology; Log Info (MsgMinimising 0);
     Minimise 0 "h_bonds" "h_bonds_not_heavy_perturbed"] ++ evs.
Proof.
  assert (Hd : exists d, sim window = Some d)
    by (eexists; vm_compute; reflexivity).
  destruct Hd as [d Hd].
  assert (Hm : minimise (config window) = true) by reflexivity.
  assert (Hs : engine window (trace window ++ [Enter_run (Some 0)])
                 SaveTopology = None) by reflexivity.
  exact (first_minimisation (Some 0) false window d Hd Hm Hs).
Defined.

Lemma attempt_returns_neighbours_witness :
  exists d,
    sim window = Some d /\
    Dynamics.generate_lam_vals (_lambda_val d) (_increment d) =
      Ok [499 # 1000; 501 # 1000].
Proof.
  assert (Hd : exists d, sim window = Some d)
    by (eexists; vm_compute; reflexivity).
  destruct Hd as [d Hd]. exists d. split; [exact Hd |].
  assert (Hrun : Runner.attempt None window =
                 (Ok (Dynamics.EnergyTrajectory (1 # 2),
                      [499 # 1000; 501 # 1000], tt),
                  (Runner.attempt None window).2))
    by (vm_compute; reflexivity).
  exact (attempt_returns_neighbours None window d _ _ _ _ Hd Hrun).
Defined.

Lemma lambda_energy_same_elements_witness :
  exists xs,
    lists (Dynamics.__init__ (runner_system rational_input) (1 # 2)
             (lambda_values rational_input) (Some 0%nat) (1 # 1000) None
             true rational_input).2
      !! _lambda_energy
           {| _current_block := 0; _lambda_val := 1 # 2;
              _lambda_array := lambda_values rational_input;
              _lambda_energy := 2%nat; _increment := 1 # 1000;
              _device := None; _has_space := true; _lambda_grad := None;
              _nrg_sample := 0 |} = Some xs /\
    xs ≡ₚ (if Dynamics.contains (1 # 2) [0; 1] then [0; 1]
           else [1 # 2; 0; 1]).
Proof.
  assert (Hl : lists rational_input !! 0%nat = Some [0; 1])
    by (vm_compute; reflexivity).
  assert (Hrun : Dynamics.__init__ (runner_system rational_input) (1 # 2)
             (lambda_values rational_input) (Some 0%nat) (1 # 1000) None
             true rational_input =
           (Ok {| _current_block := 0; _lambda_val := 1 # 2;
                  _lambda_array := lambda_values rational_input;
                  _lambda_energy := 2%nat; _increment := 1 # 1000;
                  _device := None; _has_space := true; _lambda_grad := None;
                  _nrg_sample := 0 |},
            (Dynamics.__init__ (runner_system rational_input) (1 # 2)
               (lambda_values rational_input) (Some 0%nat) (1 # 1000) None
               true rational_input).2))
    by (vm_compute; reflexivity).
  exact (lambda_energy_same_elements (runner_system rational_input) (1 # 2)
           (lambda_values rational_input) 0%nat (1 # 1000) None true
           rational_input _ _ [0; 1] Hl Hrun).
Defined.

Lemma windows_share_files_witness :
  exists names_a names_b,
    Files.create_filenames ∅ close_lambdas (1 # 2) false =
      Some (Ok names_a) /\
    Files.create_filenames ∅ close_lambdas (500001 # 1000000) false =
      Some (Ok names_b) /\
    (names_a !! "checkpoint" = names_b !! "checkpoint" <->
     num_round (1 # 2) 5 = num_round (500001 # 1000000) 5) /\
    (num_round (1 # 2) 5 = num_round (500001 # 1000000) 5 ->
     names_a = names_b).
Proof.
  assert (Ha : 0 <= 1 # 2) by (unfold Qle; simpl; lia).
  assert (Hb : 0 <= 500001 # 1000000) by (unfold Qle; simpl; lia).
  assert (Hca : Dynamics.contains (1 # 2) close_lambdas = true)
    by reflexivity.
  assert (Hcb : Dynamics.contains (500001 # 1000000) close_lambdas = true)
    by reflexivity.
  destruct (create_filenames_ok ∅ close_lambdas (1 # 2) Hca)
    as [names_a Hna].
  destruct (create_filenames_ok ∅ close_lambdas (500001 # 1000000) Hcb)
    as [names_b Hnb].
  exists names_a, names_b. split; [exact Hna |]. split; [exact Hnb |].
  exact (windows_share_files ∅ close_lambdas (1 # 2) (500001 # 1000000) false
           names_a names_b Ha Hb Hna Hnb).
Defined.

(** On that example both lambdas print as [0.50000]; a value half-way
    between two prints goes to the even one. *)
Example shared_checkpoint_example :
  num_fixed5 (1 # 2) = "0.50000"%string /\
  num_fixed5 (500001 # 1000000) = "0.50000"%string /\
  num_fixed5 (500005 # 1000000) = "0.50000"%string /\
  num_fixed5 (500015 # 1000000) = "0.50002"%string.
Proof. repeat split; vm_compute; reflexivity. Qed.


(** A restart in a directory that holds [config.yaml] and [config_1.yaml]:
    the configuration is written to [config_2.yaml]. *)
Example increment_filename_example :
  Files.increment_filename {[ "config.yaml"; "config_1.yaml"; "traj.dcd" ]}
    "config" "yaml" = Some "config_2.yaml"%string.
Proof. vm_compute. reflexivity. Qed.

Lemma create_filenames_names_witness :
  Files.create_filenames ∅ [0; 1 # 2; 1] (1 # 4) false =
    Some (Raise (ValueError "lambda_value not in lambda_array")) /\
  (Dynamics.create_filenames [0; 1 # 2; 1] (1 # 4) window).1 =
    Raise (ValueError "lambda_value not in lambda_array").
Proof.
  apply (proj2 (create_filenames_names ∅ [0; 1 # 2; 1] (1 # 4) false window));
    reflexivity.
Defined.

Lemma run_window_raises_witness :
  Runner.run_window (1 # 2)
    (a_world (a_config "opencl" false false true) 0) =
  (Raise (UnboundLocalError "df"),
   with_trace
     (trace (a_world (a_config "opencl" false false true) 0)
      ++ [Log Info (MsgRunningLambda (1 # 2))])
     (a_world (a_config "opencl" false false true) 0)).
Proof.
  apply (proj2 (proj2 (run_window_raises (1 # 2)
           (a_world (a_config "opencl" false false true) 0))));
    intros E; discriminate E.
Defined.

End Examples2.
